(** * chatbot-tui: session store and streaming chat turn

    A shallow embedding of [chatbot_tui/session.py], [chatbot_tui/llm.py]
    and the chat turn of [chatbot_tui/main.py], followed by the properties
    of the specification that were checked against it.

    Modelling conventions.
    - Python objects that are shared and mutated ([Session] instances) live
      in an object store ([heap]); a reference is a position in that store.
    - A Python [dict] keeps insertion order; [SessionManager._sessions] is an
      association list with unique keys, in insertion order.
    - The sessions directory maps the stem [k] of a file [k.json] to its
      content.  [json.dump] followed by [json.load] is taken to be the
      identity on values made of [None], [str], [list] and [dict].
    - [uuid.uuid4()] and [datetime.now().isoformat()] are inputs: every
      operation that may draw them receives the values drawn.
    - The OpenAI SDK and rich are outside the repository: what the SDK
      answers to a request, and which texts the console renders as markup,
      are inputs.
    - Exceptions are results; the state reached before a [raise] is kept. *)

From Stdlib Require Import String Ascii List ZArith Lia.
From stdpp Require Import base option list gmap strings sorting.

Import ListNotations.
Local Open Scope string_scope.
Local Open Scope list_scope.

(** ** Exceptions and results *)

Inductive exn : Type :=
| KeyError (msg : string)
| TypeError
| AttributeError
| JSONDecodeError
| FileNotFoundError
| LLMError (msg : string)
| MarkupError
| BaseException (text : string)
| OutsideModel.
(* [MarkupError] is rich's: the console was given a text that is not
   well-formed console markup.  [BaseException] stands for an exception of
   the SDK that is not an instance of [Exception] (KeyboardInterrupt,
   asyncio.CancelledError), with its text.
   [OutsideModel] has no Python counterpart: it marks a run on which Python
   goes on with a value that the typed model does not represent (a record
   field whose JSON type differs from the dataclass annotation, a reference
   that was never allocated). *)

Inductive result (A : Type) : Type :=
| Ok (a : A)
| Raise (e : exn).
Arguments Ok {A} a.
Arguments Raise {A} e.

Definition rbind {A B : Type} (r : result A) (k : A -> result B) : result B :=
  match r with
  | Ok a => k a
  | Raise e => Raise e
  end.

Global Instance result_ret : MRet result := fun _ a => Ok a.
Global Instance result_bind : MBind result := fun _ _ k r => rbind r k.

Fixpoint rmap_list {A B : Type} (f : A -> result B) (l : list A) : result (list B) :=
  match l with
  | [] => Ok []
  | x :: l' =>
      match f x with
      | Ok y =>
          match rmap_list f l' with
          | Ok ys => Ok (y :: ys)
          | Raise e => Raise e
          end
      | Raise e => Raise e
      end
  end.

(** ** Python dictionaries with [str] keys, in insertion order *)

Section PyDict.
Context {V : Type}.

Definition dict : Type := list (string * V).

(* d[k] as a lookup *)
Fixpoint dict_get (k : string) (d : dict) : option V :=
  match d with
  | [] => None
  | (k', v) :: d' => if decide (k = k') then Some v else dict_get k d'
  end.

(* k in d *)
Definition dict_in (k : string) (d : dict) : bool :=
  match dict_get k d with Some _ => true | None => false end.

(* d[k] = v : an existing key keeps its position, a new key goes last *)
Fixpoint dict_set (k : string) (v : V) (d : dict) : dict :=
  match d with
  | [] => [(k, v)]
  | (k', v') :: d' =>
      if decide (k = k') then (k', v) :: d' else (k', v') :: dict_set k v d'
  end.

(* del d[k] *)
Fixpoint dict_del (k : string) (d : dict) : dict :=
  match d with
  | [] => []
  | (k', v') :: d' =>
      if decide (k = k') then d' else (k', v') :: dict_del k d'
  end.

(* list(d.values()) *)
Definition dict_values (d : dict) : list V := map snd d.

Definition dict_keys (d : dict) : list string := map fst d.
End PyDict.
Arguments dict V : clear implicits.

(** ** [list.sort(key=..., reverse=True)]

    Python's sort is stable, also with [reverse=True]: items with equal keys
    keep the order they had.  The stable arrangement of a list is unique, so
    an insertion sort that places an item before the first one whose key is
    not greater computes what [list.sort] computes.  Keys are [str] and are
    compared character by character. *)

Section SortDesc.
Context {A : Type} (key : A -> string).

Fixpoint insert_desc (x : A) (l : list A) : list A :=
  match l with
  | [] => [x]
  | y :: l' =>
      if String.ltb (key x) (key y) then y :: insert_desc x l' else x :: l
  end.

Definition sort_desc (l : list A) : list A := foldr insert_desc [] l.
End SortDesc.

(** ** JSON values, as [json.load] returns them *)

#[local] Unset Elimination Schemes.
Inductive json : Type :=
| JNull
| JBool (b : bool)
| JNum (n : Z)
| JStr (s : string)
| JList (l : list json)
| JObj (o : dict json).
#[local] Set Elimination Schemes.

(* data[k] *)
Definition getitem (data : json) (k : string) : result json :=
  match data with
  | JObj o =>
      match dict_get k o with
      | Some v => Ok v
      | None => Raise (KeyError k)
      end
  | _ => Raise TypeError
  end.

(* data.get(k) *)
Definition get_or_none (data : json) (k : string) : result json :=
  match data with
  | JObj o => Ok (default JNull (dict_get k o))
  | _ => Raise AttributeError
  end.

(* for m in v : a list yields its items, a str its characters, a dict its
   keys; nothing else is iterable *)
Definition iterate (v : json) : result (list json) :=
  match v with
  | JList l => Ok l
  | JStr s => Ok (map (fun c => JStr (String c EmptyString)) (list_ascii_of_string s))
  | JObj o => Ok (map JStr (dict_keys o))
  | _ => Raise TypeError
  end.

(* The dataclass annotations: a field declared [str] holds a string, one
   declared [Optional[str]] a string or [None]. *)
Definition as_str (v : json) : result string :=
  match v with
  | JStr s => Ok s
  | _ => Raise OutsideModel
  end.

Definition as_opt_str (v : json) : result (option string) :=
  match v with
  | JNull => Ok None
  | JStr s => Ok (Some s)
  | _ => Raise OutsideModel
  end.

Definition of_opt_str (o : option string) : json :=
  match o with
  | None => JNull
  | Some s => JStr s
  end.

(* Truth value of a [str]: only the empty string is false. *)
Definition truthy (s : string) : bool := negb (String.eqb s "").

(** ** Conversation model *)

Module Message.
Record t : Type := mk {
  role : string;
  content : string;
  timestamp : string
}.

(* asdict(self) *)
Definition to_dict (self : t) : json :=
  JObj [("role", JStr (role self));
        ("content", JStr (content self));
        ("timestamp", JStr (timestamp self))].

Definition from_dict (data : json) : result t :=
  r ← getitem data "role";
  c ← getitem data "content";
  ts ← getitem data "timestamp";
  r ← as_str r;
  c ← as_str c;
  ts ← as_str ts;
  mret (mk r c ts).
End Message.

(* An entry of the list sent to the completion API: {"role": r, "content": c} *)
Definition api_entry (r c : string) : dict string :=
  [("role", r); ("content", c)].

Module Session.
Record t : Type := mk {
  id : string;
  messages : list Message.t;
  created_at : string;
  system_prompt : option string
}.

(* self.messages.append(message) *)
Definition add_message (self : t) (message : Message.t) : t :=
  mk (id self) (messages self ++ [message]) (created_at self) (system_prompt self).

Definition to_dict (self : t) : json :=
  JObj [("id", JStr (id self));
        ("messages", JList (map Message.to_dict (messages self)));
        ("created_at", JStr (created_at self));
        ("system_prompt", of_opt_str (system_prompt self))].

Definition from_dict (data : json) : result t :=
  i ← getitem data "id";
  ms ← getitem data "messages";
  ms ← iterate ms;
  ms ← rmap_list Message.from_dict ms;
  c ← getitem data "created_at";
  sp ← get_or_none data "system_prompt";
  i ← as_str i;
  c ← as_str c;
  sp ← as_opt_str sp;
  mret (mk i ms c sp).

Definition get_messages_for_api (self : t) : list (dict string) :=
  let messages :=
    map (fun m => api_entry (Message.role m) (Message.content m)) (messages self) in
  match system_prompt self with
  | Some p => if truthy p then api_entry "system" p :: messages else messages
  | None => messages
  end.
End Session.

(** ** Program state

    The state gathers what the program mutates: the store of [Session]
    objects, the two attributes of the [SessionManager], the content of the
    sessions directory, and the two things a [ChatUI] changes (its streaming
    buffer and what it printed on the console). *)

(* A reference to a [Session] object: its position in the store. *)
Abbreviation ref := nat.

(* Content of a file [k.json]: text that [json.load] rejects, or the value
   it returns. *)
Inductive file : Type :=
| Unparseable
| Parsed (data : json).

Inductive panel : Type :=
| ErrorPanel (message : string)
| InfoPanel (message : string).

Record state : Type := State {
  heap : list Session.t;
  _sessions : dict ref;
  current_session : option ref;
  sessions_dir : gmap string file;
  streaming_content : string;
  console : list panel
}.

Definition set_heap (h : list Session.t) (st : state) : state :=
  State h (_sessions st) (current_session st) (sessions_dir st)
        (streaming_content st) (console st).
Definition set_sessions (d : dict ref) (st : state) : state :=
  State (heap st) d (current_session st) (sessions_dir st)
        (streaming_content st) (console st).
Definition set_current_session (c : option ref) (st : state) : state :=
  State (heap st) (_sessions st) c (sessions_dir st)
        (streaming_content st) (console st).
Definition set_sessions_dir (fs : gmap string file) (st : state) : state :=
  State (heap st) (_sessions st) (current_session st) fs
        (streaming_content st) (console st).
Definition set_streaming_content (s : string) (st : state) : state :=
  State (heap st) (_sessions st) (current_session st) (sessions_dir st)
        s (console st).
Definition set_console (c : list panel) (st : state) : state :=
  State (heap st) (_sessions st) (current_session st) (sessions_dir st)
        (streaming_content st) c.

(** A computation returns or raises, and leaves a state in both cases. *)
Definition M (A : Type) : Type := state -> result A * state.

Global Instance M_ret : MRet M := fun _ a st => (Ok a, st).
Global Instance M_bind : MBind M := fun _ _ k m st =>
  match m st with
  | (Ok a, st') => k a st'
  | (Raise e, st') => (Raise e, st')
  end.

Definition raise {A : Type} (e : exn) : M A := fun st => (Raise e, st).
Definition gets {A : Type} (f : state -> A) : M A := fun st => (Ok (f st), st).
Definition modify (f : state -> state) : M unit := fun st => (Ok tt, f st).
Definition lift {A : Type} (r : result A) : M A := fun st => (r, st).

(* try: body  except LLMError as e: handler(str(e)) *)
Definition try_except_LLMError {A : Type} (body : M A) (handler : string -> M A) : M A :=
  fun st =>
    match body st with
    | (Raise (LLMError msg), st') => handler msg st'
    | r => r
    end.

(* try: body  except (json.JSONDecodeError, KeyError): continue *)
Definition try_except_corrupted (body : M unit) : M unit :=
  fun st =>
    match body st with
    | (Raise JSONDecodeError, st') => (Ok tt, st')
    | (Raise (KeyError _), st') => (Ok tt, st')
    | r => r
    end.

Fixpoint for_each {A : Type} (body : A -> M unit) (l : list A) : M unit :=
  match l with
  | [] => mret tt
  | x :: l' => body x;; for_each body l'
  end.

(** *** Session objects in the store *)

(* Session(...) : a new object *)
Definition new_session (s : Session.t) : M ref :=
  fun st => (Ok (length (heap st)), set_heap (heap st ++ [s]) st).

Definition deref (r : ref) : M Session.t :=
  fun st =>
    match heap st !! r with
    | Some s => (Ok s, st)
    | None => (Raise OutsideModel, st)
    end.

(* session.add_message(message) *)
Definition add_message (self : ref) (message : Message.t) : M unit :=
  s ← deref self;
  modify (fun st => set_heap (<[self := Session.add_message s message]> (heap st)) st).

(* session.get_messages_for_api() *)
Definition get_messages_for_api (self : ref) : M (list (dict string)) :=
  s ← deref self;
  mret (Session.get_messages_for_api s).

(** ** Session store *)

Module SessionManager.

(* uuid4 and now are the values drawn by the dataclass defaults *)
Definition create_session (uuid4 now : string) (system_prompt : option string) : M ref :=
  session ← new_session (Session.mk uuid4 [] now system_prompt);
  s ← deref session;
  modify (fun st => set_sessions (dict_set (Session.id s) session (_sessions st)) st);;
  modify (set_current_session (Some session));;
  mret session.

(* the keys [s.created_at] that [sort] computes, one per item *)
Fixpoint created_at_keys (l : list ref) : M (list (string * ref)) :=
  match l with
  | [] => mret []
  | r :: l' =>
      s ← deref r;
      ks ← created_at_keys l';
      mret ((Session.created_at s, r) :: ks)
  end.

Definition list_sessions : M (list ref) :=
  sessions ← gets (fun st => dict_values (_sessions st));
  keyed ← created_at_keys sessions;
  mret (map snd (sort_desc fst keyed)).

Definition get_session (session_id : string) : M ref :=
  d ← gets _sessions;
  match dict_get session_id d with
  | None => raise (KeyError ("Session " +:+ session_id +:+ " not found"))
  | Some session => mret session
  end.

Definition switch_to_session (session_id : string) : M unit :=
  session ← get_session session_id;
  modify (set_current_session (Some session)).

(* [uuid4] and [now] are drawn only when the store became empty and a
   session is created *)
Definition delete_session (uuid4 now : string) (session_id : string) : M unit :=
  d ← gets _sessions;
  if negb (dict_in session_id d)
  then raise (KeyError ("Session " +:+ session_id +:+ " not found"))
  else
    (* session_file.unlink() when the file exists *)
    modify (fun st => set_sessions_dir (delete session_id (sessions_dir st)) st);;
    modify (fun st => set_sessions (dict_del session_id (_sessions st)) st);;
    cur ← gets current_session;
    match cur with
    | None => mret tt
    | Some c =>
        s ← deref c;
        if decide (Session.id s = session_id)
        then
          d ← gets _sessions;
          match dict_values d with
          | first :: _ => modify (set_current_session (Some first))
          | [] =>
              session ← create_session uuid4 now None;
              modify (set_current_session (Some session))
          end
        else mret tt
    end.

Definition save_session (session : ref) : M unit :=
  s ← deref session;
  modify (fun st =>
    set_sessions_dir (<[Session.id s := Parsed (Session.to_dict s)]> (sessions_dir st)) st).

(* open(session_file); json.load(f) *)
Definition json_load (name : string) : M json :=
  fs ← gets sessions_dir;
  match fs !! name with
  | None => raise FileNotFoundError
  | Some Unparseable => raise JSONDecodeError
  | Some (Parsed data) => mret data
  end.

Definition load_session (session_id : string) : M ref :=
  fs ← gets sessions_dir;
  match fs !! session_id with
  | None => raise (KeyError ("Session file for " +:+ session_id +:+ " not found"))
  | Some _ =>
      data ← json_load session_id;
      s ← lift (Session.from_dict data);
      session ← new_session s;
      modify (fun st => set_sessions (dict_set session_id session (_sessions st)) st);;
      mret session
  end.

(* [dir_exists] is what [self.sessions_dir.exists()] returns; [names] is the
   sequence of files that [glob("*.json")] yields, in the order it yields
   them (each [k] stands for [k.json]) *)
Definition load_all_sessions (dir_exists : bool) (names : list string) : M unit :=
  if negb dir_exists then mret tt
  else
    for_each (fun session_file =>
      try_except_corrupted (
        data ← json_load session_file;
        s ← lift (Session.from_dict data);
        session ← new_session s;
        s ← deref session;
        modify (fun st => set_sessions (dict_set (Session.id s) session (_sessions st)) st)))
      names;;
    sessions ← list_sessions;
    match sessions with
    | first :: _ => modify (set_current_session (Some first))
    | [] => mret tt
    end.

(* The state in which [__init__] starts, for a given directory content. *)
Definition fresh (dir : gmap string file) : state :=
  State [] [] None dir "" [].

(* SessionManager(sessions_dir).  The constructor first makes the directory
   ([mkdir(parents=True, exist_ok=True)]), so the [exists()] of the
   [load_all_sessions] it then calls is True. *)
Definition init (names : list string) (uuid4 now : string) : M unit :=
  modify (set_sessions []);;
  modify (set_current_session None);;
  load_all_sessions true names;;
  d ← gets _sessions;
  match d with
  | [] => _ ← create_session uuid4 now None; mret tt
  | _ :: _ => mret tt
  end.
End SessionManager.

(** ** Chat UI: the streaming buffer and the console *)

Module ChatUI.
(* rich is outside the repository.  [console.print(Panel(message, ...))]
   takes the [str] it is given for console markup and parses it while the
   panel is rendered, before anything is written: a closing tag that
   matches no open tag, as in "[/b]", raises rich's MarkupError.
   [renders] tells which texts the console of this UI accepts. *)
Record t : Type := { renders : string -> bool }.

Definition add_streaming_content (chunk : string) : M unit :=
  modify (fun st => set_streaming_content (streaming_content st +:+ chunk) st).

Definition clear_streaming_content : M unit :=
  modify (set_streaming_content "").

(* self.console.print(Panel(message, title=":warning: Error", border_style="red")) *)
Definition display_error (self : t) (message : string) : M unit :=
  if renders self message
  then modify (fun st => set_console (console st ++ [ErrorPanel message]) st)
  else raise MarkupError.

(* self.console.print(Panel(message, title=":information_source:", border_style="yellow")) *)
Definition display_info (self : t) (message : string) : M unit :=
  if renders self message
  then modify (fun st => set_console (console st ++ [InfoPanel message]) st)
  else raise MarkupError.
End ChatUI.

(** ** LLM client

    The OpenAI SDK is outside the repository.  What it does on one call of
    [chat.completions.create(..., stream=True)] is described by a
    [completion]: the call raises, or it returns an iterator that yields
    chunks and then either ends or raises.  An exception raised by the SDK
    is described by what the handlers of [chat_stream] ask of it. *)

Module LLM.
Record exception : Type := {
  is_APIError : bool;          (* isinstance(e, APIError) *)
  is_APITimeoutError : bool;   (* isinstance(e, APITimeoutError) *)
  is_Exception : bool;         (* isinstance(e, Exception) *)
  text : string                (* str(e) *)
}.

Record Delta : Type := { content : option string }.
Record Choice : Type := { delta : Delta }.
Record ChatCompletionChunk : Type := { choices : list Choice }.

Inductive completion : Type :=
| create_raises (e : exception)
| streams (chunks : list ChatCompletionChunk) (failure : option exception).

Record LLMClient : Type := {
  client : string -> list (dict string) -> completion;
  model : string;
  system_prompt : option string
}.

(* the three [except] clauses, in order; an exception that none of them
   catches (one that is not an instance of [Exception]) leaves the
   generator as it is *)
Definition wrap (e : exception) : exn :=
  if is_APIError e then LLMError ("API error: " +:+ text e)
  else if is_APITimeoutError e then LLMError ("Request timed out: " +:+ text e)
  else if is_Exception e then LLMError ("Unexpected error: " +:+ text e)
  else BaseException (text e).

(* if chunk.choices and chunk.choices[0].delta.content: yield ... *)
Definition yielded (chunk : ChatCompletionChunk) : option string :=
  match choices chunk with
  | [] => None
  | c :: _ =>
      match content (delta c) with
      | Some s => if truthy s then Some s else None
      | None => None
      end
  end.

(* What the generator yields, and the exception that ends it, if any. *)
Definition chat_stream (self : LLMClient) (messages : list (dict string))
  : list string * option exn :=
  let messages :=
    match system_prompt self with
    | Some p => if truthy p then api_entry "system" p :: messages else messages
    | None => messages
    end in
  match client self (model self) messages with
  | create_raises e => ([], Some (wrap e))
  | streams chunks failure => (omap yielded chunks, wrap <$> failure)
  end.
End LLM.

(** ** One chat turn of [run_chat_loop]

    The body of the loop for an input that is neither empty nor a command
    (main.py, from "Add user message to session" to the end of the
    [except LLMError] handler).  [live.update] only draws and is left out.
    [now_user] and [now_assistant] are the timestamps of the two messages.
    An exception that the handler does not catch, or that it raises itself,
    leaves the turn with the state reached by then. *)

Module Main.
(* session_manager.current_session, then a method call on it *)
Definition the_current_session : M ref :=
  cur ← gets current_session;
  match cur with
  | Some session => mret session
  | None => raise AttributeError
  end.

(* async for chunk in ...: assistant_content += chunk; ui.add_streaming_content(chunk) *)
Fixpoint consume (chunks : list string) (assistant_content : string) : M string :=
  match chunks with
  | [] => mret assistant_content
  | chunk :: rest =>
      ChatUI.add_streaming_content chunk;;
      consume rest (assistant_content +:+ chunk)
  end.

Definition chat_turn (llm_client : LLM.LLMClient) (ui : ChatUI.t)
    (user_input now_user now_assistant : string) : M unit :=
  let user_message := Message.mk "user" user_input now_user in
  cur ← the_current_session;
  add_message cur user_message;;
  cur ← the_current_session;
  SessionManager.save_session cur;;
  try_except_LLMError
    (ChatUI.clear_streaming_content;;
     cur ← the_current_session;
     messages ← get_messages_for_api cur;
     let '(chunks, failure) := LLM.chat_stream llm_client messages in
     assistant_content ← consume chunks "";
     match failure with Some e => raise e | None => mret tt end;;
     (if truthy assistant_content
      then
        let assistant_message := Message.mk "assistant" assistant_content now_assistant in
        cur ← the_current_session;
        add_message cur assistant_message;;
        cur ← the_current_session;
        SessionManager.save_session cur
      else mret tt);;
     ChatUI.clear_streaming_content)
    (fun e =>
       ChatUI.display_error ui ("LLM error: " +:+ e);;
       ChatUI.clear_streaming_content).
End Main.

(** ** Sequences of store operations

    The command loop calls one store operation per command; a [KeyError]
    is caught there and the loop goes on with the state reached. *)

Inductive op : Type :=
| Create (uuid4 now : string) (system_prompt : option string)
| Delete (uuid4 now : string) (session_id : string)
| Switch (session_id : string).

Definition run_op (o : op) : M unit :=
  match o with
  | Create uuid4 now system_prompt =>
      _ ← SessionManager.create_session uuid4 now system_prompt; mret tt
  | Delete uuid4 now session_id => SessionManager.delete_session uuid4 now session_id
  | Switch session_id => SessionManager.switch_to_session session_id
  end.

Definition run_ops (ops : list op) (st : state) : state :=
  fold_left (fun st o => snd (run_op o st)) ops st.

(* The history part of the API projection: one {role, content} entry per
   stored message, in order. *)
Definition history (s : Session.t) : list (dict string) :=
  map (fun m => api_entry (Message.role m) (Message.content m)) (Session.messages s).

(* "".join(chunks) *)
Definition join (chunks : list string) : string := foldr String.append "" chunks.

(* The payload of a chunk: null when it has no choice or no content. *)
Definition payload (chunk : LLM.ChatCompletionChunk) : option string :=
  match LLM.choices chunk with
  | [] => None
  | c :: _ => LLM.content (LLM.delta c)
  end.

(* A chunk with one choice whose delta carries the given payload. *)
Definition chunk_of (payload : option string) : LLM.ChatCompletionChunk :=
  LLM.Build_ChatCompletionChunk [LLM.Build_Choice (LLM.Build_Delta payload)].

(* A client without system prompt whose every request gets the completion [c]. *)
Definition client_answering (c : LLM.completion) : LLM.LLMClient :=
  LLM.Build_LLMClient (fun _ _ => c) "gpt-4o-mini" None.

(* The list that [chat_stream] hands to the SDK: [messages], behind the
   client's system entry when it has a non-empty system prompt. *)
Definition request (self : LLM.LLMClient) (messages : list (dict string))
  : list (dict string) :=
  match LLM.system_prompt self with
  | Some p => if truthy p then api_entry "system" p :: messages else messages
  | None => messages
  end.

(* The exception with which a completion ends, if it ends with one: that of
   the call [create], or that of the iteration. *)
Definition raised (c : LLM.completion) : option LLM.exception :=
  match c with
  | LLM.create_raises e => Some e
  | LLM.streams _ failure => failure
  end.

(* One of the [except] clauses of [chat_stream] catches the exception. *)
Definition caught (e : LLM.exception) : bool :=
  LLM.is_APIError e || LLM.is_APITimeoutError e || LLM.is_Exception e.

(* The message of the [LLMError] made of a caught exception. *)
Definition classified (e : LLM.exception) : string :=
  (if LLM.is_APIError e then "API error: "
   else if LLM.is_APITimeoutError e then "Request timed out: "
   else "Unexpected error: ") +:+ LLM.text e.

(* The text of a panel. *)
Definition panel_text (p : panel) : string :=
  match p with
  | ErrorPanel message => message
  | InfoPanel message => message
  end.

(* How a chat turn can end, given the exception that ended the stream, if
   any, and the fragments received: it returns with the buffer emptied,
   after one error panel if the stream failed with an [LLMError]; the
   console rejects the text of that panel; an exception of the SDK that is
   not an instance of [Exception] leaves it. *)
Inductive turn_end (ui : ChatUI.t) (failure : option exn) (received buffer : string)
  : result unit -> list panel -> Prop :=
| turn_returns (shown : list panel) :
    buffer = "" ->
    (failure = None /\ shown = []
     \/ exists msg, failure = Some (LLMError msg)
         /\ ChatUI.renders ui ("LLM error: " +:+ msg) = true
         /\ shown = [ErrorPanel ("LLM error: " +:+ msg)]) ->
    turn_end ui failure received buffer (Ok tt) shown
| turn_markup (msg : string) :
    buffer = received ->
    failure = Some (LLMError msg) ->
    ChatUI.renders ui ("LLM error: " +:+ msg) = false ->
    turn_end ui failure received buffer (Raise MarkupError) []
| turn_interrupted (text : string) :
    buffer = received ->
    failure = Some (BaseException text) ->
    turn_end ui failure received buffer (Raise (BaseException text)) [].

(* For the examples: a UI whose console renders the texts without "[/", the
   start of a closing tag, and no other text.  rich renders these texts
   too, and it rejects "[/INST]", which closes a tag that was never
   opened. *)
Definition ui_example : ChatUI.t :=
  {| ChatUI.renders := fun s =>
       match String.index 0 "[/" s with Some _ => false | None => true end |}.

(** ** Vocabulary of the statements *)

(* The sort key of a stored session. *)
Definition created_at_of (st : state) (r : ref) : string :=
  from_option Session.created_at "" (heap st !! r).

(* [x] comes before [y] in descending key order, ties included. *)
Definition desc {A : Type} (key : A -> string) (x y : A) : Prop :=
  String.le (key y) (key x).

Definition appears_before {A : Type} (x y : A) (l : list A) : Prop :=
  exists l1 l2 l3, l = l1 ++ x :: l2 ++ y :: l3.

(* The ids of [list_sessions()], in order (what the /list command shows). *)
Definition list_session_ids : M (list string) :=
  sessions ← SessionManager.list_sessions;
  (fix ids (l : list ref) : M (list string) :=
     match l with
     | [] => mret []
     | r :: l' => s ← deref r; rest ← ids l'; mret (Session.id s :: rest)
     end) sessions.

(* Every reference held by the map points to an allocated object. *)
Definition live (st : state) : Prop :=
  Forall (fun r : ref => is_Some (heap st !! r)) (dict_values (_sessions st)).

(* A map entry binds a key to an object whose id is that key. *)
Definition entry_ok (st : state) (e : string * ref) : Prop :=
  exists s, heap st !! e.2 = Some s /\ Session.id s = e.1.

Definition entries_ok (st : state) : Prop :=
  NoDup (dict_keys (_sessions st)) /\ Forall (entry_ok st) (_sessions st).

(* The store invariant: well-formed entries, at least one of them, and a
   current session that the map holds. *)
Definition store_ok (st : state) : Prop :=
  entries_ok st
  /\ _sessions st <> []
  /\ exists (c : ref) (k : string),
      current_session st = Some c /\ dict_get k (_sessions st) = Some c.

(* The state after a new session object was bound to key [k]. *)
Definition bound (k : string) (s : Session.t) (cur : option ref) (st : state) : state :=
  State (heap st ++ [s]) (dict_set k (length (heap st)) (_sessions st)) cur
        (sessions_dir st) (streaming_content st) (console st).

(* The state after [session_id] left the directory and the map. *)
Definition removed (session_id : string) (st : state) : state :=
  State (heap st) (dict_del session_id (_sessions st)) (current_session st)
        (delete session_id (sessions_dir st)) (streaming_content st) (console st).

(** ** Commands, the input loop and the environment (main.py, ui.py)

    [console] records the panels that [display_error] and [display_info]
    printed; a panel whose text the console rejects is not printed.
    The welcome panel, the sessions panel and the live view are drawing
    only: what they read is evaluated, what they draw is not recorded.
    A character of a [str] is a code point below 256. *)

(* try: body  except KeyError: handler *)
Definition try_except_KeyError (body handler : M unit) : M unit :=
  fun st =>
    match body st with
    | (Raise (KeyError _), st') => handler st'
    | r => r
    end.

(* One line of the sessions panel: the arrow that marks the current
   session, the number shown, the first eight characters of the id and the
   number of messages. *)
Record row : Type := Row {
  marked : bool;
  number : nat;
  short_id : string;
  n_messages : nat
}.

(* What [split] takes for white space: str.isspace() on one character. *)
Definition isspace (c : ascii) : bool :=
  let n := nat_of_ascii c in
  (Nat.leb 9 n && Nat.leb n 13) || (Nat.leb 28 n && Nat.leb n 32)
  || Nat.eqb n 133 || Nat.eqb n 160.

Fixpoint lstrip (s : string) : string :=
  match s with
  | EmptyString => EmptyString
  | String c s' => if isspace c then lstrip s' else s
  end.

(* The longest prefix without white space, and what follows it. *)
Fixpoint first_word (s : string) : string * string :=
  match s with
  | EmptyString => (EmptyString, EmptyString)
  | String c s' =>
      if isspace c then (EmptyString, s)
      else let '(w, rest) := first_word s' in (String c w, rest)
  end.

(* s.split(maxsplit=1) : leading white space is dropped; after the first
   word the white space is dropped and what remains, if anything, is the
   second item, trailing white space included. *)
Definition split_maxsplit_1 (s : string) : list string :=
  match lstrip s with
  | EmptyString => []
  | s1 =>
      let '(w, rest) := first_word s1 in
      match lstrip rest with
      | EmptyString => [w]
      | r => [w; r]
      end
  end.

(* s.startswith("/") *)
Definition startswith_slash (s : string) : bool :=
  match s with
  | String c _ => Ascii.eqb c "/"
  | EmptyString => false
  end.

(* s[1:] *)
Definition drop_first (s : string) : string :=
  match s with
  | String _ s' => s'
  | EmptyString => EmptyString
  end.

(* The values one turn of the loop may draw: the id and creation time of a
   session created by a command, the timestamps of the two messages of a
   chat turn. *)
Record draws : Type := Draws {
  drawn_uuid4 : string;
  drawn_now : string;
  drawn_now_assistant : string
}.

(* How [run_chat_loop] ends: by [break], or by an exception that leaves it
   ([parts[0]] on an empty list raises IndexError). *)
Inductive loop_exit : Type :=
| Break
| Uncaught (e : exn)
| IndexError.

Module App.

(* What [load_env_vars] returns or raises. *)
Inductive env_vars : Type :=
| Loaded (base_url api_key : string)
| ValueError (message : string).

(* [base_url] and [api_key] are what os.getenv returns after load_dotenv() *)
Definition load_env_vars (base_url api_key : option string) : env_vars :=
  match base_url with
  | Some b =>
      if truthy b then
        match api_key with
        | Some k =>
            if truthy k then Loaded b k
            else ValueError ("OPENAI_API_KEY environment variable is not set. "
                             +:+ "Create a .env file with OPENAI_BASE_URL and OPENAI_API_KEY.")
        | None => ValueError ("OPENAI_API_KEY environment variable is not set. "
                              +:+ "Create a .env file with OPENAI_BASE_URL and OPENAI_API_KEY.")
        end
      else ValueError ("OPENAI_BASE_URL environment variable is not set. "
                       +:+ "Create a .env file with OPENAI_BASE_URL and OPENAI_API_KEY.")
  | None => ValueError ("OPENAI_BASE_URL environment variable is not set. "
                        +:+ "Create a .env file with OPENAI_BASE_URL and OPENAI_API_KEY.")
  end.

(* ChatUI.display_sessions_list: the rows, for i, session in enumerate(sessions) *)
Fixpoint display_sessions_list_from (i : nat) (sessions : list ref) (current_id : string)
  : M (list row) :=
  match sessions with
  | [] => mret []
  | session :: rest =>
      s ← deref session;
      rows ← display_sessions_list_from (S i) rest current_id;
      mret (Row (bool_decide (Session.id s = current_id)) (i + 1)
                (String.substring 0 8 (Session.id s))
                (length (Session.messages s)) :: rows)
  end.

Definition display_sessions_list (sessions : list ref) (current_id : string)
  : M (list row) :=
  display_sessions_list_from 0 sessions current_id.

(* [uuid4] and [now] are drawn only by a command that creates a session *)
Definition handle_command (uuid4 now : string) (command args : string) (ui : ChatUI.t)
  : M bool :=
  if String.eqb command "exit" || String.eqb command "quit" then mret true
  else if String.eqb command "new" then
    session ← SessionManager.create_session uuid4 now None;
    s ← deref session;
    ChatUI.display_info ui ("Created new session: " +:+ String.substring 0 8 (Session.id s));;
    mret false
  else if String.eqb command "list" then
    sessions ← SessionManager.list_sessions;
    cur ← Main.the_current_session;
    s ← deref cur;
    _ ← display_sessions_list sessions (Session.id s);
    mret false
  else if String.eqb command "switch" then
    if negb (truthy args) then
      ChatUI.display_error ui "Usage: /switch <session_id>";;
      mret false
    else
      try_except_KeyError
        (SessionManager.switch_to_session args;;
         ChatUI.display_info ui ("Switched to session: " +:+ String.substring 0 8 args))
        (ChatUI.display_error ui ("Session not found: " +:+ args));;
      mret false
  else if String.eqb command "delete" then
    if negb (truthy args) then
      ChatUI.display_error ui "Usage: /delete <session_id>";;
      mret false
    else
      try_except_KeyError
        (SessionManager.delete_session uuid4 now args;;
         ChatUI.display_info ui ("Deleted session: " +:+ String.substring 0 8 args))
        (ChatUI.display_error ui ("Session not found: " +:+ args));;
      mret false
  else
    ChatUI.display_error ui ("Unknown command: /" +:+ command);;
    mret false.

(* ui._render_conversation(session_manager.current_session): the messages
   of the current session are read *)
Definition render_conversation : M unit :=
  cur ← Main.the_current_session;
  _ ← deref cur;
  mret tt.

(* [script] is what [get_user_input] returns turn after turn, each line
   with the values that turn may draw; when it is over, [get_user_input]
   raises EOFError. *)
Fixpoint run_chat_loop (llm_client : LLM.LLMClient) (ui : ChatUI.t)
    (script : list (string * draws)) (st : state) : loop_exit * state :=
  match render_conversation st with
  | (Raise e, st') => (Uncaught e, st')
  | (Ok _, st) =>
      match script with
      | [] => (Break, st)
      | (user_input, d) :: script' =>
          if negb (truthy user_input) then run_chat_loop llm_client ui script' st
          else if startswith_slash user_input then
            match split_maxsplit_1 (drop_first user_input) with
            | [] => (IndexError, st)
            | command :: parts' =>
                let args := match parts' with a :: _ => a | [] => "" end in
                match handle_command (drawn_uuid4 d) (drawn_now d) command args ui st with
                | (Ok true, st') => (Break, st')
                | (Ok false, st') => run_chat_loop llm_client ui script' st'
                | (Raise e, st') => (Uncaught e, st')
                end
            end
          else
            match Main.chat_turn llm_client ui user_input (drawn_now d) (drawn_now_assistant d) st with
            | (Ok _, st') => run_chat_loop llm_client ui script' st'
            | (Raise e, st') => (Uncaught e, st')
            end
      end
  end.
End App.

(* The fields of a JSON object. *)
Definition fields (j : json) : dict json :=
  match j with
  | JObj o => o
  | _ => []
  end.

(* A file that the scan of [load_all_sessions] gets past: it is skipped as
   corrupted, or it yields a session. *)
Definition loadable (fs : gmap string file) (name : string) : Prop :=
  fs !! name = Some Unparseable
  \/ exists data, fs !! name = Some (Parsed data)
       /\ ((exists s, Session.from_dict data = Ok s)
           \/ (exists k, Session.from_dict data = Raise (KeyError k))).

(* The body of the loop of [load_all_sessions], for one file. *)
Definition load_file (session_file : string) : M unit :=
  try_except_corrupted (
    data ← SessionManager.json_load session_file;
    s ← lift (Session.from_dict data);
    session ← new_session s;
    s ← deref session;
    modify (fun st => set_sessions (dict_set (Session.id s) session (_sessions st)) st)).

(* A file with no usable record: it does not parse, or a field is missing. *)
Definition unusable (fs : gmap string file) (name : string) : Prop :=
  fs !! name = Some Unparseable
  \/ exists data k, fs !! name = Some (Parsed data)
       /\ Session.from_dict data = Raise (KeyError k).

(* The id of a stored session. *)
Definition id_of (st : state) (r : ref) : string :=
  from_option Session.id "" (heap st !! r).

(** * Properties *)

Ltac munfold :=
  unfold mbind, mret, M_bind, M_ret, result_bind, result_ret, rbind,
         raise, gets, modify, lift, deref, new_session in *.

Lemma bind_run {A B : Type} (m : M A) (k : A → M B) (st st' : state) (a : A) :
  m st = (Ok a, st') → (m ≫= k) st = k a st'.
Proof. intros H. unfold mbind, M_bind. by rewrite H. Qed.

(** ** Dictionaries *)

Section DictFacts.
Context {V : Type}.
Implicit Types (d : dict V) (k : string) (v : V).

Lemma dict_get_set_eq k v d : dict_get k (dict_set k v d) = Some v.
Proof.
  induction d as [|[k' v'] d IH]; simpl.
  - by rewrite decide_True.
  - destruct (decide (k = k')) as [->|Hne]; simpl.
    + by rewrite decide_True.
    + by rewrite decide_False.
Qed.

Lemma dict_get_set_ne k k' v d :
  k ≠ k' → dict_get k' (dict_set k v d) = dict_get k' d.
Proof.
  intros Hne. induction d as [|[k0 v0] d IH]; simpl.
  - by rewrite decide_False.
  - destruct (decide (k = k0)) as [->|Hne0]; simpl.
    + by rewrite !decide_False.
    + destruct (decide (k' = k0)); done.
Qed.

Lemma dict_get_del_ne k k' d :
  k ≠ k' → dict_get k' (dict_del k d) = dict_get k' d.
Proof.
  intros Hne. induction d as [|[k0 v0] d IH]; simpl; [done|].
  destruct (decide (k = k0)) as [->|Hne0]; simpl.
  - by rewrite decide_False.
  - destruct (decide (k' = k0)); done.
Qed.

Lemma dict_in_spec k d : dict_in k d = true ↔ is_Some (dict_get k d).
Proof.
  unfold dict_in. destruct (dict_get k d); split; intros H; done.
Qed.
End DictFacts.

Section DictValues.
Context {V : Type}.
Implicit Types (d : dict V) (k : string) (v : V).

Lemma dict_get_elem_of k v d : dict_get k d = Some v → (k, v) ∈ d.
Proof.
  induction d as [|[k' v'] d IH]; simpl; [done|].
  destruct (decide (k = k')) as [->|Hne].
  - intros [= ->]. apply list_elem_of_here.
  - intros H. apply list_elem_of_further. by apply IH.
Qed.

Lemma dict_get_values k v d : dict_get k d = Some v → v ∈ dict_values d.
Proof.
  intros H. apply dict_get_elem_of in H. unfold dict_values.
  apply list_elem_of_In. apply (in_map snd d (k, v)). by apply list_elem_of_In.
Qed.

Lemma dict_set_elem_of k v d (e : string * V) :
  e ∈ dict_set k v d → e = (k, v) ∨ e ∈ d.
Proof.
  induction d as [|[k' v'] d IH]; simpl.
  - intros H. apply list_elem_of_singleton in H. by left.
  - destruct (decide (k = k')) as [->|Hne]; intros H.
    + apply elem_of_cons in H as [->|H]; [by left|].
      right. by apply list_elem_of_further.
    + apply elem_of_cons in H as [->|H]; [right; apply list_elem_of_here|].
      destruct (IH H) as [->|Hd]; [by left|]. right. by apply list_elem_of_further.
Qed.

Lemma dict_del_elem_of k d (e : string * V) : e ∈ dict_del k d → e ∈ d.
Proof.
  induction d as [|[k' v'] d IH]; simpl; [done|].
  destruct (decide (k = k')) as [->|Hne]; intros H.
  - by apply list_elem_of_further.
  - apply elem_of_cons in H as [->|H]; [apply list_elem_of_here|].
    apply list_elem_of_further. by apply IH.
Qed.

Lemma dict_values_elem_of v d : v ∈ dict_values d ↔ ∃ k, (k, v) ∈ d.
Proof.
  unfold dict_values. rewrite list_elem_of_fmap. split.
  - intros ([k v'] & -> & H). by exists k.
  - intros [k H]. by exists (k, v).
Qed.
End DictValues.

Section DictKeys.
Context {V : Type}.
Implicit Types (d : dict V) (k : string) (v : V).

Lemma dict_keys_set k v d (x : string) :
  x ∈ dict_keys (dict_set k v d) → x = k ∨ x ∈ dict_keys d.
Proof.
  unfold dict_keys. rewrite !list_elem_of_fmap.
  intros ([k' v'] & -> & H). apply dict_set_elem_of in H as [[= -> ->]|H].
  - by left.
  - right. by exists (k', v').
Qed.

Lemma dict_keys_del k d (x : string) :
  x ∈ dict_keys (dict_del k d) → x ∈ dict_keys d.
Proof.
  unfold dict_keys. rewrite !list_elem_of_fmap.
  intros (e & -> & H). exists e. split; [done|]. by eapply dict_del_elem_of.
Qed.

Lemma NoDup_dict_set k v d :
  NoDup (dict_keys d) → NoDup (dict_keys (dict_set k v d)).
Proof.
  induction d as [|[k' v'] d IH]; simpl.
  - intros _. apply NoDup_singleton.
  - rewrite NoDup_cons. intros [Hnotin Hnd].
    destruct (decide (k = k')) as [->|Hne]; simpl.
    + by apply NoDup_cons.
    + apply NoDup_cons. split; [|by apply IH].
      intros Hin. apply dict_keys_set in Hin as [->|Hin]; done.
Qed.

Lemma NoDup_dict_del k d :
  NoDup (dict_keys d) → NoDup (dict_keys (dict_del k d)).
Proof.
  induction d as [|[k' v'] d IH]; simpl; [done|].
  rewrite NoDup_cons. intros [Hnotin Hnd].
  destruct (decide (k = k')) as [->|Hne]; simpl; [done|].
  apply NoDup_cons. split; [|by apply IH].
  intros Hin. by apply dict_keys_del in Hin.
Qed.

Lemma elem_of_dict_get k v d :
  NoDup (dict_keys d) → (k, v) ∈ d → dict_get k d = Some v.
Proof.
  induction d as [|[k' v'] d IH]; simpl.
  - intros _ H. by apply elem_of_nil in H.
  - rewrite NoDup_cons. intros [Hnotin Hnd] H.
    apply elem_of_cons in H as [[= -> ->]|H].
    + by rewrite decide_True.
    + destruct (decide (k = k')) as [->|Hne]; [|by apply IH].
      destruct Hnotin. unfold dict_keys. apply list_elem_of_fmap.
      by exists (k', v).
Qed.

Lemma dict_values_nil d : dict_values d = [] → d = [].
Proof. by destruct d. Qed.
End DictKeys.

(** ** String order and the stable descending sort *)

Lemma ltb_false_le (a b : string) : String.ltb a b = false → String.le b a.
Proof.
  unfold String.le, String.leb, String.ltb. rewrite (String.compare_antisym b a).
  by destruct (String.compare a b).
Qed.

Lemma ltb_true_le (a b : string) : String.ltb a b = true → String.le a b ∧ a ≠ b.
Proof.
  unfold String.le, String.leb, String.ltb.
  destruct (String.compare a b) eqn:Hc; try done.
  intros _. split; [done|]. intros ->.
  pose proof (String.compare_antisym b b) as Ha. rewrite Hc in Ha. done.
Qed.

Lemma ltb_true_not_le (a b : string) : String.ltb a b = true → ¬ String.le b a.
Proof.
  intros H Hle. destruct (ltb_true_le a b H) as [Hab Hne].
  apply Hne. by apply (anti_symm String.le).
Qed.

Section SortFacts.
Context {A : Type} (key : A → string).
Implicit Types (x y : A) (l : list A).

Lemma insert_desc_perm x l : insert_desc key x l ≡ₚ x :: l.
Proof.
  induction l as [|y l IH]; simpl; [done|].
  destruct (String.ltb (key x) (key y)); [|done].
  rewrite IH. apply Permutation_swap.
Qed.

Lemma sort_desc_perm l : sort_desc key l ≡ₚ l.
Proof.
  induction l as [|x l IH]; simpl; [done|].
  rewrite insert_desc_perm. by rewrite IH.
Qed.

Lemma insert_desc_sorted x l :
  StronglySorted (desc key) l → StronglySorted (desc key) (insert_desc key x l).
Proof.
  induction 1 as [|y l Hl IH Hy]; simpl.
  - repeat constructor.
  - destruct (String.ltb (key x) (key y)) eqn:Hlt.
    + constructor; [done|]. rewrite insert_desc_perm. constructor; [|done].
      unfold desc. by apply ltb_true_le.
    + assert (Hyx : desc key x y) by (by apply ltb_false_le).
      constructor; [by constructor|]. constructor; [done|].
      eapply Forall_impl; [exact Hy|]. intros z Hz. unfold desc in *.
      by etrans.
Qed.

Lemma sort_desc_sorted l : StronglySorted (desc key) (sort_desc key l).
Proof.
  induction l as [|x l IH]; simpl; [constructor|]. by apply insert_desc_sorted.
Qed.

Lemma insert_desc_filter (t : string) x l :
  filter (λ y, key y = t) (insert_desc key x l) = filter (λ y, key y = t) (x :: l).
Proof.
  induction l as [|y l IH]; simpl; [done|].
  destruct (String.ltb (key x) (key y)) eqn:Hlt; [|done].
  rewrite !filter_cons in *. rewrite IH.
  destruct (decide (key x = t)) as [Hx|Hx]; [|done].
  destruct (decide (key y = t)) as [Hy|Hy]; [|done].
  apply ltb_true_le in Hlt as [_ Hne]. congruence.
Qed.

Lemma sort_desc_stable (t : string) l :
  filter (λ y, key y = t) (sort_desc key l) = filter (λ y, key y = t) l.
Proof.
  induction l as [|x l IH]; simpl; [done|].
  rewrite insert_desc_filter, !filter_cons. by rewrite IH.
Qed.
End SortFacts.

Lemma insert_desc_keyed {A : Type} (f : A → string) (x : A) (l : list A) :
  insert_desc fst (f x, x) (map (λ r, (f r, r)) l) = map (λ r, (f r, r)) (insert_desc f x l).
Proof.
  induction l as [|y l IH]; simpl; [done|].
  destruct (String.ltb (f x) (f y)); simpl; [by rewrite IH|done].
Qed.

Lemma sort_desc_keyed {A : Type} (f : A → string) (l : list A) :
  map snd (sort_desc fst (map (λ r, (f r, r)) l)) = sort_desc f l.
Proof.
  assert (H : sort_desc fst (map (λ r, (f r, r)) l) = map (λ r, (f r, r)) (sort_desc f l)).
  { induction l as [|x l IH]; simpl; [done|]. by rewrite IH, insert_desc_keyed. }
  rewrite H, map_map. simpl. apply map_id.
Qed.

(** ** API projection *)

Lemma truthy_spec (s : string) : truthy s = true ↔ s ≠ "".
Proof.
  unfold truthy. destruct (String.eqb_spec s ""); split; intros; simpl in *; congruence.
Qed.

Lemma get_messages_for_api_prompt (s : Session.t) (p : string) :
  Session.system_prompt s = Some p → p ≠ "" →
  Session.get_messages_for_api s = api_entry "system" p :: history s.
Proof.
  intros Hp Hne. unfold Session.get_messages_for_api. rewrite Hp.
  apply truthy_spec in Hne. by rewrite Hne.
Qed.

Lemma get_messages_for_api_empty (s : Session.t) :
  Session.system_prompt s = Some "" →
  Session.get_messages_for_api s = history s.
Proof. intros Hp. unfold Session.get_messages_for_api. by rewrite Hp. Qed.

Lemma get_messages_for_api_none (s : Session.t) :
  Session.system_prompt s = None →
  Session.get_messages_for_api s = history s.
Proof. intros Hp. unfold Session.get_messages_for_api. by rewrite Hp. Qed.

Lemma get_messages_for_api_run (st : state) (self : ref) (s : Session.t) :
  heap st !! self = Some s →
  get_messages_for_api self st = (Ok (Session.get_messages_for_api s), st).
Proof. intros Hs. unfold get_messages_for_api. munfold. by rewrite Hs. Qed.

(** C5: a session whose system prompt is a non-empty text [P] and that
    stores exactly two messages is projected to exactly three entries,
    [{system, P}] and then the two messages as [{role, content}] in their
    order; the call returns the state it was given, so the stored messages
    are untouched. *)
Theorem C5_api_projection_three_entries
    (st : state) (self : ref) (s : Session.t) (P : string) (m1 m2 : Message.t) :
  heap st !! self = Some s →
  Session.system_prompt s = Some P →
  P ≠ "" →
  Session.messages s = [m1; m2] →
  get_messages_for_api self st =
    (Ok [api_entry "system" P;
         api_entry (Message.role m1) (Message.content m1);
         api_entry (Message.role m2) (Message.content m2)], st)
  ∧ heap (snd (get_messages_for_api self st)) !! self = Some s.
Proof.
  intros Hs HP Hne Hm.
  rewrite (get_messages_for_api_run st self s Hs).
  rewrite (get_messages_for_api_prompt s P HP Hne).
  unfold history. rewrite Hm. simpl. done.
Qed.

Lemma C5_witness :
  let s := Session.mk "id-1"
             [Message.mk "user" "Hello" "2025-02-24T12:00:00";
              Message.mk "assistant" "Hi there" "2025-02-24T12:00:01"]
             "2025-02-24T11:59:00" (Some "P") in
  let st := State [s] [("id-1", 0)] (Some 0) ∅ "" [] in
  get_messages_for_api 0 st =
    (Ok [api_entry "system" "P"; api_entry "user" "Hello";
         api_entry "assistant" "Hi there"], st)
  ∧ heap (snd (get_messages_for_api 0 st)) !! 0 = Some s.
Proof.
  intros s st.
  apply (C5_api_projection_three_entries st 0 s "P"
           (Message.mk "user" "Hello" "2025-02-24T12:00:00")
           (Message.mk "assistant" "Hi there" "2025-02-24T12:00:01")).
  - reflexivity.
  - reflexivity.
  - discriminate.
  - reflexivity.
Defined.

(** C9: with the empty string as system prompt the projection is the stored
    history alone; the synthetic system entry heads the result exactly when
    the prompt is present and non-empty. *)
Theorem C9_empty_system_prompt_not_projected
    (st : state) (self : ref) (s : Session.t) :
  heap st !! self = Some s →
  (Session.system_prompt s = Some "" →
     get_messages_for_api self st = (Ok (history s), st))
  ∧ (∀ p : string,
       get_messages_for_api self st = (Ok (api_entry "system" p :: history s), st)
       ↔ Session.system_prompt s = Some p ∧ p ≠ "").
Proof.
  intros Hs. rewrite (get_messages_for_api_run st self s Hs). split.
  - intros Hp. by rewrite get_messages_for_api_empty.
  - intros p. split.
    + intros Heq. injection Heq as Heq. revert Heq.
      unfold Session.get_messages_for_api. fold (history s).
      destruct (Session.system_prompt s) as [q|] eqn:Hq.
      * destruct (truthy q) eqn:Ht.
        -- intros Heq. injection Heq as ->. split; [done|]. by apply truthy_spec.
        -- intros Heq. apply (f_equal length) in Heq. simpl in Heq. lia.
      * intros Heq. apply (f_equal length) in Heq. simpl in Heq. lia.
    + intros [Hp Hne]. by rewrite (get_messages_for_api_prompt s p).
Qed.

Lemma C9_witness :
  let s := Session.mk "id-1" [Message.mk "user" "Hello" "2025-02-24T12:00:00"]
             "2025-02-24T11:59:00" (Some "") in
  let st := State [s] [("id-1", 0)] (Some 0) ∅ "" [] in
  get_messages_for_api 0 st = (Ok [api_entry "user" "Hello"], st).
Proof.
  intros s st.
  apply (proj1 (C9_empty_system_prompt_not_projected st 0 s eq_refl)).
  reflexivity.
Defined.

(** C6 (as stated, refuted): a session with a system prompt whose stored
    messages already hold a system-role message still gets the synthetic
    entry, so the result is not the stored history alone. *)
Lemma C6_counterexample :
  ¬ (∀ (st : state) (self : ref) (s : Session.t) (p : string),
       heap st !! self = Some s →
       Session.system_prompt s = Some p →
       (∃ m, m ∈ Session.messages s ∧ Message.role m = "system") →
       get_messages_for_api self st = (Ok (history s), st)).
Proof.
  intros H.
  pose (s := Session.mk "id-1"
               [Message.mk "system" "P" "2025-02-24T12:00:00";
                Message.mk "user" "Hello" "2025-02-24T12:00:01"]
               "2025-02-24T11:59:00" (Some "P")).
  pose (st := State [s] [("id-1", 0)] (Some 0) ∅ "" []).
  specialize (H st 0 s "P" eq_refl eq_refl).
  assert (Hex : ∃ m, m ∈ Session.messages s ∧ Message.role m = "system").
  { exists (Message.mk "system" "P" "2025-02-24T12:00:00"). split; [|done].
    simpl. apply list_elem_of_here. }
  specialize (H Hex). vm_compute in H. discriminate H.
Qed.

(** C6 (amended): whenever the system prompt is present and non-empty the
    synthetic system entry is prepended to the projected history, whatever
    the stored messages are (also when one of them has the system role);
    the call returns the state it was given, so the entry is not stored. *)
Theorem C6_system_entry_prepended_regardless
    (st : state) (self : ref) (s : Session.t) (p : string) :
  heap st !! self = Some s →
  Session.system_prompt s = Some p →
  p ≠ "" →
  get_messages_for_api self st = (Ok (api_entry "system" p :: history s), st).
Proof.
  intros Hs Hp Hne. rewrite (get_messages_for_api_run st self s Hs).
  by rewrite (get_messages_for_api_prompt s p).
Qed.

Lemma C6_witness :
  let s := Session.mk "id-1"
             [Message.mk "system" "P" "2025-02-24T12:00:00";
              Message.mk "user" "Hello" "2025-02-24T12:00:01"]
             "2025-02-24T11:59:00" (Some "P") in
  let st := State [s] [("id-1", 0)] (Some 0) ∅ "" [] in
  get_messages_for_api 0 st =
    (Ok [api_entry "system" "P"; api_entry "system" "P"; api_entry "user" "Hello"], st).
Proof.
  intros s st.
  apply (C6_system_entry_prepended_regardless st 0 s "P").
  - reflexivity.
  - reflexivity.
  - discriminate.
Defined.

(** ** Lookup and switch *)

Lemma get_session_run (st : state) (session_id : string) :
  SessionManager.get_session session_id st =
    match dict_get session_id (_sessions st) with
    | Some r => (Ok r, st)
    | None => (Raise (KeyError ("Session " +:+ session_id +:+ " not found")), st)
    end.
Proof.
  unfold SessionManager.get_session. munfold.
  by destruct (dict_get session_id (_sessions st)).
Qed.

Lemma switch_to_session_run (st : state) (session_id : string) :
  SessionManager.switch_to_session session_id st =
    match dict_get session_id (_sessions st) with
    | Some r => (Ok tt, set_current_session (Some r) st)
    | None => (Raise (KeyError ("Session " +:+ session_id +:+ " not found")), st)
    end.
Proof.
  unfold SessionManager.switch_to_session.
  unfold mbind at 1. unfold M_bind. rewrite get_session_run.
  by destruct (dict_get session_id (_sessions st)).
Qed.

(** C8: [get] and [switch] raise the not-found error exactly when the id is
    not a key of the in-memory map, whatever the sessions directory holds,
    and then leave the state as it was; a [switch] that succeeds changes the
    current-session pointer and nothing else. *)
Theorem C8_get_switch_not_found (st : state) (session_id : string) :
  let not_found := KeyError ("Session " +:+ session_id +:+ " not found") in
  (fst (SessionManager.get_session session_id st) = Raise not_found
     ↔ dict_get session_id (_sessions st) = None)
  ∧ (fst (SessionManager.switch_to_session session_id st) = Raise not_found
     ↔ dict_get session_id (_sessions st) = None)
  ∧ snd (SessionManager.get_session session_id st) = st
  ∧ (dict_get session_id (_sessions st) = None →
     snd (SessionManager.switch_to_session session_id st) = st)
  ∧ (∀ r : ref, dict_get session_id (_sessions st) = Some r →
     SessionManager.get_session session_id st = (Ok r, st)
     ∧ SessionManager.switch_to_session session_id st
         = (Ok tt, State (heap st) (_sessions st) (Some r) (sessions_dir st)
                         (streaming_content st) (console st))).
Proof.
  intros not_found. rewrite get_session_run, switch_to_session_run.
  destruct (dict_get session_id (_sessions st)) as [r|]; simpl.
  - split; [done|]. split; [done|]. split; [done|]. split; [done|].
    by intros r' [= <-].
  - split; [done|]. split; [done|]. split; [done|]. split; [done|].
    by intros r' [=].
Qed.

Lemma C8_witness :
  let s := Session.mk "a" [] "2025-02-24T11:59:00" None in
  let x := Session.mk "x" [] "2025-02-24T11:58:00" None in
  let st := State [s] [("a", 0)] (Some 0)
              (<["x" := Parsed (Session.to_dict x)]> ∅) "" [] in
  fst (SessionManager.get_session "x" st) = Raise (KeyError "Session x not found")
  ∧ snd (SessionManager.switch_to_session "x" st) = st
  ∧ SessionManager.switch_to_session "a" st = (Ok tt, st).
Proof.
  intros s x st.
  pose proof (C8_get_switch_not_found st "x") as (Hget & _ & _ & Hsw & _).
  pose proof (C8_get_switch_not_found st "a") as (_ & _ & _ & _ & Hok).
  split; [apply Hget; reflexivity|].
  split; [apply Hsw; reflexivity|].
  apply (Hok 0 eq_refl).
Defined.

(** ** Durable records *)

Lemma load_session_run (st : state) (session_id : string) :
  SessionManager.load_session session_id st =
    match sessions_dir st !! session_id with
    | None =>
        (Raise (KeyError ("Session file for " +:+ session_id +:+ " not found")), st)
    | Some Unparseable => (Raise JSONDecodeError, st)
    | Some (Parsed data) =>
        match Session.from_dict data with
        | Ok s =>
            (Ok (length (heap st)),
             set_sessions (dict_set session_id (length (heap st)) (_sessions st))
               (set_heap (heap st ++ [s]) st))
        | Raise e => (Raise e, st)
        end
    end.
Proof.
  unfold SessionManager.load_session, SessionManager.json_load. munfold.
  destruct (sessions_dir st !! session_id) as [[|data]|] eqn:Hf; [| |done].
  - simpl. by rewrite Hf.
  - simpl. rewrite Hf. by destruct (Session.from_dict data).
Qed.

Lemma from_dict_id (data : json) (s : Session.t) :
  Session.from_dict data = Ok s →
  getitem data "id" = Ok (JStr (Session.id s)).
Proof.
  unfold Session.from_dict. munfold.
  destruct (getitem data "id") as [i|]; [|done].
  destruct (getitem data "messages") as [ms|]; [|done].
  destruct (iterate ms) as [l|]; [|done].
  destruct (rmap_list Message.from_dict l) as [ms'|]; [|done].
  destruct (getitem data "created_at") as [c|]; [|done].
  destruct (get_or_none data "system_prompt") as [sp|]; [|done].
  destruct (as_str i) as [i'|] eqn:Hi; [|done].
  destruct (as_str c) as [c'|]; [|done].
  destruct (as_opt_str sp) as [sp'|]; [|done].
  intros [= <-]. simpl. destruct i; try done. by injection Hi as ->.
Qed.

Lemma message_from_dict_to_dict (m : Message.t) :
  Message.from_dict (Message.to_dict m) = Ok m.
Proof. by destruct m. Qed.

Lemma messages_from_dict_to_dict (ms : list Message.t) :
  rmap_list Message.from_dict (map Message.to_dict ms) = Ok ms.
Proof.
  induction ms as [|m ms IH]; [done|].
  cbn [map rmap_list]. by rewrite message_from_dict_to_dict, IH.
Qed.

Lemma from_dict_to_dict (s : Session.t) :
  Session.from_dict (Session.to_dict s) = Ok s.
Proof.
  destruct s as [i ms c sp]. unfold Session.from_dict, Session.to_dict.
  cbn [Session.id Session.messages Session.created_at Session.system_prompt].
  munfold. cbn [getitem dict_get]. repeat (rewrite ?decide_True, ?decide_False by done).
  cbn [iterate]. rewrite messages_from_dict_to_dict.
  repeat (rewrite ?decide_True, ?decide_False by done).
  cbn. by destruct sp.
Qed.

Lemma save_session_run (st : state) (session : ref) (s : Session.t) :
  heap st !! session = Some s →
  SessionManager.save_session session st =
    (Ok tt, set_sessions_dir
              (<[Session.id s := Parsed (Session.to_dict s)]> (sessions_dir st)) st).
Proof. intros Hs. unfold SessionManager.save_session. munfold. by rewrite Hs. Qed.

(** C3: saving a session and then loading its id, after the in-memory map
    was cleared (or replaced by any other content), returns a session equal
    to the saved one in id, messages, created_at and system_prompt. *)
Theorem C3_save_load_roundtrip
    (st : state) (session : ref) (s : Session.t) (cleared : dict ref) :
  heap st !! session = Some s →
  ∃ (st1 st3 : state) (loaded : ref),
    SessionManager.save_session session st = (Ok tt, st1)
    ∧ SessionManager.load_session (Session.id s) (set_sessions cleared st1)
        = (Ok loaded, st3)
    ∧ heap st3 !! loaded = Some s
    ∧ dict_get (Session.id s) (_sessions st3) = Some loaded
    ∧ Session.from_dict (Session.to_dict s) = Ok s.
Proof.
  intros Hs. eexists _, _, _.
  split; [by apply save_session_run|].
  rewrite load_session_run. cbn [sessions_dir set_sessions set_sessions_dir].
  rewrite lookup_insert_eq, from_dict_to_dict.
  split; [done|]. cbn [heap set_sessions set_heap set_sessions_dir _sessions].
  split; [|split; [apply dict_get_set_eq | done]].
  rewrite lookup_app_r by done. by rewrite Nat.sub_diag.
Qed.

Lemma C3_witness :
  let s := Session.mk "id-1"
             [Message.mk "user" "Hello" "2025-02-24T12:00:00";
              Message.mk "assistant" "Hi there" "2025-02-24T12:00:01"]
             "2025-02-24T11:59:00" (Some "Be helpful") in
  let st := State [s] [("id-1", 0)] (Some 0) ∅ "" [] in
  ∃ (st1 st3 : state) (loaded : ref),
    SessionManager.save_session 0 st = (Ok tt, st1)
    ∧ SessionManager.load_session "id-1" (set_sessions [] st1) = (Ok loaded, st3)
    ∧ heap st3 !! loaded = Some s
    ∧ dict_get "id-1" (_sessions st3) = Some loaded
    ∧ Session.from_dict (Session.to_dict s) = Ok s.
Proof.
  intros s st. apply (C3_save_load_roundtrip st 0 s []). reflexivity.
Defined.

(** C10: a successful [load] binds the id given as argument to the session
    it returns; that session is the deserialized record, and its id field
    is the one written in the record, which need not be the argument. *)
Theorem C10_load_binds_argument_id
    (st st' : state) (session_id : string) (loaded : ref) :
  SessionManager.load_session session_id st = (Ok loaded, st') →
  dict_get session_id (_sessions st') = Some loaded
  ∧ ∃ (data : json) (s : Session.t),
      sessions_dir st !! session_id = Some (Parsed data)
      ∧ Session.from_dict data = Ok s
      ∧ heap st' !! loaded = Some s
      ∧ getitem data "id" = Ok (JStr (Session.id s)).
Proof.
  rewrite load_session_run.
  destruct (sessions_dir st !! session_id) as [[|data]|] eqn:Hf; try done.
  destruct (Session.from_dict data) as [s|] eqn:Hd; [|done].
  intros [= <- <-]. cbn [heap set_sessions set_heap _sessions].
  split; [apply dict_get_set_eq|].
  exists data, s. split; [done|]. split; [done|].
  split; [|by apply from_dict_id].
  rewrite lookup_app_r by done. by rewrite Nat.sub_diag.
Qed.

Lemma C10_witness :
  let other := Session.mk "other-id" [Message.mk "user" "Hello" "2025-02-24T12:00:00"]
                 "2025-02-24T11:59:00" None in
  let st := State [] [] None (<["k1" := Parsed (Session.to_dict other)]> ∅) "" [] in
  ∃ (st' : state) (loaded : ref) (s : Session.t),
    SessionManager.load_session "k1" st = (Ok loaded, st')
    ∧ dict_get "k1" (_sessions st') = Some loaded
    ∧ heap st' !! loaded = Some s
    ∧ Session.id s ≠ "k1".
Proof.
  intros other st.
  pose (st' := State [other] [("k1", 0)] None (sessions_dir st) "" []).
  assert (Hrun : SessionManager.load_session "k1" st = (Ok 0, st'))
    by (vm_compute; reflexivity).
  destruct (C10_load_binds_argument_id st st' "k1" 0 Hrun)
    as (Hmap & data & s & Hfile & Hdec & Hheap & Hid).
  exists st', 0, s. split; [done|]. split; [done|]. split; [done|].
  injection Hheap as <-. discriminate.
Defined.

(** ** The chat turn *)

Lemma append_assoc (a b c : string) : (a +:+ b) +:+ c = a +:+ (b +:+ c).
Proof.
  induction a as [|x a IH]; [reflexivity|].
  change (String x ((a +:+ b) +:+ c) = String x (a +:+ (b +:+ c))). by rewrite IH.
Qed.

Lemma append_empty_r (a : string) : a +:+ "" = a.
Proof.
  induction a as [|x a IH]; [reflexivity|].
  change (String x (a +:+ "") = String x a). by rewrite IH.
Qed.

Lemma the_current_session_run (st : state) (cur : ref) :
  current_session st = Some cur → Main.the_current_session st = (Ok cur, st).
Proof. intros H. unfold Main.the_current_session. munfold. by rewrite H. Qed.

Lemma add_message_run (st : state) (self : ref) (s : Session.t) (m : Message.t) :
  heap st !! self = Some s →
  add_message self m st =
    (Ok tt, set_heap (<[self := Session.add_message s m]> (heap st)) st).
Proof. intros H. unfold add_message. munfold. by rewrite H. Qed.

Lemma consume_run (chunks : list string) (acc : string) (st : state) :
  Main.consume chunks acc st =
    (Ok (acc +:+ join chunks),
     set_streaming_content (streaming_content st +:+ join chunks) st).
Proof.
  revert acc st. induction chunks as [|c chunks IH]; intros acc st.
  - simpl. munfold. rewrite !append_empty_r. by destruct st.
  - cbn [Main.consume join foldr]. unfold mbind, M_bind.
    unfold ChatUI.add_streaming_content, modify. rewrite IH.
    cbn [streaming_content set_streaming_content]. by rewrite !append_assoc.
Qed.

Lemma chat_stream_request (self : LLM.LLMClient) (messages : list (dict string)) :
  LLM.chat_stream self messages =
    match LLM.client self (LLM.model self) (request self messages) with
    | LLM.create_raises e => ([], Some (LLM.wrap e))
    | LLM.streams chunks failure => (omap LLM.yielded chunks, LLM.wrap <$> failure)
    end.
Proof. reflexivity. Qed.

Lemma wrap_caught (x : LLM.exception) :
  caught x = true → LLM.wrap x = LLMError (classified x).
Proof.
  unfold caught, classified, LLM.wrap.
  by destruct (LLM.is_APIError x), (LLM.is_APITimeoutError x), (LLM.is_Exception x).
Qed.

Lemma wrap_uncaught (x : LLM.exception) :
  caught x = false → LLM.wrap x = BaseException (LLM.text x).
Proof.
  unfold caught, LLM.wrap.
  by destruct (LLM.is_APIError x), (LLM.is_APITimeoutError x), (LLM.is_Exception x).
Qed.

Lemma chat_stream_raised (self : LLM.LLMClient) (messages : list (dict string))
    (x : LLM.exception) :
  raised (LLM.client self (LLM.model self) (request self messages)) = Some x →
  LLM.chat_stream self messages
    = (fst (LLM.chat_stream self messages), Some (LLM.wrap x)).
Proof.
  rewrite chat_stream_request.
  destruct (LLM.client self _ _) as [x'|cs failure]; simpl.
  - by intros [= ->].
  - by intros ->.
Qed.

Lemma chat_stream_failure (c : LLM.LLMClient) (messages : list (dict string))
    (chunks : list string) (e : exn) :
  LLM.chat_stream c messages = (chunks, Some e) →
  (∃ msg, e = LLMError msg) ∨ (∃ text, e = BaseException text).
Proof.
  unfold LLM.chat_stream.
  destruct (LLM.client c _ _) as [x|cs [x|]]; intros [= <- <-] || intros [=].
  all: destruct (caught x) eqn:Hx;
    [rewrite wrap_caught by done; left | rewrite wrap_uncaught by done; right];
    by eexists.
Qed.

(* A turn whose stream ends with an exception.  An [LLMError] is shown in
   an error panel and the buffer is emptied, unless the console rejects
   the text of the panel; any other exception leaves the turn. *)
Lemma chat_turn_failure
    (llm_client : LLM.LLMClient) (ui : ChatUI.t) (st : state) (cur : nat) (s : Session.t)
    (user_input now_user now_assistant : string)
    (fragments : list string) (e : exn) :
  current_session st = Some cur →
  heap st !! cur = Some s →
  let s1 := Session.add_message s (Message.mk "user" user_input now_user) in
  let after buffer printed :=
    State (<[cur := s1]> (heap st)) (_sessions st) (Some cur)
          (<[Session.id s := Parsed (Session.to_dict s1)]> (sessions_dir st))
          buffer printed in
  LLM.chat_stream llm_client (Session.get_messages_for_api s1) = (fragments, Some e) →
  Main.chat_turn llm_client ui user_input now_user now_assistant st =
    match e with
    | LLMError msg =>
        if ChatUI.renders ui ("LLM error: " +:+ msg)
        then (Ok tt, after "" (console st ++ [ErrorPanel ("LLM error: " +:+ msg)]))
        else (Raise MarkupError, after (join fragments) (console st))
    | _ => (Raise e, after (join fragments) (console st))
    end.
Proof.
  intros Hcur Hs s1 after Hstream.
  assert (Hlt : cur < length (heap st)) by (by eapply lookup_lt_Some).
  unfold Main.chat_turn.
  rewrite (bind_run _ _ st st cur) by (by apply the_current_session_run).
  erewrite bind_run by (by apply add_message_run). fold s1.
  erewrite bind_run by (by apply the_current_session_run).
  erewrite bind_run.
  2:{ apply save_session_run. cbn [heap set_heap]. by apply list_lookup_insert_eq. }
  unfold try_except_LLMError.
  erewrite bind_run by reflexivity.
  erewrite bind_run by (by apply the_current_session_run).
  erewrite bind_run.
  2:{ apply get_messages_for_api_run. cbn. by apply list_lookup_insert_eq. }
  rewrite Hstream.
  erewrite bind_run by apply consume_run.
  unfold mbind, M_bind, raise, ChatUI.display_error, ChatUI.clear_streaming_content, modify.
  unfold set_streaming_content, set_console, set_sessions_dir, set_heap, after.
  cbn [heap _sessions current_session sessions_dir streaming_content console].
  change ("" +:+ join fragments) with (join fragments).
  destruct e; try (by rewrite Hcur).
  destruct (ChatUI.renders ui _); unfold raise, modify;
    cbn [heap _sessions current_session sessions_dir streaming_content console];
    by rewrite Hcur.
Qed.

(** C1 (amended): when the completion ends with an exception, raised by the
    call that opens the stream or by the iteration after some fragments,
    the turn leaves the user message appended to the current session with
    nothing after it and the record on disk holding that session.  An
    exception that one of the [except] clauses of [chat_stream] catches
    (every instance of [Exception]) is classified; provided the console
    renders the text of the panel, the turn then ends normally with the
    streaming buffer emptied and exactly one error panel, carrying the
    classified message.  An exception that no clause catches leaves the
    turn as it is: no panel, and the buffer keeps the fragments received. *)
Theorem C1_failed_stream_keeps_user_message
    (llm_client : LLM.LLMClient) (ui : ChatUI.t) (st : state) (cur : ref) (s : Session.t)
    (user_input now_user now_assistant : string) (x : LLM.exception) :
  current_session st = Some cur →
  heap st !! cur = Some s →
  let user_message := Message.mk "user" user_input now_user in
  let s' := Session.add_message s user_message in
  raised (LLM.client llm_client (LLM.model llm_client)
            (request llm_client (Session.get_messages_for_api s'))) = Some x →
  let received := fst (LLM.chat_stream llm_client (Session.get_messages_for_api s')) in
  let turn := Main.chat_turn llm_client ui user_input now_user now_assistant st in
  let after buffer printed :=
    State (<[cur := s']> (heap st)) (_sessions st) (Some cur)
          (<[Session.id s := Parsed (Session.to_dict s')]> (sessions_dir st))
          buffer printed in
  Session.messages s' = Session.messages s ++ [user_message]
  ∧ heap (snd turn) = <[cur := s']> (heap st)
  ∧ sessions_dir (snd turn)
    = <[Session.id s := Parsed (Session.to_dict s')]> (sessions_dir st)
  ∧ (caught x = true →
     ChatUI.renders ui ("LLM error: " +:+ classified x) = true →
     turn = (Ok tt, after "" (console st ++ [ErrorPanel ("LLM error: " +:+ classified x)])))
  ∧ (caught x = false →
     turn = (Raise (BaseException (LLM.text x)), after (join received) (console st))).
Proof.
  intros Hcur Hs user_message s' Hx received turn after.
  apply chat_stream_raised in Hx. fold received in Hx.
  pose proof (chat_turn_failure llm_client ui st cur s user_input now_user now_assistant
                received (LLM.wrap x) Hcur Hs Hx) as Hrun.
  cbv zeta in Hrun. fold user_message s' turn in Hrun.
  split; [done|].
  destruct (caught x) eqn:Hc.
  - rewrite wrap_caught in Hrun by done.
    destruct (ChatUI.renders ui _) eqn:Hr; rewrite Hrun;
      (split; [done|]); (split; [done|]); by split.
  - rewrite wrap_uncaught in Hrun by done. rewrite Hrun.
    split; [done|]. split; [done|]. by split.
Qed.

Lemma C1_witness :
  let s := Session.mk "id-1" [] "2025-02-24T11:59:00" None in
  let st := State [s] [("id-1", 0)] (Some 0) ∅ "" [] in
  let timeout := LLM.Build_exception true true true "Request timed out." in
  let broken := LLM.Build_exception false false true "connection reset" in
  let at_open := client_answering (LLM.create_raises timeout) in
  let mid_stream :=
    client_answering
      (LLM.streams [chunk_of (Some "Hel"); chunk_of (Some "lo")] (Some broken)) in
  let s' := Session.add_message s (Message.mk "user" "Hi" "2025-02-24T12:00:00") in
  let after msg :=
    State [s'] [("id-1", 0)] (Some 0) (<["id-1" := Parsed (Session.to_dict s')]> ∅)
          "" [ErrorPanel ("LLM error: " +:+ msg)] in
  Main.chat_turn at_open ui_example "Hi" "2025-02-24T12:00:00" "2025-02-24T12:00:05" st
    = (Ok tt, after "API error: Request timed out.")
  ∧ Main.chat_turn mid_stream ui_example "Hi" "2025-02-24T12:00:00" "2025-02-24T12:00:05" st
    = (Ok tt, after "Unexpected error: connection reset").
Proof.
  intros s st timeout broken at_open mid_stream s' after.
  split.
  - destruct (C1_failed_stream_keeps_user_message at_open ui_example st 0 s
                "Hi" "2025-02-24T12:00:00" "2025-02-24T12:00:05" timeout
                eq_refl eq_refl eq_refl) as (_ & _ & _ & Hrun & _).
    apply Hrun; reflexivity.
  - destruct (C1_failed_stream_keeps_user_message mid_stream ui_example st 0 s
                "Hi" "2025-02-24T12:00:00" "2025-02-24T12:00:05" broken
                eq_refl eq_refl eq_refl) as (_ & _ & _ & Hrun & _).
    apply Hrun; reflexivity.
Defined.

(** C1 (as stated, refuted), in two ways.  A stream that yields "Hel" and
    is then interrupted (KeyboardInterrupt is not an instance of
    [Exception]) is not classified: the exception leaves the turn.  A
    stream that yields "Hel" and then fails with an error whose text holds
    "[/INST]" is classified, but the console rejects the text of the panel:
    MarkupError leaves the turn.  In both runs the user message is kept, no
    error is shown and the buffer still holds "Hel". *)
Lemma C1_counterexample :
  let s := Session.mk "id-1" [] "2025-02-24T11:59:00" None in
  let st := State [s] [("id-1", 0)] (Some 0) ∅ "" [] in
  let s' := Session.add_message s (Message.mk "user" "Hi" "2025-02-24T12:00:00") in
  let left_by (e : exn) : result unit * state :=
    (Raise e,
     State [s'] [("id-1", 0)] (Some 0) (<["id-1" := Parsed (Session.to_dict s')]> ∅)
           "Hel" []) in
  let interrupted :=
    client_answering
      (LLM.streams [chunk_of (Some "Hel")]
         (Some (LLM.Build_exception false false false ""))) in
  let stray_tag :=
    client_answering
      (LLM.streams [chunk_of (Some "Hel")]
         (Some (LLM.Build_exception false false true "unexpected token [/INST]"))) in
  Main.chat_turn interrupted ui_example "Hi" "2025-02-24T12:00:00" "2025-02-24T12:00:05" st
    = left_by (BaseException "")
  ∧ Main.chat_turn stray_tag ui_example "Hi" "2025-02-24T12:00:00" "2025-02-24T12:00:05" st
    = left_by MarkupError
  ∧ ¬ (∀ (llm_client : LLM.LLMClient) (ui : ChatUI.t) (st : state) (cur : ref)
         (s : Session.t) (user_input now_user now_assistant : string)
         (chunks : list string) (e : exn),
         current_session st = Some cur →
         heap st !! cur = Some s →
         let user_message := Message.mk "user" user_input now_user in
         let s' := Session.add_message s user_message in
         LLM.chat_stream llm_client (Session.get_messages_for_api s') = (chunks, Some e) →
         ∃ msg : string,
           e = LLMError msg
           ∧ Main.chat_turn llm_client ui user_input now_user now_assistant st =
               (Ok tt,
                State (<[cur := s']> (heap st)) (_sessions st) (Some cur)
                      (<[Session.id s := Parsed (Session.to_dict s')]> (sessions_dir st))
                      "" (console st ++ [ErrorPanel ("LLM error: " +:+ msg)]))
           ∧ Session.messages s' = Session.messages s ++ [user_message]).
Proof.
  intros s st s' left_by interrupted stray_tag.
  split; [vm_compute; reflexivity|]. split; [vm_compute; reflexivity|].
  intros H.
  destruct (H stray_tag ui_example st 0 s "Hi" "2025-02-24T12:00:00" "2025-02-24T12:00:05"
              ["Hel"] (LLMError "Unexpected error: unexpected token [/INST]")
              eq_refl eq_refl eq_refl)
    as (msg & Hmsg & Hrun & _).
  injection Hmsg as <-. vm_compute in Hrun. discriminate Hrun.
Qed.

Lemma yielded_payload (chunk : LLM.ChatCompletionChunk) :
  LLM.yielded chunk =
    match payload chunk with
    | Some s => if truthy s then Some s else None
    | None => None
    end.
Proof. unfold LLM.yielded, payload. by destruct (LLM.choices chunk). Qed.

Lemma omap_cons_unfold {A B : Type} (f : A → option B) (x : A) (l : list A) :
  omap f (x :: l) = match f x with Some y => y :: omap f l | None => omap f l end.
Proof. reflexivity. Qed.

Lemma join_yielded (chunks : list LLM.ChatCompletionChunk) :
  join (omap LLM.yielded chunks) = join (omap payload chunks).
Proof.
  induction chunks as [|c chunks IH]; [done|].
  rewrite !omap_cons_unfold, yielded_payload.
  destruct (payload c) as [p|]; [|done].
  destruct (truthy p) eqn:Ht.
  - unfold join in *. cbn [foldr]. by rewrite IH.
  - assert (p = "") as ->.
    { destruct (decide (p = "")) as [|Hne]; [done|]. apply truthy_spec in Hne. congruence. }
    unfold join in *. cbn [foldr]. by rewrite IH.
Qed.

Lemma append_eq_empty (a b : string) : a +:+ b = "" ↔ a = "" ∧ b = "".
Proof.
  split; [|by intros [-> ->]]. destruct a as [|x a].
  - change ("" +:+ b) with b. by intros ->.
  - change (String x a +:+ b) with (String x (a +:+ b)). discriminate.
Qed.

Lemma join_empty_iff (l : list string) : join l = "" ↔ ∀ f, f ∈ l → f = "".
Proof.
  induction l as [|x l IH].
  - split; [|done]. intros _ f Hf. by apply elem_of_nil in Hf.
  - unfold join in *. cbn [foldr]. rewrite append_eq_empty, IH. split.
    + intros [-> Hl] f Hf. apply elem_of_cons in Hf as [->|Hf]; [done|by apply Hl].
    + intros Hall. split; [apply Hall, list_elem_of_here|].
      intros f Hf. by apply Hall, list_elem_of_further.
Qed.

(* A turn whose stream ends without failure: the assistant message holds
   the concatenation of the fragments received and is saved, unless that
   concatenation is empty, in which case nothing is appended. *)
Lemma chat_turn_success
    (llm_client : LLM.LLMClient) (ui : ChatUI.t) (st : state) (cur : nat) (s : Session.t)
    (user_input now_user now_assistant : string) (fragments : list string) :
  current_session st = Some cur →
  heap st !! cur = Some s →
  let s1 := Session.add_message s (Message.mk "user" user_input now_user) in
  let s2 := Session.add_message s1
              (Message.mk "assistant" (join fragments) now_assistant) in
  LLM.chat_stream llm_client (Session.get_messages_for_api s1) = (fragments, None) →
  Main.chat_turn llm_client ui user_input now_user now_assistant st =
    (Ok tt,
     let committed := if truthy (join fragments) then s2 else s1 in
     State (<[cur := committed]> (heap st)) (_sessions st) (Some cur)
           (<[Session.id s := Parsed (Session.to_dict committed)]> (sessions_dir st))
           "" (console st)).
Proof.
  intros Hcur Hs s1 s2 Hstream.
  assert (Hlt : cur < length (heap st)) by (by eapply lookup_lt_Some).
  unfold Main.chat_turn.
  rewrite (bind_run _ _ st st cur) by (by apply the_current_session_run).
  erewrite bind_run by (by apply add_message_run). fold s1.
  erewrite bind_run by (by apply the_current_session_run).
  erewrite bind_run.
  2:{ apply save_session_run. cbn [heap set_heap]. by apply list_lookup_insert_eq. }
  unfold try_except_LLMError.
  erewrite bind_run by reflexivity.
  erewrite bind_run by (by apply the_current_session_run).
  erewrite bind_run.
  2:{ apply get_messages_for_api_run. cbn. by apply list_lookup_insert_eq. }
  rewrite Hstream.
  erewrite bind_run by apply consume_run.
  erewrite bind_run by reflexivity.
  change ("" +:+ join fragments) with (join fragments).
  destruct (truthy (join fragments)) eqn:Ht.
  - erewrite bind_run.
    2:{ erewrite bind_run by (by apply the_current_session_run).
        erewrite bind_run.
        2:{ apply add_message_run. cbn. by apply list_lookup_insert_eq. }
        erewrite bind_run by (by apply the_current_session_run).
        apply save_session_run. cbn. apply list_lookup_insert_eq.
        by rewrite length_insert. }
    fold s2. unfold ChatUI.clear_streaming_content, modify.
    unfold set_streaming_content, set_console, set_sessions_dir, set_heap.
    cbn [heap _sessions current_session sessions_dir streaming_content console].
    rewrite Hcur, list_insert_insert_eq, insert_insert_eq. reflexivity.
  - erewrite bind_run by reflexivity.
    unfold ChatUI.clear_streaming_content, modify.
    unfold set_streaming_content, set_console, set_sessions_dir, set_heap.
    cbn [heap _sessions current_session sessions_dir streaming_content console].
    by rewrite Hcur.
Qed.

(** C4: in a turn whose stream ends without failure, the content committed
    as assistant message is the concatenation, in arrival order, of the
    payloads of the chunks: a chunk without payload is skipped and an empty
    string adds zero characters.  The message is appended and saved unless
    that concatenation is empty, which is the case exactly when every chunk
    has no payload or an empty one; one non-empty payload is enough for
    the append, whatever empty fragments come with it.  The stream
    "Hel", null, "lo", "", "!" gives exactly "Hello!". *)
Theorem C4_committed_content_is_concatenation
    (llm_client : LLM.LLMClient) (ui : ChatUI.t) (st : state) (cur : ref) (s : Session.t)
    (user_input now_user now_assistant : string)
    (chunks : list LLM.ChatCompletionChunk) :
  current_session st = Some cur →
  heap st !! cur = Some s →
  let s1 := Session.add_message s (Message.mk "user" user_input now_user) in
  let content := join (omap payload chunks) in
  let s2 := Session.add_message s1 (Message.mk "assistant" content now_assistant) in
  LLM.client llm_client (LLM.model llm_client)
    (request llm_client (Session.get_messages_for_api s1)) = LLM.streams chunks None →
  let committed := if decide (content = "") then s1 else s2 in
  Main.chat_turn llm_client ui user_input now_user now_assistant st
    = (Ok tt,
       State (<[cur := committed]> (heap st)) (_sessions st) (Some cur)
             (<[Session.id s := Parsed (Session.to_dict committed)]> (sessions_dir st))
             "" (console st))
  ∧ (content = "" ↔
     ∀ chunk, chunk ∈ chunks → payload chunk = None ∨ payload chunk = Some "")
  ∧ join (omap payload [chunk_of (Some "Hel"); chunk_of None; chunk_of (Some "lo");
                        chunk_of (Some ""); chunk_of (Some "!")]) = "Hello!".
Proof.
  intros Hcur Hs s1 content s2 Hsdk committed.
  assert (Hstream : LLM.chat_stream llm_client (Session.get_messages_for_api s1)
                    = (omap LLM.yielded chunks, None)).
  { rewrite chat_stream_request. fold s1. by rewrite Hsdk. }
  pose proof (chat_turn_success llm_client ui st cur s user_input now_user now_assistant
                _ Hcur Hs Hstream) as Hrun.
  cbv zeta in Hrun. rewrite join_yielded in Hrun. fold s1 content s2 in Hrun.
  split; [|split; [|reflexivity]].
  - rewrite Hrun. unfold committed. destruct (decide (content = "")) as [Hc|Hc].
    + rewrite Hc. reflexivity.
    + apply truthy_spec in Hc. by rewrite Hc.
  - unfold content. rewrite join_empty_iff. split.
    + intros Hall chunk Hin. destruct (payload chunk) as [p|] eqn:Hp; [|by left].
      right. f_equal. apply Hall. apply list_elem_of_omap. by exists chunk.
    + intros Hall f Hf. apply list_elem_of_omap in Hf as (chunk & Hin & Hp).
      destruct (Hall chunk Hin) as [Hn|Hn]; congruence.
Qed.

Lemma C4_witness :
  let s := Session.mk "id-1" [] "2025-02-24T11:59:00" None in
  let st := State [s] [("id-1", 0)] (Some 0) ∅ "" [] in
  let chunks := [chunk_of (Some "Hel"); chunk_of None; chunk_of (Some "lo");
                 chunk_of (Some ""); chunk_of (Some "!")] in
  let llm_client := client_answering (LLM.streams chunks None) in
  let s2 := Session.mk "id-1"
              [Message.mk "user" "Hi" "2025-02-24T12:00:00";
               Message.mk "assistant" "Hello!" "2025-02-24T12:00:05"]
              "2025-02-24T11:59:00" None in
  Main.chat_turn llm_client ui_example "Hi" "2025-02-24T12:00:00" "2025-02-24T12:00:05" st
    = (Ok tt, State [s2] [("id-1", 0)] (Some 0)
                    (<["id-1" := Parsed (Session.to_dict s2)]> ∅) "" []).
Proof.
  intros s st chunks llm_client s2.
  destruct (C4_committed_content_is_concatenation llm_client ui_example st 0 s
              "Hi" "2025-02-24T12:00:00" "2025-02-24T12:00:05" chunks
              eq_refl eq_refl eq_refl) as (Hrun & _).
  exact Hrun.
Defined.

(** ** Listing *)

Lemma sorted_appears_before {A : Type} (key : A → string) (x y : A) (l : list A) :
  StronglySorted (desc key) l → x ∈ l → y ∈ l → ¬ desc key y x →
  appears_before x y l.
Proof.
  intros Hsorted Hx Hy Hnot.
  apply list_elem_of_split in Hx as (a & b & ->).
  apply elem_of_app in Hy as [Hy|Hy].
  - destruct Hnot.
    apply (StronglySorted_app_1_elem_of _ a (x :: b)); [done|done|].
    apply list_elem_of_here.
  - apply elem_of_cons in Hy as [->|Hy].
    + destruct Hnot. unfold desc. done.
    + apply list_elem_of_split in Hy as (b1 & b2 & ->). by exists a, b1, b2.
Qed.

Lemma created_at_keys_run (st : state) (l : list ref) :
  Forall (λ r, is_Some (heap st !! r)) l →
  SessionManager.created_at_keys l st
    = (Ok (map (λ r, (created_at_of st r, r)) l), st).
Proof.
  induction 1 as [|r l [s Hs] _ IH]; [done|].
  cbn [SessionManager.created_at_keys map]. munfold. rewrite Hs, IH.
  unfold created_at_of. by rewrite Hs.
Qed.

Lemma list_sessions_run (st : state) :
  Forall (λ r, is_Some (heap st !! r)) (dict_values (_sessions st)) →
  SessionManager.list_sessions st
    = (Ok (sort_desc (created_at_of st) (dict_values (_sessions st))), st).
Proof.
  intros Hlive. unfold SessionManager.list_sessions.
  unfold mbind at 1. unfold M_bind, gets.
  unfold mbind, M_bind. rewrite (created_at_keys_run st _ Hlive).
  unfold mret, M_ret. by rewrite sort_desc_keyed.
Qed.

Lemma create_session_run (st : state) (uuid4 now : string) (sp : option string) :
  SessionManager.create_session uuid4 now sp st =
    (Ok (length (heap st)),
     State (heap st ++ [Session.mk uuid4 [] now sp])
           (dict_set uuid4 (length (heap st)) (_sessions st))
           (Some (length (heap st)))
           (sessions_dir st) (streaming_content st) (console st)).
Proof.
  unfold SessionManager.create_session. munfold.
  cbn [heap set_heap]. rewrite lookup_app_r by done.
  rewrite Nat.sub_diag. done.
Qed.

Lemma created_twice_listed (st : state)
    (u1 n1 : string) (sp1 : option string) (u2 n2 : string) (sp2 : option string) :
  live st → u1 ≠ u2 → String.ltb n1 n2 = true →
  ∃ (l : list nat) (st' : state),
    (r1 ← SessionManager.create_session u1 n1 sp1;
     r2 ← SessionManager.create_session u2 n2 sp2;
     l ← SessionManager.list_sessions;
     mret (r1, r2, l)) st
      = (Ok (length (heap st), S (length (heap st)), l), st')
    ∧ appears_before (S (length (heap st))) (length (heap st)) l.
Proof.
  intros Hlive Hne Hlt.
  set (r1 := length (heap st)).
  set (s1 := Session.mk u1 [] n1 sp1). set (s2 := Session.mk u2 [] n2 sp2).
  set (st2 := State ((heap st ++ [s1]) ++ [s2])
                (dict_set u2 (S r1) (dict_set u1 r1 (_sessions st)))
                (Some (S r1)) (sessions_dir st) (streaming_content st) (console st)).
  assert (Hh1 : heap st2 !! r1 = Some s1).
  { cbn [heap st2]. rewrite lookup_app_l by (rewrite length_app; unfold r1; simpl; lia).
    rewrite lookup_app_r by done. by rewrite Nat.sub_diag. }
  assert (Hh2 : heap st2 !! S r1 = Some s2).
  { cbn [heap st2]. rewrite lookup_app_r by (rewrite length_app; unfold r1; simpl; lia).
    rewrite length_app. unfold r1. simpl.
    by replace (S (length (heap st)) - (length (heap st) + 1)) with 0 by lia. }
  assert (Hlive2 : live st2).
  { unfold live. apply Forall_forall. intros r Hr.
    apply dict_values_elem_of in Hr as [k Hr]. cbn [_sessions st2] in Hr.
    apply dict_set_elem_of in Hr as [[= _ ->]|Hr]; [by eexists|].
    apply dict_set_elem_of in Hr as [[= _ ->]|Hr]; [by eexists|].
    assert (Hv : r ∈ dict_values (_sessions st)) by (apply dict_values_elem_of; eauto).
    unfold live in Hlive. rewrite Forall_forall in Hlive.
    destruct (Hlive r Hv) as [s Hs]. exists s. cbn [heap st2].
    rewrite <- app_assoc. by apply lookup_app_l_Some. }
  exists (sort_desc (created_at_of st2) (dict_values (_sessions st2))), st2.
  split.
  - erewrite bind_run by apply create_session_run.
    erewrite bind_run.
    2:{ rewrite create_session_run. cbn [heap _sessions]. rewrite length_app. simpl.
        replace (length (heap st) + 1) with (S r1) by (unfold r1; lia). reflexivity. }
    erewrite bind_run by (apply (list_sessions_run st2 Hlive2)).
    reflexivity.
  - apply (sorted_appears_before (created_at_of st2)).
    + apply sort_desc_sorted.
    + rewrite sort_desc_perm. apply (dict_get_values u2). apply dict_get_set_eq.
    + rewrite sort_desc_perm. apply (dict_get_values u1). cbn [_sessions st2].
      rewrite dict_get_set_ne by done. apply dict_get_set_eq.
    + unfold desc, created_at_of. rewrite Hh1, Hh2. simpl.
      by apply ltb_true_not_le.
Qed.

(** C7 (amended): [list] returns every session of the map, in descending
    order of [created_at]; sessions with equal [created_at] keep the order
    in which the map holds them; the call leaves the state as it was, so a
    repeated call returns the same list; and of two sessions created one
    after the other with distinct ids, the second is listed before the
    first whenever its [created_at] is strictly greater. *)
Theorem C7_list_sessions_order (st : state) :
  live st →
  ∃ l : list nat,
    SessionManager.list_sessions st = (Ok l, st)
    ∧ l ≡ₚ dict_values (_sessions st)
    ∧ StronglySorted
        (λ r1 r2, String.le (created_at_of st r2) (created_at_of st r1)) l
    ∧ (∀ t : string,
         filter (λ r, created_at_of st r = t) l
         = filter (λ r, created_at_of st r = t) (dict_values (_sessions st)))
    ∧ (∀ (u1 n1 : string) (sp1 : option string) (u2 n2 : string) (sp2 : option string),
         u1 ≠ u2 → String.ltb n1 n2 = true →
         ∃ (l' : list nat) (st' : state),
           (r1 ← SessionManager.create_session u1 n1 sp1;
            r2 ← SessionManager.create_session u2 n2 sp2;
            l ← SessionManager.list_sessions;
            mret (r1, r2, l)) st
             = (Ok (length (heap st), S (length (heap st)), l'), st')
           ∧ appears_before (S (length (heap st))) (length (heap st)) l').
Proof.
  intros Hlive. exists (sort_desc (created_at_of st) (dict_values (_sessions st))).
  split; [by apply list_sessions_run|].
  split; [apply sort_desc_perm|].
  split; [apply (sort_desc_sorted (created_at_of st))|].
  split; [intros t; apply (sort_desc_stable (created_at_of st))|].
  intros. by apply created_twice_listed.
Qed.

(** C7 (as stated, refuted): two sessions created one right after the
    other with the same [created_at] are listed with the earlier one first;
    and the same two sessions inserted in the opposite order are listed in
    the opposite order, so no key of the sessions decides the tie. *)
Lemma C7_counterexample :
  let st := snd (SessionManager.init [] "u0" "2025-02-24T12:00:00.000001"
                   (SessionManager.fresh ∅)) in
  let t := "2025-02-24T12:00:00.000002" in
  fst ((_ ← SessionManager.create_session "u1" t None;
        _ ← SessionManager.create_session "u2" t None;
        list_session_ids) st) = Ok ["u1"; "u2"; "u0"]
  ∧ fst ((_ ← SessionManager.create_session "u2" t None;
          _ ← SessionManager.create_session "u1" t None;
          list_session_ids) st) = Ok ["u2"; "u1"; "u0"].
Proof. split; vm_compute; reflexivity. Qed.

Lemma C7_witness :
  let st := State [Session.mk "a" [] "2025-02-24T12:00:00" None;
                   Session.mk "b" [] "2025-02-24T12:00:05" None;
                   Session.mk "c" [] "2025-02-24T12:00:05" None]
              [("a", 0); ("b", 1); ("c", 2)] (Some 2) ∅ "" [] in
  SessionManager.list_sessions st = (Ok [1; 2; 0], st).
Proof.
  intros st.
  assert (Hlive : live st).
  { unfold live. simpl. repeat constructor; by eexists. }
  destruct (C7_list_sessions_order st Hlive) as (l & Hrun & _).
  rewrite Hrun. vm_compute in Hrun. congruence.
Defined.

(** ** The store invariant *)

Lemma entries_ok_live (st : state) : entries_ok st → live st.
Proof.
  intros [_ Hall]. unfold live. apply Forall_forall. intros r Hr.
  apply dict_values_elem_of in Hr as [k Hr].
  rewrite Forall_forall in Hall. destruct (Hall _ Hr) as (s & Hs & _). by exists s.
Qed.

Lemma entries_ok_bound (st : state) (s : Session.t) (cur : option nat) :
  entries_ok st → entries_ok (bound (Session.id s) s cur st).
Proof.
  intros [Hnd Hall]. split; cbn [bound _sessions].
  - by apply NoDup_dict_set.
  - apply Forall_forall. intros e He.
    apply dict_set_elem_of in He as [->|He].
    + exists s. split; [|done]. cbn [bound heap snd].
      rewrite lookup_app_r by done. by rewrite Nat.sub_diag.
    + rewrite Forall_forall in Hall. destruct (Hall e He) as (s' & Hs' & Hid).
      exists s'. split; [|done]. cbn [bound heap]. by apply lookup_app_l_Some.
Qed.

Lemma store_ok_bound (st : state) (s : Session.t) :
  entries_ok st →
  store_ok (bound (Session.id s) s (Some (length (heap st))) st).
Proof.
  intros Hok. split; [by apply entries_ok_bound|]. cbn [bound _sessions current_session].
  assert (Hget : dict_get (Session.id s)
                   (dict_set (Session.id s) (length (heap st)) (_sessions st))
                 = Some (length (heap st))) by apply dict_get_set_eq.
  split.
  - intros Hnil. by rewrite Hnil in Hget.
  - by exists (length (heap st)), (Session.id s).
Qed.

Lemma create_session_bound (st : state) (uuid4 now : string) (sp : option string) :
  SessionManager.create_session uuid4 now sp st =
    (Ok (length (heap st)),
     bound uuid4 (Session.mk uuid4 [] now sp) (Some (length (heap st))) st).
Proof. apply create_session_run. Qed.

Lemma delete_session_run (st : state) (uuid4 now session_id : string) :
  SessionManager.delete_session uuid4 now session_id st =
    if dict_in session_id (_sessions st)
    then
      match current_session st with
      | None => (Ok tt, removed session_id st)
      | Some c =>
          match heap st !! c with
          | None => (Raise OutsideModel, removed session_id st)
          | Some s =>
              if decide (Session.id s = session_id)
              then
                match dict_values (dict_del session_id (_sessions st)) with
                | first :: _ =>
                    (Ok tt, set_current_session (Some first) (removed session_id st))
                | [] =>
                    (Ok tt, bound uuid4 (Session.mk uuid4 [] now None)
                              (Some (length (heap st))) (removed session_id st))
                end
              else (Ok tt, removed session_id st)
          end
      end
    else (Raise (KeyError ("Session " +:+ session_id +:+ " not found")), st).
Proof.
  unfold SessionManager.delete_session.
  unfold mbind, M_bind, modify, gets, deref, mret, M_ret.
  destruct (dict_in session_id (_sessions st)); [|done].
  change (negb true) with false. cbv beta iota.
  unfold set_sessions, set_sessions_dir.
  cbn [current_session heap _sessions sessions_dir streaming_content console].
  unfold removed.
  destruct (current_session st) as [c|]; [|done].
  cbn [heap]. destruct (heap st !! c) as [s|]; [|done].
  destruct (decide (Session.id s = session_id)); [|done].
  cbn [_sessions].
  destruct (dict_values (dict_del session_id (_sessions st))) as [|first rest] eqn:Hv; [|done].
  by rewrite create_session_bound.
Qed.

Lemma entries_ok_removed (st : state) (session_id : string) :
  entries_ok st → entries_ok (removed session_id st).
Proof.
  intros [Hnd Hall]. split; cbn [removed _sessions].
  - by apply NoDup_dict_del.
  - apply Forall_forall. intros e He. apply dict_del_elem_of in He.
    rewrite Forall_forall in Hall. by apply Hall.
Qed.

Lemma entries_ok_set_current (st : state) (c : option nat) :
  entries_ok st → entries_ok (set_current_session c st).
Proof. by intros [Hnd Hall]. Qed.

Lemma store_ok_current (st : state) :
  store_ok st →
  ∃ (c : nat) (s : Session.t),
    current_session st = Some c ∧ heap st !! c = Some s
    ∧ dict_get (Session.id s) (_sessions st) = Some c.
Proof.
  intros ([Hnd Hall] & _ & c & k & Hc & Hk).
  rewrite Forall_forall in Hall.
  destruct (Hall (k, c) (dict_get_elem_of _ _ _ Hk)) as (s & Hs & Hid).
  simpl in Hs, Hid. exists c, s. by rewrite Hid.
Qed.

Lemma store_ok_delete (st : state) (uuid4 now session_id : string) :
  store_ok st → store_ok (snd (SessionManager.delete_session uuid4 now session_id st)).
Proof.
  intros Hok. destruct (store_ok_current st Hok) as (c & s & Hc & Hs & Hget).
  destruct Hok as (Hent & Hne & _).
  rewrite delete_session_run.
  destruct (dict_in session_id (_sessions st)).
  2:{ simpl. split; [done|]. split; [done|]. by exists c, (Session.id s). }
  rewrite Hc, Hs.
  destruct (decide (Session.id s = session_id)) as [Heq|Hneq].
  - destruct (dict_values (dict_del session_id (_sessions st))) as [|first rest] eqn:Hv.
    + simpl. apply (store_ok_bound (removed session_id st)
                      (Session.mk uuid4 [] now None)).
      by apply entries_ok_removed.
    + simpl. split; [by apply entries_ok_set_current, entries_ok_removed|].
      cbn [set_current_session removed _sessions current_session].
      destruct (dict_del session_id (_sessions st)) as [|[k1 r1] d'] eqn:Hd; [done|].
      split; [done|]. injection Hv as <- _. exists r1, k1. split; [done|].
      simpl. by rewrite decide_True.
  - simpl. split; [by apply entries_ok_removed|].
    cbn [removed _sessions current_session].
    assert (Hget' : dict_get (Session.id s) (dict_del session_id (_sessions st)) = Some c).
    { rewrite dict_get_del_ne by done. exact Hget. }
    split.
    + intros Hnil. by rewrite Hnil in Hget'.
    + by exists c, (Session.id s).
Qed.

Lemma store_ok_run_op (o : op) (st : state) : store_ok st → store_ok (snd (run_op o st)).
Proof.
  intros Hok. destruct o as [u n sp|u n k|k]; simpl.
  - unfold mbind, M_bind. rewrite create_session_bound. simpl.
    apply (store_ok_bound st (Session.mk u [] n sp)). by destruct Hok.
  - by apply store_ok_delete.
  - rewrite switch_to_session_run.
    destruct (dict_get k (_sessions st)) as [r|] eqn:Hk; [|done].
    simpl. destruct Hok as (Hent & Hne & _).
    split; [by apply entries_ok_set_current|]. split; [done|]. by exists r, k.
Qed.

Lemma store_ok_run_ops (ops : list op) (st : state) :
  store_ok st → store_ok (run_ops ops st).
Proof.
  revert st. induction ops as [|o ops IH]; intros st Hok; [done|].
  simpl. apply IH. by apply store_ok_run_op.
Qed.

Lemma for_each_invariant {A : Type} (P : state → Prop) (body : A → M unit) :
  (∀ x st, P st → P (snd (body x st))) →
  ∀ l st, P st → P (snd (for_each body l st)).
Proof.
  intros Hbody l. induction l as [|x l IH]; intros st HP; [done|].
  cbn [for_each]. unfold mbind, M_bind.
  specialize (Hbody x st HP). destruct (body x st) as [[[]|e] st']; simpl in *.
  - by apply IH.
  - done.
Qed.

Lemma load_all_sessions_entries_ok (dir_exists : bool) (names : list string) (st : state) :
  entries_ok st → entries_ok (snd (SessionManager.load_all_sessions dir_exists names st)).
Proof.
  intros Hok. unfold SessionManager.load_all_sessions.
  destruct dir_exists; [|done]. cbn [negb].
  unfold mbind at 1. unfold M_bind.
  match goal with |- context [for_each ?body names st] =>
    pose proof (for_each_invariant entries_ok body) as Hloop
  end.
  lapply Hloop; clear Hloop.
  - intros Hloop. specialize (Hloop names st Hok).
    destruct (for_each _ names st) as [[[]|e] st1]; simpl in Hloop; [|done].
    unfold mbind, M_bind. rewrite (list_sessions_run st1) by (by apply entries_ok_live).
    destruct (sort_desc _ _) as [|first rest]; [done|].
    simpl. by apply entries_ok_set_current.
  - intros name st' Hok'. unfold try_except_corrupted, SessionManager.json_load.
    munfold. destruct (sessions_dir st' !! name) as [[|data]|]; simpl; try done.
    destruct (Session.from_dict data) as [s|[]]; simpl; try done.
    rewrite lookup_app_r by done. rewrite Nat.sub_diag. simpl.
    apply (entries_ok_bound st' s (current_session st') Hok').
Qed.

Lemma load_all_sessions_current (names : list string) (st st' : state) :
  entries_ok st →
  SessionManager.load_all_sessions true names st = (Ok tt, st') →
  _sessions st' ≠ [] →
  ∃ (c : nat) (k : string),
    current_session st' = Some c ∧ dict_get k (_sessions st') = Some c.
Proof.
  intros Hok. unfold SessionManager.load_all_sessions. cbn [negb].
  unfold mbind at 1. unfold M_bind.
  match goal with |- context [for_each ?body names st] =>
    pose proof (for_each_invariant entries_ok body) as Hloop
  end.
  lapply Hloop; clear Hloop.
  - intros Hloop. specialize (Hloop names st Hok).
    destruct (for_each _ names st) as [[[]|e] st1]; simpl in Hloop; [|done].
    unfold mbind, M_bind. rewrite (list_sessions_run st1) by (by apply entries_ok_live).
    destruct (sort_desc _ _) as [|first rest] eqn:Hsort.
    + intros [= <-] Hne. exfalso.
      pose proof (sort_desc_perm (created_at_of st1) (dict_values (_sessions st1))) as Hp.
      rewrite Hsort in Hp. apply Permutation_nil in Hp.
      by apply dict_values_nil in Hp.
    + intros [= <-] _. exists first.
      assert (Hin : first ∈ dict_values (_sessions st1)).
      { rewrite <- (sort_desc_perm (created_at_of st1)). rewrite Hsort.
        apply list_elem_of_here. }
      apply dict_values_elem_of in Hin as [k Hin]. exists k. split; [done|].
      apply elem_of_dict_get; [|done]. by destruct Hloop.
  - intros name st'' Hok'. unfold try_except_corrupted, SessionManager.json_load.
    munfold. destruct (sessions_dir st'' !! name) as [[|data]|]; simpl; try done.
    destruct (Session.from_dict data) as [s|[]]; simpl; try done.
    rewrite lookup_app_r by done. rewrite Nat.sub_diag. simpl.
    apply (entries_ok_bound st'' s (current_session st'') Hok').
Qed.

Lemma init_store_ok (names : list string) (uuid4 now : string) (st0 st : state) :
  SessionManager.init names uuid4 now st0 = (Ok tt, st) → store_ok st.
Proof.
  unfold SessionManager.init.
  unfold mbind at 1 2. unfold M_bind at 1 2. unfold modify at 1 2.
  set (sta := set_current_session None (set_sessions [] st0)).
  assert (Ha : entries_ok sta) by (split; constructor).
  unfold mbind at 1. unfold M_bind at 1.
  pose proof (load_all_sessions_entries_ok true names sta Ha) as Hent.
  pose proof (load_all_sessions_current names sta) as Hcur.
  destruct (SessionManager.load_all_sessions true names sta) as [[[]|e] stb]; [|done].
  simpl in Hent. specialize (Hcur stb Ha eq_refl).
  unfold mbind, M_bind, gets.
  destruct (_sessions stb) as [|e d] eqn:Hd.
  - rewrite create_session_bound. intros [= <-].
    by apply (store_ok_bound stb (Session.mk uuid4 [] now None)).
  - intros [= <-]. split; [done|]. rewrite Hd. split; [done|]. by apply Hcur.
Qed.

Lemma delete_current_ok (st : state) (c : nat) (s : Session.t) (uuid4 now : string) :
  current_session st = Some c → heap st !! c = Some s →
  dict_get (Session.id s) (_sessions st) = Some c →
  fst (SessionManager.delete_session uuid4 now (Session.id s) st) = Ok tt.
Proof.
  intros Hc Hs Hget. rewrite delete_session_run. unfold dict_in.
  rewrite Hget, Hc, Hs. rewrite decide_True by done.
  by destruct (dict_values _).
Qed.

Lemma delete_last_session (st : state) (c : nat) (s : Session.t) (uuid4 now : string) :
  current_session st = Some c → heap st !! c = Some s →
  dict_get (Session.id s) (_sessions st) = Some c →
  length (_sessions st) = 1 →
  snd (SessionManager.delete_session uuid4 now (Session.id s) st)
    = State (heap st ++ [Session.mk uuid4 [] now None])
            [(uuid4, length (heap st))] (Some (length (heap st)))
            (delete (Session.id s) (sessions_dir st))
            (streaming_content st) (console st).
Proof.
  intros Hc Hs Hget Hlen. rewrite delete_session_run. unfold dict_in.
  rewrite Hget, Hc, Hs. rewrite decide_True by done.
  destruct (_sessions st) as [|[k0 r0] [|e d]] eqn:Hd; try done.
  simpl in Hget. destruct (decide (Session.id s = k0)) as [Hk|Hk]; [|done].
  simpl. rewrite decide_True by done. simpl.
  unfold bound, removed. simpl. rewrite Hd. simpl. by rewrite decide_True.
Qed.

Lemma dict_get_del_eq {V : Type} (k : string) (d : dict V) :
  NoDup (dict_keys d) → dict_get k (dict_del k d) = None.
Proof.
  induction d as [|[k' v'] d IH]; simpl; [done|].
  rewrite NoDup_cons. intros [Hnotin Hnd].
  destruct (decide (k = k')) as [->|Hne]; simpl.
  - destruct (dict_get k' d) as [v|] eqn:Hget; [|done].
    destruct Hnotin. apply dict_get_elem_of in Hget.
    unfold dict_keys. apply list_elem_of_fmap. by exists (k', v).
  - rewrite decide_False by done. by apply IH.
Qed.

Lemma dict_del_length {V : Type} (k : string) (v : V) (d : dict V) :
  dict_get k d = Some v → S (length (dict_del k d)) = length d.
Proof.
  induction d as [|[k' v'] d IH]; simpl; [done|].
  destruct (decide (k = k')); [done|]. intros Hget. simpl. by rewrite IH.
Qed.

(* Deleting the current session while others remain: the first session of
   the remaining map becomes current and nothing is created. *)
Lemma delete_current_remaining (st : state) (c : nat) (s : Session.t) (uuid4 now : string) :
  current_session st = Some c → heap st !! c = Some s →
  dict_get (Session.id s) (_sessions st) = Some c →
  length (_sessions st) ≠ 1 →
  ∃ first : nat,
    dict_values (dict_del (Session.id s) (_sessions st)) !! 0 = Some first
    ∧ snd (SessionManager.delete_session uuid4 now (Session.id s) st)
      = set_current_session (Some first) (removed (Session.id s) st).
Proof.
  intros Hc Hs Hget Hlen. rewrite delete_session_run. unfold dict_in.
  rewrite Hget, Hc, Hs. rewrite decide_True by done.
  pose proof (dict_del_length _ _ _ Hget) as Hdel.
  destruct (dict_del (Session.id s) (_sessions st)) as [|[k1 r1] d']; simpl in *.
  - destruct Hlen. by rewrite <- Hdel.
  - by exists r1.
Qed.

(** C2: after the constructor returned, whatever sequence of create,
    delete and switch operations is run, the map is not empty and the
    current session is an object that the map holds under its own id.
    Deleting that current session succeeds and leaves a current session
    that the map holds.  When other sessions remain, the deleted id is no
    longer a key, no session is created and no object changes: the current
    session becomes one that the map already held under another id, the
    first of the remaining map.  When it was the only session, the map
    then holds exactly one entry, a session created by the deletion, which
    is the current one. *)
Theorem C2_store_never_empty
    (names : list string) (uuid4 now : string) (dir : gmap string file)
    (st : state) (ops : list op) :
  SessionManager.init names uuid4 now (SessionManager.fresh dir) = (Ok tt, st) →
  _sessions (run_ops ops st) ≠ []
  ∧ ∃ (c : nat) (s : Session.t),
      current_session (run_ops ops st) = Some c
      ∧ heap (run_ops ops st) !! c = Some s
      ∧ dict_get (Session.id s) (_sessions (run_ops ops st)) = Some c
      ∧ ∀ (u n : string),
          ∃ (st' : state) (c' : nat) (k' : string),
            SessionManager.delete_session u n (Session.id s) (run_ops ops st)
              = (Ok tt, st')
            ∧ _sessions st' ≠ []
            ∧ current_session st' = Some c'
            ∧ dict_get k' (_sessions st') = Some c'
            ∧ (length (_sessions (run_ops ops st)) ≠ 1 →
               _sessions st' = dict_del (Session.id s) (_sessions (run_ops ops st))
               ∧ dict_get (Session.id s) (_sessions st') = None
               ∧ heap st' = heap (run_ops ops st)
               ∧ k' ≠ Session.id s
               ∧ dict_get k' (_sessions (run_ops ops st)) = Some c'
               ∧ c' ≠ c
               ∧ dict_values (_sessions st') !! 0 = Some c')
            ∧ (length (_sessions (run_ops ops st)) = 1 →
               _sessions st' = [(u, length (heap (run_ops ops st)))]
               ∧ c' = length (heap (run_ops ops st))
               ∧ heap st' !! c' = Some (Session.mk u [] n None)
               ∧ heap st' = heap (run_ops ops st) ++ [Session.mk u [] n None]).
Proof.
  intros Hinit. apply init_store_ok in Hinit.
  apply (store_ok_run_ops ops) in Hinit. set (st1 := run_ops ops st) in *.
  destruct (store_ok_current st1 Hinit) as (c & s & Hc & Hs & Hget).
  split; [by destruct Hinit as (_ & Hne & _)|].
  exists c, s. split; [done|]. split; [done|]. split; [done|].
  intros u n.
  pose proof (store_ok_delete st1 u n (Session.id s) Hinit) as Hok.
  pose proof (delete_current_ok st1 c s u n Hc Hs Hget) as Hres.
  pose proof (delete_last_session st1 c s u n Hc Hs Hget) as Hlast.
  pose proof (delete_current_remaining st1 c s u n Hc Hs Hget) as Hrem.
  destruct (SessionManager.delete_session u n (Session.id s) st1) as [res st'].
  simpl in Hok, Hres, Hlast, Hrem. subst res.
  destruct Hok as (_ & Hne & c' & k' & Hc' & Hk').
  exists st', c', k'. split; [done|]. split; [done|]. split; [done|]. split; [done|].
  split.
  - intros Hlen. destruct (Hrem Hlen) as (first & Hfirst & ->).
    cbn [set_current_session removed _sessions heap current_session] in *.
    injection Hc' as <-.
    destruct Hinit as ([Hnd Hall] & _).
    assert (Hgone : dict_get (Session.id s) (dict_del (Session.id s) (_sessions st1)) = None)
      by (by apply dict_get_del_eq).
    assert (Hk : k' ≠ Session.id s) by (intros ->; congruence).
    assert (Hbefore : dict_get k' (_sessions st1) = Some first)
      by (by rewrite <- (dict_get_del_ne (Session.id s) k')).
    do 5 (split; [done|]). split; [|done].
    intros ->. rewrite Forall_forall in Hall.
    destruct (Hall (k', c) (dict_get_elem_of _ _ _ Hbefore)) as (s0 & Hs0 & Hid).
    simpl in Hs0, Hid. congruence.
  - intros Hlen. specialize (Hlast Hlen). subst st'. simpl in *.
    injection Hc' as <-. split; [done|]. split; [done|]. split; [|done].
    rewrite lookup_app_r by done. by rewrite Nat.sub_diag.
Qed.

Lemma C2_witness :
  let a := Session.mk "a" [] "2025-02-24T11:59:00" None in
  let c := Session.mk "c" [] "2025-02-24T12:00:00" None in
  let dir : gmap string file :=
    <["a" := Parsed (Session.to_dict a)]> (<["b" := Unparseable]> ∅) in
  let st := snd (SessionManager.init ["a"; "b"] "u" "2025-02-24T12:00:00"
                   (SessionManager.fresh dir)) in
  let two := [Create "c" "2025-02-24T12:00:00" None; Switch "a"; Switch "zz"] in
  let one := [Create "c" "2025-02-24T12:00:00" None; Switch "a";
              Delete "d" "2025-02-24T12:01:00" "a"] in
  (* the current session "a" is deleted while "c" remains *)
  (∃ st' : state,
     SessionManager.delete_session "e" "2025-02-24T12:02:00" "a" (run_ops two st)
       = (Ok tt, st')
     ∧ _sessions st' = [("c", 1)]
     ∧ current_session st' = Some 1
     ∧ heap st' = [a; c])
  (* the current session "c" is deleted and was the last one *)
  ∧ ∃ st' : state,
      SessionManager.delete_session "e" "2025-02-24T12:02:00" "c" (run_ops one st)
        = (Ok tt, st')
      ∧ _sessions st' = [("e", 2)]
      ∧ current_session st' = Some 2
      ∧ heap st' = [a; c; Session.mk "e" [] "2025-02-24T12:02:00" None].
Proof.
  intros a c dir st two one.
  assert (Hinit : SessionManager.init ["a"; "b"] "u" "2025-02-24T12:00:00"
                    (SessionManager.fresh dir) = (Ok tt, st))
    by (vm_compute; reflexivity).
  split.
  - destruct (C2_store_never_empty ["a"; "b"] "u" "2025-02-24T12:00:00" dir st two Hinit)
      as (_ & c0 & s0 & Hc & Hs & _ & Hdel).
    vm_compute in Hc. injection Hc as <-. vm_compute in Hs. injection Hs as <-.
    destruct (Hdel "e" "2025-02-24T12:02:00")
      as (st' & c' & k' & Hrun & _ & Hc' & _ & Hrem & _).
    destruct Hrem as (Hmap & _ & Hheap & _ & _ & _ & Hfirst); [vm_compute; lia|].
    exists st'. split; [exact Hrun|].
    rewrite Hmap in Hfirst. vm_compute in Hfirst. injection Hfirst as <-.
    split; [rewrite Hmap; vm_compute; reflexivity|].
    split; [exact Hc'|]. rewrite Hheap. vm_compute. reflexivity.
  - destruct (C2_store_never_empty ["a"; "b"] "u" "2025-02-24T12:00:00" dir st one Hinit)
      as (_ & c0 & s0 & Hc & Hs & _ & Hdel).
    vm_compute in Hc. injection Hc as <-. vm_compute in Hs. injection Hs as <-.
    destruct (Hdel "e" "2025-02-24T12:02:00")
      as (st' & c' & k' & Hrun & _ & Hc' & _ & _ & Hlast).
    destruct Hlast as (Hmap & Hcur & _ & Hheap); [vm_compute; reflexivity|].
    exists st'. split; [exact Hrun|].
    split; [rewrite Hmap; vm_compute; reflexivity|].
    split; [rewrite Hc', Hcur; vm_compute; reflexivity|].
    rewrite Hheap. vm_compute. reflexivity.
Defined.

(** * Further properties of the code *)

(** ** Records with a missing field *)

(** X1: of the four fields of a session record only [system_prompt] may be
    absent: without it the record decodes to the session with no system
    prompt; without [id], [messages] or [created_at] decoding raises
    [KeyError] for that key; removing any other key changes nothing. *)
Theorem session_record_required_fields (s : Session.t) (k : string) :
  Session.from_dict (JObj (dict_del k (fields (Session.to_dict s)))) =
    if decide (k = "system_prompt")
    then Ok (Session.mk (Session.id s) (Session.messages s) (Session.created_at s) None)
    else if decide (k ∈ ["id"; "messages"; "created_at"])
         then Raise (KeyError k)
         else Ok s.
Proof.
  destruct s as [i ms c sp].
  unfold Session.to_dict, fields, Session.from_dict.
  cbn [Session.id Session.messages Session.created_at Session.system_prompt].
  destruct (decide (k = "id")) as [->|Hid].
  { cbn. reflexivity. }
  destruct (decide (k = "messages")) as [->|Hms].
  { cbn. reflexivity. }
  destruct (decide (k = "created_at")) as [->|Hc].
  { cbn [dict_del]. repeat (rewrite ?decide_True, ?decide_False by done).
    munfold. cbn [getitem dict_get].
    repeat (rewrite ?decide_True, ?decide_False by done).
    cbn [iterate]. rewrite messages_from_dict_to_dict.
    repeat (rewrite ?decide_True, ?decide_False by done). reflexivity. }
  destruct (decide (k = "system_prompt")) as [->|Hsp].
  { cbn [dict_del]. repeat (rewrite ?decide_True, ?decide_False by done).
    munfold. cbn [getitem dict_get].
    repeat (rewrite ?decide_True, ?decide_False by done).
    cbn [iterate]. rewrite messages_from_dict_to_dict.
    repeat (rewrite ?decide_True, ?decide_False by done). reflexivity. }
  rewrite decide_False.
  2:{ rewrite !elem_of_cons, elem_of_nil. by intros [->|[->|[->|[]]]]. }
  cbn [dict_del]. rewrite !decide_False by done.
  apply (from_dict_to_dict (Session.mk i ms c sp)).
Qed.

(** X2: a message record needs its three fields: without [role], [content]
    or [timestamp] decoding raises [KeyError] for that key, and removing
    any other key changes nothing (the record decodes to the message). *)
Theorem message_record_required_fields (m : Message.t) (k : string) :
  Message.from_dict (JObj (dict_del k (fields (Message.to_dict m)))) =
    if decide (k ∈ ["role"; "content"; "timestamp"])
    then Raise (KeyError k)
    else Ok m.
Proof.
  destruct m as [r c t]. unfold Message.to_dict, fields.
  cbn [Message.role Message.content Message.timestamp].
  destruct (decide (k = "role")) as [->|Hr]; [by cbn|].
  destruct (decide (k = "content")) as [->|Hc]; [by cbn|].
  destruct (decide (k = "timestamp")) as [->|Ht]; [by cbn|].
  rewrite decide_False.
  2:{ rewrite !elem_of_cons, elem_of_nil. by intros [->|[->|[->|[]]]]. }
  cbn [dict_del]. rewrite !decide_False by done.
  apply (message_from_dict_to_dict (Message.mk r c t)).
Qed.

(** ** The API projection grows with the history *)

Lemma get_messages_for_api_append (s : Session.t) (m : Message.t) :
  Session.get_messages_for_api (Session.add_message s m)
  = Session.get_messages_for_api s
    ++ [api_entry (Message.role m) (Message.content m)].
Proof.
  unfold Session.get_messages_for_api, Session.add_message.
  cbn [Session.messages Session.system_prompt].
  rewrite map_app. cbn [map].
  destruct (Session.system_prompt s) as [p|]; [|done].
  by destruct (truthy p).
Qed.

(** X3: appending a message to a session appends exactly its
    [{role, content}] entry to the API projection: the entries before it,
    the synthetic system entry included, stay as they were and the
    timestamp is not sent. *)
Theorem api_projection_add_message (s : Session.t) (m : Message.t) :
  Session.get_messages_for_api (Session.add_message s m)
  = Session.get_messages_for_api s
    ++ [api_entry (Message.role m) (Message.content m)].
Proof.
  destruct s as [i ms c sp]. unfold Session.get_messages_for_api, Session.add_message.
  cbn [Session.messages Session.system_prompt Session.id Session.created_at].
  rewrite map_app. cbn [map].
  destruct sp as [p|]; [|reflexivity].
  destruct (truthy p); reflexivity.
Qed.

(** ** Creating, deleting, saving and loading *)

(** X4: a session just created is in memory only: the directory is as it
    was, so when no file bears the new id a [load] of that id raises
    [KeyError], while [get] returns the new session, which is empty and
    current. *)
Theorem create_session_not_persisted
    (st : state) (uuid4 now : string) (system_prompt : option string) :
  sessions_dir st !! uuid4 = None →
  ∃ (r : nat) (st1 : state),
    SessionManager.create_session uuid4 now system_prompt st = (Ok r, st1)
    ∧ sessions_dir st1 = sessions_dir st
    ∧ SessionManager.load_session uuid4 st1
        = (Raise (KeyError ("Session file for " +:+ uuid4 +:+ " not found")), st1)
    ∧ SessionManager.get_session uuid4 st1 = (Ok r, st1)
    ∧ current_session st1 = Some r
    ∧ heap st1 !! r = Some (Session.mk uuid4 [] now system_prompt).
Proof.
  intros Hfile. eexists _, _. split; [apply create_session_run|].
  split; [done|]. split.
  { rewrite load_session_run. cbn [sessions_dir]. by rewrite Hfile. }
  split.
  { rewrite get_session_run. cbn [_sessions]. by rewrite dict_get_set_eq. }
  split; [done|]. cbn [heap].
  rewrite lookup_app_r by done. by rewrite Nat.sub_diag.
Qed.

Lemma create_session_not_persisted_witness :
  let st := State [] [] None ∅ "" [] in
  ∃ (r : nat) (st1 : state),
    SessionManager.create_session "id-1" "2025-02-24T12:00:00" (Some "Be helpful") st
      = (Ok r, st1)
    ∧ sessions_dir st1 = sessions_dir st
    ∧ SessionManager.load_session "id-1" st1
        = (Raise (KeyError ("Session file for " +:+ "id-1" +:+ " not found")), st1)
    ∧ SessionManager.get_session "id-1" st1 = (Ok r, st1)
    ∧ current_session st1 = Some r
    ∧ heap st1 !! r
      = Some (Session.mk "id-1" [] "2025-02-24T12:00:00" (Some "Be helpful")).
Proof.
  intros st.
  apply (create_session_not_persisted st "id-1" "2025-02-24T12:00:00" (Some "Be helpful")).
  reflexivity.
Defined.

(** X5: deleting an id that the in-memory map does not hold raises
    [KeyError] and changes nothing: a file that bears this id stays in the
    directory. *)
Theorem delete_session_unknown_id
    (st : state) (uuid4 now session_id : string) :
  dict_get session_id (_sessions st) = None →
  SessionManager.delete_session uuid4 now session_id st
    = (Raise (KeyError ("Session " +:+ session_id +:+ " not found")), st)
  ∧ sessions_dir (snd (SessionManager.delete_session uuid4 now session_id st)) !! session_id
    = sessions_dir st !! session_id.
Proof.
  intros Hget. rewrite delete_session_run. unfold dict_in. by rewrite Hget.
Qed.

Lemma delete_session_unknown_id_witness :
  let x := Session.mk "x" [] "2025-02-24T11:58:00" None in
  let st := State [Session.mk "a" [] "2025-02-24T11:59:00" None] [("a", 0)] (Some 0)
              (<["x" := Parsed (Session.to_dict x)]> ∅) "" [] in
  SessionManager.delete_session "u" "2025-02-24T12:00:00" "x" st
    = (Raise (KeyError "Session x not found"), st)
  ∧ sessions_dir (snd (SessionManager.delete_session "u" "2025-02-24T12:00:00" "x" st)) !! "x"
    = Some (Parsed (Session.to_dict x)).
Proof.
  intros x st.
  destruct (delete_session_unknown_id st "u" "2025-02-24T12:00:00" "x" eq_refl)
    as [Hrun Hfile].
  split; [exact Hrun|]. rewrite Hfile. reflexivity.
Defined.

(** X6: in a store that satisfies the invariant, deleting an id that the
    map holds succeeds; afterwards the file of that id is gone, the other
    files are as they were, the other keys (the id of a session created by
    the deletion apart) are bound as before, the id itself is no longer a
    key unless the session created in place of the last one drew the same
    id, the invariant holds again, and when the deleted session was not
    the current one the current session and the objects are untouched. *)
Theorem delete_session_effect
    (st : state) (uuid4 now session_id : string) (r : nat) :
  store_ok st →
  dict_get session_id (_sessions st) = Some r →
  ∃ st' : state,
    SessionManager.delete_session uuid4 now session_id st = (Ok tt, st')
    ∧ store_ok st'
    ∧ sessions_dir st' = delete session_id (sessions_dir st)
    ∧ (session_id ≠ uuid4 → dict_get session_id (_sessions st') = None)
    ∧ (∀ k, k ≠ session_id → k ≠ uuid4 →
         dict_get k (_sessions st') = dict_get k (_sessions st))
    ∧ (∀ c s, current_session st = Some c → heap st !! c = Some s →
         Session.id s ≠ session_id →
         current_session st' = Some c ∧ heap st' = heap st
         ∧ _sessions st' = dict_del session_id (_sessions st)).
Proof.
  intros Hok Hget.
  pose proof (store_ok_delete st uuid4 now session_id Hok) as Hok'.
  destruct (store_ok_current st Hok) as (c & s & Hc & Hs & Hcget).
  assert (Hnd : NoDup (dict_keys (_sessions st))) by (by destruct Hok as [[? ?] _]).
  rewrite delete_session_run in *. unfold dict_in in *. rewrite Hget, Hc, Hs in *.
  destruct (decide (Session.id s = session_id)) as [Heq|Hneq].
  - destruct (dict_values (dict_del session_id (_sessions st))) as [|first rest] eqn:Hv.
    + eexists. split; [done|]. split; [exact Hok'|]. split; [done|].
      apply dict_values_nil in Hv. cbn [bound removed _sessions heap]. rewrite Hv.
      split; [|split].
      * intros Hne. simpl. by rewrite decide_False.
      * intros k Hk Hku. simpl. rewrite decide_False by done.
        rewrite <- (dict_get_del_ne session_id k) by done. by rewrite Hv.
      * intros c' s' [= <-] Hs'. rewrite Hs in Hs'. injection Hs' as <-. done.
    + eexists. split; [done|]. split; [exact Hok'|]. split; [done|].
      cbn [set_current_session removed _sessions heap current_session].
      split; [|split].
      * intros _. by apply dict_get_del_eq.
      * intros k Hk _. by apply dict_get_del_ne.
      * intros c' s' [= <-] Hs'. rewrite Hs in Hs'. injection Hs' as <-. done.
  - eexists. split; [done|]. split; [exact Hok'|]. split; [done|].
    cbn [removed _sessions heap current_session].
    split; [|split].
    * intros _. by apply dict_get_del_eq.
    * intros k Hk _. by apply dict_get_del_ne.
    * intros c' s' [= <-] Hs' _. by rewrite Hc.
Qed.

Lemma delete_session_effect_witness :
  let a := Session.mk "a" [] "2025-02-24T11:59:00" None in
  let b := Session.mk "b" [] "2025-02-24T12:00:00" None in
  let st := State [a; b] [("a", 0); ("b", 1)] (Some 1)
              (<["a" := Parsed (Session.to_dict a)]> ∅) "" [] in
  ∃ st' : state,
    SessionManager.delete_session "u" "2025-02-24T12:05:00" "a" st = (Ok tt, st')
    ∧ sessions_dir st' !! "a" = None
    ∧ dict_get "a" (_sessions st') = None
    ∧ current_session st' = Some 1.
Proof.
  intros a b st.
  assert (Hok : store_ok st).
  { split; [split|split].
    - simpl. apply NoDup_cons. split; [|apply NoDup_singleton].
      rewrite list_elem_of_singleton. discriminate.
    - repeat constructor; by eexists.
    - done.
    - by exists 1, "b". }
  destruct (delete_session_effect st "u" "2025-02-24T12:05:00" "a" 0 Hok eq_refl)
    as (st' & Hrun & _ & Hdir & Hgone & _ & Hcur).
  exists st'. split; [exact Hrun|]. split.
  { rewrite Hdir. apply lookup_delete_eq. }
  split; [by apply Hgone|].
  by destruct (Hcur 1 b eq_refl eq_refl) as [? _].
Defined.

(** X7: saving is an idempotent overwrite: a second [save] of the same
    session changes nothing more; a [save] writes the file named by the
    session's id and no other file, and leaves the objects, the map and
    the current session as they were. *)
Theorem save_session_idempotent (st : state) (session : nat) (s : Session.t) :
  heap st !! session = Some s →
  ∃ st1 : state,
    SessionManager.save_session session st = (Ok tt, st1)
    ∧ SessionManager.save_session session st1 = (Ok tt, st1)
    ∧ sessions_dir st1 !! Session.id s = Some (Parsed (Session.to_dict s))
    ∧ (∀ k, k ≠ Session.id s → sessions_dir st1 !! k = sessions_dir st !! k)
    ∧ heap st1 = heap st
    ∧ _sessions st1 = _sessions st
    ∧ current_session st1 = current_session st.
Proof.
  intros Hs. eexists. split; [by apply save_session_run|].
  split.
  { rewrite (save_session_run _ session s) by done.
    unfold set_sessions_dir. cbn [sessions_dir heap _sessions current_session
      streaming_content console]. by rewrite insert_insert_eq. }
  cbn [set_sessions_dir sessions_dir heap _sessions current_session].
  split; [apply lookup_insert_eq|]. split; [|done].
  intros k Hk. by apply lookup_insert_ne.
Qed.

Lemma save_session_idempotent_witness :
  let s := Session.mk "id-1" [Message.mk "user" "Hello" "2025-02-24T12:00:00"]
             "2025-02-24T11:59:00" None in
  let st := State [s] [("id-1", 0)] (Some 0)
              (<["id-1" := Unparseable]> ∅) "" [] in
  ∃ st1 : state,
    SessionManager.save_session 0 st = (Ok tt, st1)
    ∧ SessionManager.save_session 0 st1 = (Ok tt, st1)
    ∧ sessions_dir st1 !! "id-1" = Some (Parsed (Session.to_dict s)).
Proof.
  intros s st.
  destruct (save_session_idempotent st 0 s eq_refl) as (st1 & H1 & H2 & H3 & _).
  by exists st1.
Defined.

(** X8: a [load] that fails changes nothing; it fails with [KeyError] when
    no file bears the id, with the JSON decoding error when the file does
    not parse, and with the error of the decoding (a [KeyError] for a
    missing field) when the record is malformed. *)
Theorem load_session_failure_changes_nothing
    (st : state) (session_id : string) (e : exn) :
  fst (SessionManager.load_session session_id st) = Raise e →
  snd (SessionManager.load_session session_id st) = st
  ∧ (sessions_dir st !! session_id = None →
     e = KeyError ("Session file for " +:+ session_id +:+ " not found"))
  ∧ (sessions_dir st !! session_id = Some Unparseable → e = JSONDecodeError)
  ∧ (∀ data, sessions_dir st !! session_id = Some (Parsed data) →
     Session.from_dict data = Raise e).
Proof.
  rewrite load_session_run.
  destruct (sessions_dir st !! session_id) as [[|data]|]; simpl.
  - intros [= <-]. by repeat split.
  - destruct (Session.from_dict data) as [s|e'] eqn:Hd; simpl; [done|].
    intros [= <-]. repeat split; try done. by intros data' [= <-].
  - intros [= <-]. by repeat split.
Qed.

Lemma load_session_failure_changes_nothing_witness :
  let st := State [] [] None
              (<["bad" := Unparseable]>
                 (<["short" := Parsed (JObj [("id", JStr "short")])]> ∅)) "" [] in
  SessionManager.load_session "bad" st = (Raise JSONDecodeError, st)
  ∧ SessionManager.load_session "short" st = (Raise (KeyError "messages"), st).
Proof.
  intros st. split.
  - destruct (load_session_failure_changes_nothing st "bad" JSONDecodeError eq_refl)
      as (Hst & _).
    rewrite (surjective_pairing (SessionManager.load_session "bad" st)).
    by rewrite Hst.
  - destruct (load_session_failure_changes_nothing st "short" (KeyError "messages") eq_refl)
      as (Hst & _).
    rewrite (surjective_pairing (SessionManager.load_session "short" st)).
    by rewrite Hst.
Defined.

(** X9: a successful [load] never moves the current-session pointer and
    never writes the directory; the session it returns is a new object, so
    after loading the id of the current session the map holds, under that
    id, an object other than the one [current_session] refers to, and the
    current object itself is unchanged. *)
Theorem load_session_keeps_current
    (st st' : state) (session_id : string) (loaded c : nat) :
  current_session st = Some c →
  c < length (heap st) →
  SessionManager.load_session session_id st = (Ok loaded, st') →
  current_session st' = Some c
  ∧ loaded ≠ c
  ∧ dict_get session_id (_sessions st') = Some loaded
  ∧ heap st' !! c = heap st !! c
  ∧ sessions_dir st' = sessions_dir st.
Proof.
  intros Hc Hlt. rewrite load_session_run.
  destruct (sessions_dir st !! session_id) as [[|data]|]; try done.
  destruct (Session.from_dict data) as [s|]; [|done].
  intros [= <- <-]. cbn [set_sessions set_heap current_session _sessions heap sessions_dir].
  split; [done|]. split; [lia|]. split; [apply dict_get_set_eq|].
  split; [|done]. by apply lookup_app_l.
Qed.

Lemma load_session_keeps_current_witness :
  let s := Session.mk "id-1" [Message.mk "user" "Hello" "2025-02-24T12:00:00"]
             "2025-02-24T11:59:00" None in
  let st := State [s] [("id-1", 0)] (Some 0)
              (<["id-1" := Parsed (Session.to_dict s)]> ∅) "" [] in
  let st' := State [s; s] [("id-1", 1)] (Some 0) (sessions_dir st) "" [] in
  SessionManager.load_session "id-1" st = (Ok 1, st')
  ∧ current_session st' = Some 0
  ∧ dict_get "id-1" (_sessions st') = Some 1.
Proof.
  intros s st st'.
  assert (Hrun : SessionManager.load_session "id-1" st = (Ok 1, st'))
    by (vm_compute; reflexivity).
  assert (Hlt : 0 < length (heap st)) by (simpl; lia).
  destruct (load_session_keeps_current st st' "id-1" 1 0 eq_refl Hlt Hrun)
    as (Hcur & _ & Hget & _).
  by repeat split.
Defined.

(** ** Scanning the directory *)

Lemma load_all_sessions_unfold (names : list string) :
  SessionManager.load_all_sessions true names =
    (for_each load_file names;;
     sessions ← SessionManager.list_sessions;
     match sessions with
     | first :: _ => modify (set_current_session (Some first))
     | [] => mret tt
     end).
Proof. reflexivity. Qed.

Lemma load_file_run (name : string) (st : state) :
  load_file name st =
    match sessions_dir st !! name with
    | None => (Raise FileNotFoundError, st)
    | Some Unparseable => (Ok tt, st)
    | Some (Parsed data) =>
        match Session.from_dict data with
        | Ok s => (Ok tt, bound (Session.id s) s (current_session st) st)
        | Raise (KeyError _) => (Ok tt, st)
        | Raise JSONDecodeError => (Ok tt, st)
        | Raise e => (Raise e, st)
        end
    end.
Proof.
  unfold load_file, try_except_corrupted, SessionManager.json_load. munfold.
  destruct (sessions_dir st !! name) as [[|data]|]; simpl; try done.
  destruct (Session.from_dict data) as [s|[]]; simpl; try done.
  rewrite lookup_app_r by done. by rewrite Nat.sub_diag.
Qed.

Lemma from_dict_not_object (data : json) :
  (∀ o, data ≠ JObj o) → Session.from_dict data = Raise TypeError.
Proof. intros H. destruct data; try done. by destruct (H o). Qed.

Lemma is_Some_dict_get_set {V : Type} (k k' : string) (v : V) (d : dict V) :
  is_Some (dict_get k (dict_set k' v d)) ↔ k = k' ∨ is_Some (dict_get k d).
Proof.
  destruct (decide (k' = k)) as [->|Hne].
  - rewrite dict_get_set_eq. split; [by left|by eexists].
  - rewrite dict_get_set_ne by done. split; [by right|]. by intros [->|?].
Qed.

(* The scan itself, over files it gets past. *)
Lemma for_each_load_file (names : list string) (st : state) :
  entries_ok st →
  Forall (loadable (sessions_dir st)) names →
  ∃ st1 : state,
    for_each load_file names st = (Ok tt, st1)
    ∧ entries_ok st1
    ∧ sessions_dir st1 = sessions_dir st
    ∧ current_session st1 = current_session st
    ∧ streaming_content st1 = streaming_content st
    ∧ console st1 = console st
    ∧ (∀ r, r < length (heap st) → heap st1 !! r = heap st !! r)
    ∧ (∀ k, is_Some (dict_get k (_sessions st1)) ↔
         is_Some (dict_get k (_sessions st))
         ∨ ∃ name data s, name ∈ names
             ∧ sessions_dir st !! name = Some (Parsed data)
             ∧ Session.from_dict data = Ok s ∧ Session.id s = k).
Proof.
  intros Hok Hall. revert st Hok Hall.
  induction names as [|name names IH]; intros st Hok Hall.
  - exists st. do 7 (split; [done|]). intros k. split; [by left|].
    intros [?|(name & ? & ? & Hin & _)]; [done|]. by apply elem_of_nil in Hin.
  - apply Forall_cons in Hall as [Hname Hall].
    cbn [for_each]. unfold mbind, M_bind. rewrite load_file_run.
    destruct Hname as [Hf|(data & Hf & [[s Hd]|[k0 Hd]])]; rewrite Hf; try rewrite Hd.
    + destruct (IH st Hok Hall) as (st1 & Hrun & ? & ? & ? & ? & ? & ? & Hkeys).
      exists st1. do 7 (split; [done|]). intros k. split.
      * intros Hk. apply Hkeys in Hk as [?|(n' & d' & s' & ? & ? & ? & ?)]; [by left|].
        right. exists n', d', s'. split; [by apply list_elem_of_further|done].
      * intros [?|(n' & d' & s' & Hin & Hf' & ? & ?)]; apply Hkeys; [by left|].
        apply elem_of_cons in Hin as [->|Hin]; [congruence|].
        right. by exists n', d', s'.
    + set (st2 := bound (Session.id s) s (current_session st) st).
      assert (Hok2 : entries_ok st2) by (by apply entries_ok_bound).
      destruct (IH st2 Hok2 Hall) as (st1 & Hrun & ? & Hdir & Hcur & ? & ? & Hheap & Hkeys).
      exists st1. split; [done|]. split; [done|]. split; [done|]. split; [done|].
      split; [done|]. split; [done|]. split.
      * intros r Hr. rewrite Hheap by (cbn; rewrite length_app; lia).
        cbn. by apply lookup_app_l.
      * intros k. rewrite Hkeys. cbn [st2 bound _sessions sessions_dir].
        rewrite is_Some_dict_get_set. split.
        -- intros [[->|?]|(n' & d' & s' & ? & ? & ? & ?)].
           ++ right. exists name, data, s. split; [apply list_elem_of_here|done].
           ++ by left.
           ++ right. exists n', d', s'. split; [by apply list_elem_of_further|done].
        -- intros [?|(n' & d' & s' & Hin & Hf' & Hd' & Hid')]; [by left; right|].
           apply elem_of_cons in Hin as [->|Hin].
           ++ left. left. congruence.
           ++ right. by exists n', d', s'.
    + destruct (IH st Hok Hall) as (st1 & Hrun & ? & ? & ? & ? & ? & ? & Hkeys).
      exists st1. do 7 (split; [done|]). intros k. split.
      * intros Hk. apply Hkeys in Hk as [?|(n' & d' & s' & ? & ? & ? & ?)]; [by left|].
        right. exists n', d', s'. split; [by apply list_elem_of_further|done].
      * intros [?|(n' & d' & s' & Hin & Hf' & ? & ?)]; apply Hkeys; [by left|].
        apply elem_of_cons in Hin as [->|Hin]; [congruence|].
        right. by exists n', d', s'.
Qed.

(** X10: corruption isolation.  In a directory that exists, when every
    file of the scan parses to a session, does not parse, or lacks a field,
    [load_all] returns without raising; the ids in the map are then those
    it held before and those of the records that decoded; the objects that
    existed are untouched and the directory is as it was. *)
Theorem load_all_sessions_isolates_corruption (names : list string) (st : state) :
  entries_ok st →
  Forall (loadable (sessions_dir st)) names →
  ∃ st' : state,
    SessionManager.load_all_sessions true names st = (Ok tt, st')
    ∧ sessions_dir st' = sessions_dir st
    ∧ (∀ r, r < length (heap st) → heap st' !! r = heap st !! r)
    ∧ (∀ k, is_Some (dict_get k (_sessions st')) ↔
         is_Some (dict_get k (_sessions st))
         ∨ ∃ name data s, name ∈ names
             ∧ sessions_dir st !! name = Some (Parsed data)
             ∧ Session.from_dict data = Ok s ∧ Session.id s = k).
Proof.
  intros Hok Hall.
  destruct (for_each_load_file names st Hok Hall)
    as (st1 & Hrun & Hok1 & Hdir & _ & _ & _ & Hheap & Hkeys).
  rewrite load_all_sessions_unfold.
  erewrite bind_run by exact Hrun.
  erewrite bind_run by (apply list_sessions_run; by apply entries_ok_live).
  destruct (sort_desc _ _) as [|first rest].
  - by exists st1.
  - by exists (set_current_session (Some first) st1).
Qed.

Lemma load_all_sessions_isolates_corruption_witness :
  let good := Session.mk "id-1" [Message.mk "user" "Hello" "2025-02-24T12:00:00"]
                "2025-02-24T11:59:00" None in
  let dir : gmap string file :=
    <["id-1" := Parsed (Session.to_dict good)]> (<["broken" := Unparseable]> ∅) in
  let st := SessionManager.fresh dir in
  ∃ st' : state,
    SessionManager.load_all_sessions true ["broken"; "id-1"] st = (Ok tt, st')
    ∧ is_Some (dict_get "id-1" (_sessions st'))
    ∧ ¬ is_Some (dict_get "broken" (_sessions st')).
Proof.
  intros good dir st.
  assert (Hok : entries_ok st) by (split; constructor).
  assert (Hall : Forall (loadable (sessions_dir st)) ["broken"; "id-1"]).
  { apply Forall_cons. split; [by left|].
    apply Forall_cons. split; [|constructor].
    right. exists (Session.to_dict good). split; [reflexivity|].
    left. exists good. reflexivity. }
  destruct (load_all_sessions_isolates_corruption ["broken"; "id-1"] st Hok Hall)
    as (st' & Hrun & _ & _ & Hkeys).
  exists st'. split; [exact Hrun|]. split.
  - apply Hkeys. right. exists "id-1", (Session.to_dict good), good.
    split; [|done]. apply list_elem_of_further, list_elem_of_here.
  - intros Hk. apply Hkeys in Hk as [[? Hk]|(name & data & s & Hin & Hf & Hd & Hid)].
    + discriminate Hk.
    + apply elem_of_cons in Hin as [->|Hin]; [discriminate Hf|].
      apply list_elem_of_singleton in Hin as ->.
      injection Hf as <-. injection Hd as <-. discriminate Hid.
Defined.

Lemma load_file_loadable (name : string) (st : state) :
  loadable (sessions_dir st) name →
  ∃ st2 : state,
    load_file name st = (Ok tt, st2)
    ∧ sessions_dir st2 = sessions_dir st
    ∧ current_session st2 = current_session st.
Proof.
  intros Hl. rewrite load_file_run.
  destruct Hl as [Hf|(data & Hf & [[s Hd]|[k0 Hd]])]; rewrite Hf; try rewrite Hd;
    by eexists.
Qed.

Lemma for_each_load_file_type_error
    (before after : list string) (name : string) (data : json) (st : state) :
  Forall (loadable (sessions_dir st)) before →
  sessions_dir st !! name = Some (Parsed data) →
  (∀ o, data ≠ JObj o) →
  ∃ st1 : state,
    for_each load_file (before ++ name :: after) st = (Raise TypeError, st1)
    ∧ current_session st1 = current_session st.
Proof.
  intros Hall Hf Hdata. revert st Hall Hf.
  induction before as [|b before IH]; intros st Hall Hf.
  - exists st. split; [|done]. cbn [app for_each]. unfold mbind, M_bind.
    rewrite load_file_run, Hf. by rewrite from_dict_not_object.
  - apply Forall_cons in Hall as [Hb Hall].
    destruct (load_file_loadable b st Hb) as (st2 & Hrun & Hdir & Hcur).
    destruct (IH st2) as (st1 & Hrun1 & Hcur1).
    { by rewrite Hdir. }
    { by rewrite Hdir. }
    exists st1. split; [|congruence].
    cbn [app for_each]. unfold mbind, M_bind. by rewrite Hrun.
Qed.

(** X11: the isolation covers text that does not parse and records with a
    missing field, not a file whose JSON is something other than an
    object: at the first such file of a directory that exists, after files
    that load or are skipped, the scan raises [TypeError]; [load_all] ends
    there without setting the current session, and the constructor raises
    with it. *)
Theorem load_all_sessions_non_object_aborts
    (before after : list string) (name : string) (data : json)
    (uuid4 now : string) (st : state) :
  Forall (loadable (sessions_dir st)) before →
  sessions_dir st !! name = Some (Parsed data) →
  (∀ o, data ≠ JObj o) →
  fst (SessionManager.load_all_sessions true (before ++ name :: after) st) = Raise TypeError
  ∧ current_session
      (snd (SessionManager.load_all_sessions true (before ++ name :: after) st))
    = current_session st
  ∧ fst (SessionManager.init (before ++ name :: after) uuid4 now st) = Raise TypeError.
Proof.
  intros Hall Hf Hdata.
  destruct (for_each_load_file_type_error before after name data st Hall Hf Hdata)
    as (st1 & Hrun & Hcur).
  rewrite load_all_sessions_unfold. unfold mbind at 1 3. unfold M_bind at 1 3.
  rewrite Hrun. split; [done|]. split; [done|].
  unfold SessionManager.init.
  unfold mbind at 1 2 3. unfold M_bind at 1 2 3. unfold modify at 1 2.
  rewrite load_all_sessions_unfold. unfold mbind at 1. unfold M_bind at 1.
  destruct (for_each_load_file_type_error before after name data
              (set_current_session None (set_sessions [] st)) Hall Hf Hdata)
    as (st2 & Hrun2 & _).
  by rewrite Hrun2.
Qed.

Lemma load_all_sessions_non_object_aborts_witness :
  let good := Session.mk "id-1" [] "2025-02-24T11:59:00" None in
  let dir : gmap string file :=
    <["id-1" := Parsed (Session.to_dict good)]>
      (<["list" := Parsed (JList [])]> ∅) in
  fst (SessionManager.init ["id-1"; "list"] "u" "2025-02-24T12:00:00"
         (SessionManager.fresh dir)) = Raise TypeError.
Proof.
  intros good dir.
  apply (load_all_sessions_non_object_aborts ["id-1"] [] "list" (JList [])
           "u" "2025-02-24T12:00:00" (SessionManager.fresh dir)).
  - apply Forall_cons. split; [|constructor].
    right. exists (Session.to_dict good). split; [reflexivity|].
    left. exists good. reflexivity.
  - reflexivity.
  - intros o. discriminate.
Defined.

Lemma load_file_entries_ok (name : string) (st : state) :
  entries_ok st → entries_ok (snd (load_file name st)).
Proof.
  intros Hok. rewrite load_file_run.
  destruct (sessions_dir st !! name) as [[|data]|]; simpl; try done.
  destruct (Session.from_dict data) as [s|[]]; simpl; try done.
  by apply entries_ok_bound.
Qed.

(** X12: [load_all] looks at the directory first.  When the directory does
    not exist the call returns at once and changes nothing: the map and
    the current session are as they were, whichever session that is.  When
    it exists, [load_all] returns and the map is then not empty, the
    current session is a session of the map whose [created_at] is the
    greatest: no session of the map has a greater one. *)
Theorem load_all_sessions_current_is_newest
    (names : list string) (st st' : state) :
  SessionManager.load_all_sessions false names st = (Ok tt, st)
  ∧ (entries_ok st →
     SessionManager.load_all_sessions true names st = (Ok tt, st') →
     _sessions st' ≠ [] →
     ∃ c : nat,
       current_session st' = Some c
       ∧ c ∈ dict_values (_sessions st')
       ∧ ∀ r, r ∈ dict_values (_sessions st') →
           String.le (created_at_of st' r) (created_at_of st' c)).
Proof.
  split; [reflexivity|].
  intros Hok. rewrite load_all_sessions_unfold. unfold mbind at 1. unfold M_bind at 1.
  pose proof (for_each_invariant entries_ok load_file load_file_entries_ok names st Hok)
    as Hok1.
  destruct (for_each load_file names st) as [[[]|e] st1]; [|done]. simpl in Hok1.
  erewrite bind_run by (apply list_sessions_run; by apply entries_ok_live).
  pose proof (sort_desc_perm (created_at_of st1) (dict_values (_sessions st1))) as Hperm.
  pose proof (sort_desc_sorted (created_at_of st1) (dict_values (_sessions st1))) as Hsorted.
  destruct (sort_desc _ _) as [|first rest].
  - intros [= <-] Hne. apply Permutation_nil in Hperm.
    by apply dict_values_nil in Hperm.
  - intros [= <-] _. exists first. split; [done|].
    cbn [set_current_session _sessions]. split.
    + rewrite <- Hperm. apply list_elem_of_here.
    + intros r Hr. rewrite <- Hperm in Hr.
      change (created_at_of (set_current_session (Some first) st1))
        with (created_at_of st1).
      apply StronglySorted_inv in Hsorted as [_ Hall].
      apply elem_of_cons in Hr as [->|Hr]; [done|].
      rewrite Forall_forall in Hall. by apply Hall.
Qed.

Lemma load_all_sessions_current_is_newest_witness :
  let older := Session.mk "a" [] "2025-02-24T11:59:00" None in
  let newer := Session.mk "b" [] "2025-02-24T12:30:00" None in
  let dir : gmap string file :=
    <["a" := Parsed (Session.to_dict older)]>
      (<["b" := Parsed (Session.to_dict newer)]> ∅) in
  let st' := State [newer; older] [("b", 0); ("a", 1)] (Some 0) dir "" [] in
  let stale := State [newer; older] [("b", 0); ("a", 1)] (Some 1) ∅ "" [] in
  SessionManager.load_all_sessions true ["b"; "a"] (SessionManager.fresh dir) = (Ok tt, st')
  ∧ (∃ c : nat,
      current_session st' = Some c
      ∧ c ∈ dict_values (_sessions st')
      ∧ ∀ r, r ∈ dict_values (_sessions st') →
          String.le (created_at_of st' r) (created_at_of st' c))
  ∧ SessionManager.load_all_sessions false [] stale = (Ok tt, stale).
Proof.
  intros older newer dir st' stale.
  assert (Hrun : SessionManager.load_all_sessions true ["b"; "a"] (SessionManager.fresh dir)
                 = (Ok tt, st')) by (vm_compute; reflexivity).
  split; [exact Hrun|]. split.
  - apply (load_all_sessions_current_is_newest ["b"; "a"] (SessionManager.fresh dir) st').
    + split; constructor.
    + exact Hrun.
    + discriminate.
  - apply (load_all_sessions_current_is_newest [] stale stale).
Defined.

Lemma for_each_load_file_unusable (names : list string) (st : state) :
  Forall (unusable (sessions_dir st)) names →
  for_each load_file names st = (Ok tt, st).
Proof.
  induction 1 as [|name names Hname _ IH]; [done|].
  cbn [for_each]. unfold mbind, M_bind. rewrite load_file_run.
  destruct Hname as [Hf|(data & k & Hf & Hd)]; rewrite Hf; try rewrite Hd; exact IH.
Qed.

(** X13: a directory in which no file yields a session (it is empty, or
    its files do not parse or lack a field) boots like an empty one: the
    constructor returns with exactly one session, new, without messages
    and without system prompt, which is current; no file is written. *)
Theorem init_without_usable_record
    (names : list string) (uuid4 now : string) (dir : gmap string file) :
  Forall (unusable dir) names →
  SessionManager.init names uuid4 now (SessionManager.fresh dir)
    = (Ok tt, State [Session.mk uuid4 [] now None] [(uuid4, 0)] (Some 0) dir "" []).
Proof.
  intros Hall. unfold SessionManager.init.
  unfold mbind at 1 2 3. unfold M_bind at 1 2 3. unfold modify at 1 2.
  rewrite load_all_sessions_unfold.
  erewrite bind_run by (by apply for_each_load_file_unusable).
  reflexivity.
Qed.

Lemma init_without_usable_record_witness :
  let dir : gmap string file :=
    <["broken" := Unparseable]>
      (<["short" := Parsed (JObj [("id", JStr "short")])]> ∅) in
  SessionManager.init ["short"; "broken"] "u" "2025-02-24T12:00:00"
    (SessionManager.fresh dir)
    = (Ok tt, State [Session.mk "u" [] "2025-02-24T12:00:00" None] [("u", 0)]
                    (Some 0) dir "" []).
Proof.
  intros dir.
  apply (init_without_usable_record ["short"; "broken"] "u" "2025-02-24T12:00:00" dir).
  apply Forall_cons. split.
  - right. exists (JObj [("id", JStr "short")]), "messages". by split.
  - apply Forall_cons. split; [by left|constructor].
Defined.

Lemma created_at_keys_state (l : list nat) (st : state) :
  snd (SessionManager.created_at_keys l st) = st.
Proof.
  induction l as [|r l IH]; [done|].
  cbn [SessionManager.created_at_keys]. munfold.
  destruct (heap st !! r); [|done].
  destruct (SessionManager.created_at_keys l st) as [[ks|e] st1]; simpl in *; done.
Qed.

Lemma list_sessions_state (st : state) : snd (SessionManager.list_sessions st) = st.
Proof.
  unfold SessionManager.list_sessions. munfold.
  pose proof (created_at_keys_state (dict_values (_sessions st)) st) as H.
  destruct (SessionManager.created_at_keys _ st) as [[ks|e] st1]; simpl in *; done.
Qed.

Lemma load_file_keeps_directory (name : string) (st : state) :
  sessions_dir (snd (load_file name st)) = sessions_dir st.
Proof.
  rewrite load_file_run.
  destruct (sessions_dir st !! name) as [[|data]|]; simpl; try done.
  by destruct (Session.from_dict data) as [s|[]].
Qed.

(** X14: the constructor and [load_all] read the directory and never
    change it, whatever it holds, whether [load_all] finds that it exists
    or not, and whether they return or raise: no file is written, repaired
    or removed at start-up. *)
Theorem init_keeps_directory
    (dir_exists : bool) (names : list string) (uuid4 now : string) (st : state) :
  sessions_dir (snd (SessionManager.load_all_sessions dir_exists names st)) = sessions_dir st
  ∧ sessions_dir (snd (SessionManager.init names uuid4 now st)) = sessions_dir st.
Proof.
  assert (Hload : ∀ b st0, sessions_dir (snd (SessionManager.load_all_sessions b names st0))
                           = sessions_dir st0).
  { intros [] st0; [|done].
    rewrite load_all_sessions_unfold. unfold mbind at 1. unfold M_bind at 1.
    pose proof (for_each_invariant (λ st1, sessions_dir st1 = sessions_dir st0) load_file)
      as Hloop.
    lapply Hloop.
    2:{ intros name st1 H1. by rewrite load_file_keeps_directory. }
    clear Hloop. intros Hloop. specialize (Hloop names st0 eq_refl).
    destruct (for_each load_file names st0) as [[[]|e] st1]; [|done]. simpl in Hloop.
    unfold mbind, M_bind. pose proof (list_sessions_state st1) as Hl.
    destruct (SessionManager.list_sessions st1) as [[[|first rest]|e] st2];
      simpl in *; by subst. }
  split; [apply Hload|].
  unfold SessionManager.init.
  unfold mbind at 1 2 3. unfold M_bind at 1 2 3. unfold modify at 1 2.
  specialize (Hload true (set_current_session None (set_sessions [] st))).
  destruct (SessionManager.load_all_sessions true names _) as [[[]|e] st1]; [|done].
  simpl in Hload. unfold mbind, M_bind, gets.
  destruct (_sessions st1); [|done].
  by rewrite create_session_run.
Qed.

(** ** The completion stream *)

Lemma yielded_nonempty (chunk : LLM.ChatCompletionChunk) (f : string) :
  LLM.yielded chunk = Some f → f ≠ "".
Proof.
  rewrite yielded_payload. destruct (payload chunk) as [p|]; [|done].
  destruct (truthy p) eqn:Ht; [|done]. intros [= <-]. by apply truthy_spec.
Qed.

(** X15: every fragment that [chat_stream] yields is a non-empty string,
    and none is yielded when the call that opens the stream raises.  The
    generator raises exactly when the SDK does, and what it raises follows
    the class of the SDK exception: an APIError (also one that is a
    timeout as well) becomes [LLMError] with its text behind "API error: ";
    a timeout that is not an APIError, behind "Request timed out: "; any
    other instance of [Exception], behind "Unexpected error: "; an
    exception that is not an instance of [Exception] (an interrupt, a
    cancellation) is not wrapped and leaves the generator as it is. *)
Theorem chat_stream_outcome (self : LLM.LLMClient) (messages : list (dict string)) :
  let completion := LLM.client self (LLM.model self) (request self messages) in
  let failure := snd (LLM.chat_stream self messages) in
  Forall (λ f : string, f ≠ "") (fst (LLM.chat_stream self messages))
  ∧ (∀ x, completion = LLM.create_raises x → fst (LLM.chat_stream self messages) = [])
  ∧ (raised completion = None ↔ failure = None)
  ∧ ∀ x : LLM.exception, raised completion = Some x →
      (LLM.is_APIError x = true →
         failure = Some (LLMError ("API error: " +:+ LLM.text x)))
      ∧ (LLM.is_APIError x = false → LLM.is_APITimeoutError x = true →
         failure = Some (LLMError ("Request timed out: " +:+ LLM.text x)))
      ∧ (LLM.is_APIError x = false → LLM.is_APITimeoutError x = false →
         LLM.is_Exception x = true →
         failure = Some (LLMError ("Unexpected error: " +:+ LLM.text x)))
      ∧ (LLM.is_APIError x = false → LLM.is_APITimeoutError x = false →
         LLM.is_Exception x = false →
         failure = Some (BaseException (LLM.text x))).
Proof.
  intros completion failure. unfold failure. rewrite chat_stream_request.
  fold completion.
  split; [|split; [|split]].
  - destruct completion as [x|chunks fl]; simpl; [constructor|].
    apply Forall_forall. intros f Hf. apply list_elem_of_omap in Hf as (c & _ & Hc).
    by eapply yielded_nonempty.
  - by intros x ->.
  - destruct completion as [x|chunks [x|]]; simpl; split; done.
  - intros x Hx.
    assert (Hsnd : snd (match completion with
                        | LLM.create_raises e => ([], Some (LLM.wrap e))
                        | LLM.streams chunks fl => (omap LLM.yielded chunks, LLM.wrap <$> fl)
                        end) = Some (LLM.wrap x)).
    { destruct completion as [x'|chunks fl]; simpl in *; [by injection Hx as ->|].
      by rewrite Hx. }
    rewrite Hsnd. unfold LLM.wrap.
    repeat split; intros; repeat match goal with H : _ = _ |- _ => rewrite H end; done.
Qed.

Lemma chat_stream_outcome_witness :
  let timeout := LLM.Build_exception true true true "Request timed out." in
  let interrupt := LLM.Build_exception false false false "" in
  let c := client_answering
             (LLM.streams [chunk_of (Some ""); chunk_of (Some "Hi")] (Some timeout)) in
  let c' := client_answering (LLM.streams [chunk_of (Some "Hi")] (Some interrupt)) in
  LLM.chat_stream c [] = (["Hi"], Some (LLMError "API error: Request timed out."))
  ∧ LLM.chat_stream c' [] = (["Hi"], Some (BaseException "")).
Proof.
  intros timeout interrupt c c'.
  destruct (chat_stream_outcome c []) as (_ & _ & _ & Hfail).
  destruct (Hfail timeout eq_refl) as (Hapi & _).
  destruct (chat_stream_outcome c' []) as (_ & _ & _ & Hfail').
  destruct (Hfail' interrupt eq_refl) as (_ & _ & _ & Hbase).
  split.
  - rewrite (surjective_pairing (LLM.chat_stream c [])). by rewrite Hapi.
  - rewrite (surjective_pairing (LLM.chat_stream c' [])). by rewrite Hbase.
Defined.

(** X16: a client configured with a non-empty system prompt answers as the
    same client without it would on the list with that system entry in
    front; an empty prompt counts as none.  With a session that has a
    system prompt of its own the request therefore carries two system
    entries, the client's first. *)
Theorem chat_stream_client_prompt
    (self : LLM.LLMClient) (messages : list (dict string)) (s : Session.t) (p q : string) :
  LLM.system_prompt self = Some p →
  Session.system_prompt s = Some q →
  q ≠ "" →
  let bare := LLM.Build_LLMClient (LLM.client self) (LLM.model self) None in
  LLM.chat_stream self messages
    = LLM.chat_stream bare
        (if truthy p then api_entry "system" p :: messages else messages)
  ∧ (p ≠ "" →
     LLM.chat_stream self (Session.get_messages_for_api s)
       = LLM.chat_stream bare
           (api_entry "system" p :: api_entry "system" q :: history s)).
Proof.
  intros Hp Hq Hne bare.
  assert (Hbare : ∀ ms, LLM.chat_stream self ms
            = LLM.chat_stream bare (if truthy p then api_entry "system" p :: ms else ms)).
  { intros ms. unfold LLM.chat_stream. rewrite Hp. simpl. by destruct (truthy p). }
  split; [apply Hbare|].
  intros Hpne. rewrite Hbare. apply truthy_spec in Hpne. rewrite Hpne.
  by rewrite (get_messages_for_api_prompt s q).
Qed.

Lemma chat_stream_client_prompt_witness :
  let echo := LLM.Build_LLMClient
                (fun _ ms => LLM.streams
                   [chunk_of (Some (if Nat.eqb (length ms) 3 then "three" else "other"))]
                   None)
                "gpt-4o-mini" (Some "Be brief") in
  let s := Session.mk "id-1" [Message.mk "user" "Hi" "2025-02-24T12:00:00"]
             "2025-02-24T11:59:00" (Some "Be helpful") in
  LLM.chat_stream echo (Session.get_messages_for_api s) = (["three"], None).
Proof.
  intros echo s.
  destruct (chat_stream_client_prompt echo [] s "Be brief" "Be helpful"
              eq_refl eq_refl) as [_ Hboth]; [discriminate|].
  rewrite Hboth by discriminate. reflexivity.
Defined.

(** ** The chat turn, whatever the stream does *)

(* The session that a turn leaves in memory and on disk. *)
Lemma chat_turn_run
    (llm_client : LLM.LLMClient) (ui : ChatUI.t) (st : state) (cur : nat) (s : Session.t)
    (user_input now_user now_assistant : string) :
  current_session st = Some cur →
  heap st !! cur = Some s →
  let s1 := Session.add_message s (Message.mk "user" user_input now_user) in
  let stream := LLM.chat_stream llm_client (Session.get_messages_for_api s1) in
  ∃ (r : result unit) (s' : Session.t) (buffer : string) (shown : list panel),
    Main.chat_turn llm_client ui user_input now_user now_assistant st =
      (r,
       State (<[cur := s']> (heap st)) (_sessions st) (Some cur)
             (<[Session.id s := Parsed (Session.to_dict s')]> (sessions_dir st))
             buffer (console st ++ shown))
    ∧ (s' = s1
       ∨ ∃ reply, reply ≠ "" ∧ r = Ok tt ∧ stream.2 = None
           ∧ s' = Session.add_message s1 (Message.mk "assistant" reply now_assistant))
    ∧ turn_end ui stream.2 (join stream.1) buffer r shown.
Proof.
  intros Hcur Hs s1 stream. unfold stream.
  destruct (LLM.chat_stream llm_client (Session.get_messages_for_api s1))
    as [fragments [e|]] eqn:Hstream.
  - pose proof (chat_turn_failure llm_client ui st cur s user_input now_user now_assistant
                  fragments e Hcur Hs Hstream) as Hrun.
    cbv zeta in Hrun. fold s1 in Hrun. cbn [fst snd].
    destruct (chat_stream_failure _ _ _ _ Hstream) as [[msg ->]|[text ->]].
    + destruct (ChatUI.renders ui ("LLM error: " +:+ msg)) eqn:Hr.
      * exists (Ok tt), s1, "", [ErrorPanel ("LLM error: " +:+ msg)].
        split; [exact Hrun|]. split; [by left|].
        apply turn_returns; [done|]. right. by exists msg.
      * exists (Raise MarkupError), s1, (join fragments), [].
        rewrite app_nil_r. split; [exact Hrun|]. split; [by left|].
        by apply turn_markup with (msg := msg).
    + exists (Raise (BaseException text)), s1, (join fragments), [].
      rewrite app_nil_r. split; [exact Hrun|]. split; [by left|].
      by apply turn_interrupted.
  - pose proof (chat_turn_success llm_client ui st cur s user_input now_user now_assistant
                  fragments Hcur Hs Hstream) as Hrun.
    cbv zeta in Hrun. cbn [fst snd]. destruct (truthy (join fragments)) eqn:Ht.
    + eexists (Ok tt), _, "", []. rewrite app_nil_r. split; [exact Hrun|].
      split; [|apply turn_returns; [done|by left]].
      right. exists (join fragments). split; [by apply truthy_spec|done].
    + exists (Ok tt), s1, "", []. rewrite app_nil_r. split; [exact Hrun|].
      split; [by left|]. apply turn_returns; [done|by left].
Qed.

(** X17: a chat turn returns or raises, whatever the stream does, and in
    both cases it leaves the map and the current-session pointer as they
    were, changes no session object other than the current one and no file
    other than the one named by its id, and ends with the file holding
    exactly the session as it is in memory: the former messages, the user
    message and at most one assistant message, which is never empty.  A
    turn that returns has emptied the streaming buffer and shown at most
    one panel.  A turn raises in two cases only, and then has shown
    nothing, added no assistant message and left in the buffer the
    fragments received: the stream failed with an [LLMError] whose panel
    text the console rejects (MarkupError), or the SDK raised an exception
    that is not an instance of [Exception], which leaves the turn as it
    is. *)
Theorem chat_turn_frame
    (llm_client : LLM.LLMClient) (ui : ChatUI.t) (st : state) (cur : nat) (s : Session.t)
    (user_input now_user now_assistant : string) :
  current_session st = Some cur →
  heap st !! cur = Some s →
  let user_message := Message.mk "user" user_input now_user in
  let stream :=
    LLM.chat_stream llm_client
      (Session.get_messages_for_api (Session.add_message s user_message)) in
  ∃ (r : result unit) (st' : state) (s' : Session.t),
    Main.chat_turn llm_client ui user_input now_user now_assistant st = (r, st')
    ∧ _sessions st' = _sessions st
    ∧ current_session st' = Some cur
    ∧ (∀ r', r' ≠ cur → heap st' !! r' = heap st !! r')
    ∧ (∀ k, k ≠ Session.id s → sessions_dir st' !! k = sessions_dir st !! k)
    ∧ heap st' !! cur = Some s'
    ∧ sessions_dir st' !! Session.id s' = Some (Parsed (Session.to_dict s'))
    ∧ Session.id s' = Session.id s
    ∧ (Session.messages s' = Session.messages s ++ [user_message]
       ∨ ∃ reply, reply ≠ ""
           ∧ Session.messages s'
             = Session.messages s ++ [user_message;
                                      Message.mk "assistant" reply now_assistant])
    ∧ (r = Ok tt →
       streaming_content st' = ""
       ∧ ∃ shown, console st' = console st ++ shown ∧ (length shown ≤ 1)%nat)
    ∧ (r ≠ Ok tt →
       console st' = console st
       ∧ Session.messages s' = Session.messages s ++ [user_message]
       ∧ streaming_content st' = join stream.1
       ∧ ((r = Raise MarkupError
           ∧ ∃ msg, stream.2 = Some (LLMError msg)
               ∧ ChatUI.renders ui ("LLM error: " +:+ msg) = false)
          ∨ ∃ text, r = Raise (BaseException text)
              ∧ stream.2 = Some (BaseException text))).
Proof.
  intros Hcur Hs user_message stream.
  assert (Hlt : cur < length (heap st)) by (by eapply lookup_lt_Some).
  destruct (chat_turn_run llm_client ui st cur s user_input now_user now_assistant Hcur Hs)
    as (r & s' & buffer & shown & Hrun & Hs' & Hend).
  fold user_message stream in Hs', Hend.
  assert (Hid : Session.id s' = Session.id s).
  { by destruct Hs' as [->|(reply & _ & _ & _ & ->)]. }
  eexists r, _, s'. split; [exact Hrun|].
  cbn [_sessions current_session streaming_content heap sessions_dir console].
  do 2 (split; [done|]).
  split; [intros r' Hr'; by apply list_lookup_insert_ne|].
  split; [intros k Hk; by apply lookup_insert_ne|].
  split; [by apply list_lookup_insert_eq|].
  split; [rewrite Hid; apply lookup_insert_eq|].
  split; [done|].
  split.
  { destruct Hs' as [->|(reply & Hne & _ & _ & ->)]; [by left|].
    right. exists reply. split; [done|]. simpl. by rewrite <- app_assoc. }
  split.
  - intros ->. inversion Hend as [shown' Hb Hshown| |]; subst.
    split; [done|]. exists shown. split; [done|].
    destruct Hshown as [[_ ->]|(msg & _ & _ & ->)]; simpl; lia.
  - intros Hr.
    assert (Hs1 : Session.messages s' = Session.messages s ++ [user_message]).
    { destruct Hs' as [->|(reply & _ & -> & _)]; [done|by destruct Hr]. }
    inversion Hend as [shown' Hb Hshown|msg Hb Hf Hrej|text Hb Hf]; subst.
    + by destruct Hr.
    + rewrite app_nil_r. do 3 (split; [done|]). left. split; [done|]. by exists msg.
    + rewrite app_nil_r. do 3 (split; [done|]). right. by exists text.
Qed.

Lemma chat_turn_frame_witness :
  let a := Session.mk "a" [] "2025-02-24T11:59:00" None in
  let b := Session.mk "b" [Message.mk "user" "old" "2025-02-24T11:00:00"]
             "2025-02-24T11:00:00" None in
  let st := State [a; b] [("a", 0); ("b", 1)] (Some 0)
              (<["b" := Parsed (Session.to_dict b)]> ∅) "partial" [] in
  let stray := LLM.Build_exception false false true "unexpected token [/INST]" in
  let c := client_answering (LLM.streams [chunk_of (Some "Hel")] (Some stray)) in
  ∃ (st' : state) (s' : Session.t),
    Main.chat_turn c ui_example "Hi" "2025-02-24T12:00:00" "2025-02-24T12:00:05" st
      = (Raise MarkupError, st')
    ∧ heap st' !! 1 = Some b
    ∧ sessions_dir st' !! "b" = Some (Parsed (Session.to_dict b))
    ∧ heap st' !! 0 = Some s'
    ∧ sessions_dir st' !! "a" = Some (Parsed (Session.to_dict s'))
    ∧ Session.messages s' = [Message.mk "user" "Hi" "2025-02-24T12:00:00"]
    ∧ streaming_content st' = "Hel"
    ∧ console st' = [].
Proof.
  intros a b st stray c.
  destruct (chat_turn_frame c ui_example st 0 a "Hi" "2025-02-24T12:00:00"
              "2025-02-24T12:00:05" eq_refl eq_refl)
    as (r & st' & s' & Hrun & _ & _ & Hobj & Hfile & Hcur & Hsaved & Hid & _ & _ & Hraise).
  assert (Hr : r = Raise MarkupError).
  { assert (Hfst : fst (Main.chat_turn c ui_example "Hi" "2025-02-24T12:00:00"
                          "2025-02-24T12:00:05" st) = Raise MarkupError)
      by (vm_compute; reflexivity).
    rewrite Hrun in Hfst. exact Hfst. }
  subst r. destruct Hraise as (Hconsole & Hmsgs & Hbuffer & _); [discriminate|].
  exists st', s'. split; [exact Hrun|].
  split; [by rewrite Hobj|]. split; [by rewrite Hfile|]. split; [exact Hcur|].
  split; [rewrite Hid in Hsaved; exact Hsaved|].
  split; [exact Hmsgs|]. split; [exact Hbuffer|]. exact Hconsole.
Defined.

(** X18: when the SDK streams chunks to the end without failure, the turn
    commits as assistant message the concatenation, in order, of the
    payloads that are not null, and saves it; when that concatenation is
    empty (no chunk, or only null and empty payloads) no assistant message
    is added and the session ends with the user message. *)
Theorem chat_turn_commits_payloads
    (llm_client : LLM.LLMClient) (ui : ChatUI.t) (st : state) (cur : nat) (s : Session.t)
    (user_input now_user now_assistant : string)
    (chunks : list LLM.ChatCompletionChunk) :
  current_session st = Some cur →
  heap st !! cur = Some s →
  let s1 := Session.add_message s (Message.mk "user" user_input now_user) in
  let reply := join (omap payload chunks) in
  let s2 := Session.add_message s1 (Message.mk "assistant" reply now_assistant) in
  LLM.client llm_client (LLM.model llm_client)
    (request llm_client (Session.get_messages_for_api s1)) = LLM.streams chunks None →
  ∃ st' : state,
    Main.chat_turn llm_client ui user_input now_user now_assistant st = (Ok tt, st')
    ∧ console st' = console st
    ∧ (reply ≠ "" →
       heap st' !! cur = Some s2
       ∧ sessions_dir st' !! Session.id s = Some (Parsed (Session.to_dict s2)))
    ∧ (reply = "" →
       heap st' !! cur = Some s1
       ∧ sessions_dir st' !! Session.id s = Some (Parsed (Session.to_dict s1))).
Proof.
  intros Hcur Hs s1 reply s2 Hsdk.
  assert (Hlt : cur < length (heap st)) by (by eapply lookup_lt_Some).
  assert (Hstream : LLM.chat_stream llm_client (Session.get_messages_for_api s1)
                    = (omap LLM.yielded chunks, None)).
  { rewrite chat_stream_request. fold s1. by rewrite Hsdk. }
  pose proof (chat_turn_success llm_client ui st cur s user_input now_user now_assistant
                _ Hcur Hs Hstream) as Hrun.
  cbv zeta in Hrun. rewrite join_yielded in Hrun. fold s1 reply s2 in Hrun.
  eexists. split; [exact Hrun|]. cbn [console heap sessions_dir]. split; [done|].
  split.
  - intros Hne. apply truthy_spec in Hne. rewrite Hne.
    split; [by apply list_lookup_insert_eq|apply lookup_insert_eq].
  - intros Hempty. rewrite Hempty. cbn [truthy String.eqb negb].
    split; [by apply list_lookup_insert_eq|apply lookup_insert_eq].
Qed.

Lemma chat_turn_commits_payloads_witness :
  let s := Session.mk "id-1" [] "2025-02-24T11:59:00" None in
  let st := State [s] [("id-1", 0)] (Some 0) ∅ "" [] in
  let chunks := [chunk_of (Some "Hel"); chunk_of None; chunk_of (Some "lo");
                 LLM.Build_ChatCompletionChunk []; chunk_of (Some "");
                 chunk_of (Some "!")] in
  let c := client_answering (LLM.streams chunks None) in
  ∃ st' : state,
    Main.chat_turn c ui_example "Hi" "2025-02-24T12:00:00" "2025-02-24T12:00:05" st
      = (Ok tt, st')
    ∧ heap st' !! 0
      = Some (Session.mk "id-1"
                [Message.mk "user" "Hi" "2025-02-24T12:00:00";
                 Message.mk "assistant" "Hello!" "2025-02-24T12:00:05"]
                "2025-02-24T11:59:00" None).
Proof.
  intros s st chunks c.
  destruct (chat_turn_commits_payloads c ui_example st 0 s "Hi" "2025-02-24T12:00:00"
              "2025-02-24T12:00:05" chunks eq_refl eq_refl eq_refl)
    as (st' & Hrun & _ & Hreply & _).
  exists st'. split; [exact Hrun|].
  destruct Hreply as [Hobj _]; [discriminate|exact Hobj].
Defined.

(** X19: in a chat turn the SDK is asked for one list: the client's system
    entry if it has one, the projection of the session as it was, and, last,
    the new user message.  The turn depends on the client only through the
    answer to that list: two clients with the same model and system prompt
    that answer it alike produce the same turn. *)
Theorem chat_turn_request
    (c c' : LLM.LLMClient) (ui : ChatUI.t) (st : state) (cur : nat) (s : Session.t)
    (user_input now_user now_assistant : string) :
  current_session st = Some cur →
  heap st !! cur = Some s →
  LLM.model c = LLM.model c' →
  LLM.system_prompt c = LLM.system_prompt c' →
  LLM.client c (LLM.model c)
    (request c (Session.get_messages_for_api s ++ [api_entry "user" user_input]))
  = LLM.client c' (LLM.model c')
      (request c' (Session.get_messages_for_api s ++ [api_entry "user" user_input])) →
  Main.chat_turn c ui user_input now_user now_assistant st
  = Main.chat_turn c' ui user_input now_user now_assistant st.
Proof.
  intros Hcur Hs Hmodel Hprompt Hanswer.
  set (s1 := Session.add_message s (Message.mk "user" user_input now_user)).
  assert (Hstream : LLM.chat_stream c (Session.get_messages_for_api s1)
                    = LLM.chat_stream c' (Session.get_messages_for_api s1)).
  { rewrite !chat_stream_request. unfold s1. rewrite get_messages_for_api_append.
    cbn [Message.role Message.content]. by rewrite Hanswer. }
  destruct (LLM.chat_stream c (Session.get_messages_for_api s1))
    as [fragments [e|]] eqn:Hc.
  - rewrite (chat_turn_failure c ui st cur s user_input now_user now_assistant
               fragments e Hcur Hs Hc).
    by rewrite (chat_turn_failure c' ui st cur s user_input now_user now_assistant
                  fragments e Hcur Hs).
  - rewrite (chat_turn_success c ui st cur s user_input now_user now_assistant
               fragments Hcur Hs Hc).
    by rewrite (chat_turn_success c' ui st cur s user_input now_user now_assistant
                  fragments Hcur Hs).
Qed.

Lemma chat_turn_request_witness :
  let s := Session.mk "id-1" [Message.mk "user" "old" "2025-02-24T11:00:00"]
             "2025-02-24T11:00:00" (Some "Be helpful") in
  let st := State [s] [("id-1", 0)] (Some 0) ∅ "" [] in
  let asked := [api_entry "system" "Be helpful"; api_entry "user" "old";
                api_entry "user" "Hi"] in
  let picky := LLM.Build_LLMClient
                 (fun _ ms =>
                    if decide (ms = asked)
                    then LLM.streams [chunk_of (Some "Hello!")] None
                    else LLM.create_raises
                           (LLM.Build_exception false false true "other list"))
                 "gpt-4o-mini" None in
  let plain := client_answering (LLM.streams [chunk_of (Some "Hello!")] None) in
  Main.chat_turn picky ui_example "Hi" "2025-02-24T12:00:00" "2025-02-24T12:00:05" st
  = Main.chat_turn plain ui_example "Hi" "2025-02-24T12:00:00" "2025-02-24T12:00:05" st.
Proof.
  intros s st asked picky plain.
  apply (chat_turn_request picky plain ui_example st 0 s); reflexivity.
Defined.

(** ** Commands *)

Lemma display_sessions_list_from_state (i : nat) (sessions : list nat)
    (current_id : string) (st : state) :
  Forall (λ r : nat, is_Some (heap st !! r)) sessions →
  ∃ rows, App.display_sessions_list_from i sessions current_id st = (Ok rows, st)
          ∧ length rows = length sessions.
Proof.
  intros Hall. revert i. induction Hall as [|r l [s Hs] _ IH]; intros i.
  - by exists [].
  - destruct (IH (S i)) as (rows & Hrows & Hlen).
    cbn [App.display_sessions_list_from]. munfold. rewrite Hs, Hrows.
    eexists. split; [done|]. simpl. by rewrite Hlen.
Qed.

Lemma store_ok_set_console (c : list panel) (st : state) :
  store_ok st → store_ok (set_console c st).
Proof. intros Hok. exact Hok. Qed.

Lemma handle_command_list (uuid4 now args : string) (ui : ChatUI.t) (st : state) :
  store_ok st → App.handle_command uuid4 now "list" args ui st = (Ok false, st).
Proof.
  intros Hok. destruct (store_ok_current st Hok) as (c & s & Hc & Hs & _).
  assert (Hlive : live st) by (apply entries_ok_live; by destruct Hok).
  unfold App.handle_command. cbn [String.eqb Ascii.eqb Bool.eqb orb].
  erewrite bind_run by (by apply list_sessions_run).
  erewrite bind_run by (by apply the_current_session_run).
  erewrite bind_run by (unfold deref; by rewrite Hs).
  destruct (display_sessions_list_from_state 0
              (sort_desc (created_at_of st) (dict_values (_sessions st)))
              (Session.id s) st) as (rows & Hrows & _).
  { unfold live in Hlive. by rewrite sort_desc_perm. }
  unfold App.display_sessions_list. by erewrite bind_run by exact Hrows.
Qed.

(* A command that ends by showing a panel returns False after the panel
   was printed, or raises when the console rejects the text. *)
Lemma display_error_then (ui : ChatUI.t) (message : string) (st : state) :
  (ChatUI.display_error ui message;; mret false) st =
    if ChatUI.renders ui message
    then (Ok false, set_console (console st ++ [ErrorPanel message]) st)
    else (Raise MarkupError, st).
Proof.
  unfold mbind, M_bind, ChatUI.display_error. by destruct (ChatUI.renders ui message).
Qed.

Lemma display_info_then (ui : ChatUI.t) (message : string) (st : state) :
  (ChatUI.display_info ui message;; mret false) st =
    if ChatUI.renders ui message
    then (Ok false, set_console (console st ++ [InfoPanel message]) st)
    else (Raise MarkupError, st).
Proof.
  unfold mbind, M_bind, ChatUI.display_info. by destruct (ChatUI.renders ui message).
Qed.

Lemma switch_command_run (args : string) (ui : ChatUI.t) (st : state) :
  (try_except_KeyError
     (SessionManager.switch_to_session args;;
      ChatUI.display_info ui ("Switched to session: " +:+ String.substring 0 8 args))
     (ChatUI.display_error ui ("Session not found: " +:+ args));;
   mret false) st =
  match dict_get args (_sessions st) with
  | Some r =>
      (ChatUI.display_info ui ("Switched to session: " +:+ String.substring 0 8 args);;
       mret false) (set_current_session (Some r) st)
  | None => (ChatUI.display_error ui ("Session not found: " +:+ args);; mret false) st
  end.
Proof.
  unfold try_except_KeyError, mbind, M_bind. rewrite switch_to_session_run.
  destruct (dict_get args (_sessions st)) as [r|]; [|done].
  unfold ChatUI.display_info. by destruct (ChatUI.renders ui _).
Qed.

Lemma delete_session_ok (st : state) (uuid4 now session_id : string) (r : nat) :
  store_ok st →
  dict_get session_id (_sessions st) = Some r →
  ∃ st' : state,
    SessionManager.delete_session uuid4 now session_id st = (Ok tt, st')
    ∧ store_ok st'
    ∧ console st' = console st
    ∧ streaming_content st' = streaming_content st
    ∧ (∀ r', r' < length (heap st) → heap st' !! r' = heap st !! r').
Proof.
  intros Hok Hget.
  pose proof (store_ok_delete st uuid4 now session_id Hok) as Hok'.
  destruct (store_ok_current st Hok) as (c & s & Hc & Hs & _).
  rewrite delete_session_run in *. unfold dict_in in *. rewrite Hget, Hc, Hs in *.
  destruct (decide (Session.id s = session_id)).
  - destruct (dict_values _) as [|first rest].
    + eexists. split; [done|]. split; [exact Hok'|]. do 2 (split; [done|]).
      intros r' Hr'. cbn. by apply lookup_app_l.
    + eexists. split; [done|]. split; [exact Hok'|]. by do 2 (split; [done|]).
  - eexists. split; [done|]. split; [exact Hok'|]. by do 2 (split; [done|]).
Qed.

Lemma delete_command_run (uuid4 now args : string) (ui : ChatUI.t) (st : state) :
  (try_except_KeyError
     (SessionManager.delete_session uuid4 now args;;
      ChatUI.display_info ui ("Deleted session: " +:+ String.substring 0 8 args))
     (ChatUI.display_error ui ("Session not found: " +:+ args));;
   mret false) st =
  match SessionManager.delete_session uuid4 now args st with
  | (Ok _, st1) =>
      (ChatUI.display_info ui ("Deleted session: " +:+ String.substring 0 8 args);;
       mret false) st1
  | (Raise (KeyError _), st1) =>
      (ChatUI.display_error ui ("Session not found: " +:+ args);; mret false) st1
  | (Raise e, st1) => (Raise e, st1)
  end.
Proof.
  unfold try_except_KeyError, mbind, M_bind.
  destruct (SessionManager.delete_session uuid4 now args st) as [[[]|e] st1].
  - unfold ChatUI.display_info. by destruct (ChatUI.renders ui _).
  - by destruct e.
Qed.

(* What a command that ends by showing the panel [p] in the state [stA]
   amounts to, seen from the state [st] in which the command started. *)
Lemma command_shows (ui : ChatUI.t) (p : panel) (command : string) (st stA : state) :
  store_ok stA →
  command ≠ "exit" → command ≠ "quit" →
  (∀ r0, r0 < length (heap st) → heap stA !! r0 = heap st !! r0) →
  streaming_content stA = streaming_content st →
  console stA = console st →
  ∃ (r : result bool) (st' : state),
    (if ChatUI.renders ui (panel_text p)
     then (Ok false, set_console (console stA ++ [p]) stA)
     else (Raise MarkupError, stA)) = (r, st')
    ∧ store_ok st'
    ∧ (r = Ok true ↔ command = "exit" ∨ command = "quit")
    ∧ (r = Ok true → st' = st)
    ∧ (∀ r0, r0 < length (heap st) → heap st' !! r0 = heap st !! r0)
    ∧ streaming_content st' = streaming_content st
    ∧ (r = Ok true ∧ console st' = console st
       ∨ r = Ok false ∧ command = "list" ∧ console st' = console st
       ∨ (∃ q, ChatUI.renders ui (panel_text q) = true
            ∧ r = Ok false ∧ console st' = console st ++ [q])
       ∨ (∃ q, ChatUI.renders ui (panel_text q) = false
            ∧ r = Raise MarkupError ∧ console st' = console st)).
Proof.
  intros Hok Hexit Hquit Hheap Hbuffer Hconsole.
  assert (Hb : ∀ r : result bool, r ≠ Ok true →
                 (r = Ok true ↔ command = "exit" ∨ command = "quit")).
  { intros r Hr. split; [done|]. by intros [?|?]. }
  destruct (ChatUI.renders ui (panel_text p)) eqn:Hp.
  - eexists _, _. split; [reflexivity|].
    split; [by apply store_ok_set_console|]. split; [by apply Hb|].
    split; [done|]. split; [exact Hheap|]. split; [exact Hbuffer|].
    right. right. left. exists p. cbn [set_console console]. by rewrite Hconsole.
  - eexists _, _. split; [reflexivity|].
    split; [exact Hok|]. split; [by apply Hb|].
    split; [done|]. split; [exact Hheap|]. split; [exact Hbuffer|].
    right. right. right. by exists p.
Qed.

(* What each command does in a store that satisfies the invariant. *)
Lemma handle_command_run (uuid4 now command args : string) (ui : ChatUI.t) (st : state) :
  store_ok st →
  ∃ (r : result bool) (st' : state),
    App.handle_command uuid4 now command args ui st = (r, st')
    ∧ store_ok st'
    ∧ (r = Ok true ↔ command = "exit" ∨ command = "quit")
    ∧ (r = Ok true → st' = st)
    ∧ (∀ r0, r0 < length (heap st) → heap st' !! r0 = heap st !! r0)
    ∧ streaming_content st' = streaming_content st
    ∧ (r = Ok true ∧ console st' = console st
       ∨ r = Ok false ∧ command = "list" ∧ console st' = console st
       ∨ (∃ q, ChatUI.renders ui (panel_text q) = true
            ∧ r = Ok false ∧ console st' = console st ++ [q])
       ∨ (∃ q, ChatUI.renders ui (panel_text q) = false
            ∧ r = Raise MarkupError ∧ console st' = console st)).
Proof.
  intros Hok. unfold App.handle_command.
  destruct (String.eqb_spec command "exit") as [->|Hexit].
  { exists (Ok true), st. do 2 (split; [done|]). split; [split; [by left|done]|].
    do 3 (split; [done|]). by left. }
  destruct (String.eqb_spec command "quit") as [->|Hquit].
  { exists (Ok true), st. do 2 (split; [done|]). split; [split; [by right|done]|].
    do 3 (split; [done|]). by left. }
  cbn [orb].
  destruct (String.eqb_spec command "new") as [->|Hnew].
  { erewrite bind_run by apply create_session_bound.
    erewrite bind_run.
    2:{ unfold deref. cbn [bound heap]. rewrite lookup_app_r by done.
        by rewrite Nat.sub_diag. }
    rewrite display_info_then.
    apply (command_shows ui (InfoPanel _) "new" st); try done.
    - apply (store_ok_bound st (Session.mk uuid4 [] now None)). by destruct Hok.
    - intros r Hr. cbn. by apply lookup_app_l. }
  destruct (String.eqb_spec command "list") as [->|Hlist].
  { pose proof (handle_command_list uuid4 now args ui st Hok) as Hl.
    unfold App.handle_command in Hl. cbn [String.eqb Ascii.eqb Bool.eqb orb] in Hl.
    rewrite Hl. exists (Ok false), st. do 2 (split; [done|]).
    split; [split; [done|by intros [?|?]]|]. do 3 (split; [done|]).
    right. by left. }
  destruct (String.eqb_spec command "switch") as [->|Hswitch].
  { destruct (truthy args); cbn [negb].
    - rewrite switch_command_run.
      destruct (dict_get args (_sessions st)) as [r|] eqn:Hget.
      + rewrite display_info_then.
        apply (command_shows ui (InfoPanel _) "switch" st); try done.
        destruct Hok as (Hent & Hne & _).
        split; [done|]. split; [done|]. by exists r, args.
      + rewrite display_error_then.
        by apply (command_shows ui (ErrorPanel _) "switch" st).
    - rewrite display_error_then.
      by apply (command_shows ui (ErrorPanel _) "switch" st). }
  destruct (String.eqb_spec command "delete") as [->|Hdelete].
  { destruct (truthy args); cbn [negb].
    - rewrite delete_command_run.
      destruct (dict_get args (_sessions st)) as [r|] eqn:Hget.
      + destruct (delete_session_ok st uuid4 now args r Hok Hget)
          as (st1 & Hrun & Hok1 & Hc1 & Hsc & Hheap).
        rewrite Hrun, display_info_then.
        by apply (command_shows ui (InfoPanel _) "delete" st).
      + rewrite delete_session_run. unfold dict_in. rewrite Hget.
        rewrite display_error_then.
        by apply (command_shows ui (ErrorPanel _) "delete" st).
    - rewrite display_error_then.
      by apply (command_shows ui (ErrorPanel _) "delete" st). }
  rewrite display_error_then.
  by apply (command_shows ui (ErrorPanel _) command st).
Qed.

(** X20: in a store that satisfies the invariant a command returns, or
    raises MarkupError, and nothing else: the [KeyError] of [switch] and
    [delete] is caught, and [list] finds a current session.  It raises
    only at a panel whose text the console rejects, which is then not
    printed; a command that returns False is "list", which prints no panel,
    or has printed exactly one panel.  A command returns True exactly for
    "exit" and "quit", and then changes nothing.  Whether it returns or
    raises, a command keeps the invariant and leaves the existing session
    objects (their messages included) and the streaming buffer as they
    were. *)
Theorem handle_command_outcome
    (uuid4 now command args : string) (ui : ChatUI.t) (st : state) :
  store_ok st →
  ∃ (r : result bool) (st' : state),
    App.handle_command uuid4 now command args ui st = (r, st')
    ∧ store_ok st'
    ∧ (r = Ok true ↔ command = "exit" ∨ command = "quit")
    ∧ (r = Ok true → st' = st)
    ∧ (∀ r0, r0 < length (heap st) → heap st' !! r0 = heap st !! r0)
    ∧ streaming_content st' = streaming_content st
    ∧ (r = Ok true ∧ console st' = console st
       ∨ r = Ok false ∧ command = "list" ∧ console st' = console st
       ∨ (∃ q, ChatUI.renders ui (panel_text q) = true
            ∧ r = Ok false ∧ console st' = console st ++ [q])
       ∨ (∃ q, ChatUI.renders ui (panel_text q) = false
            ∧ r = Raise MarkupError ∧ console st' = console st)).
Proof. apply handle_command_run. Qed.

Lemma handle_command_outcome_witness :
  let a := Session.mk "a" [Message.mk "user" "Hello" "2025-02-24T12:00:00"]
             "2025-02-24T11:59:00" None in
  let st := State [a] [("a", 0)] (Some 0) ∅ "" [] in
  (∃ st' : state,
     App.handle_command "u" "2025-02-24T12:05:00" "delete" "a" ui_example st
       = (Ok false, st')
     ∧ store_ok st'
     ∧ heap st' !! 0 = Some a)
  ∧ ∃ st' : state,
      App.handle_command "u" "2025-02-24T12:05:00" "switch" "[/b]" ui_example st
        = (Raise MarkupError, st')
      ∧ store_ok st'
      ∧ console st' = [].
Proof.
  intros a st.
  assert (Hok : store_ok st).
  { split; [split|split].
    - simpl. apply NoDup_singleton.
    - repeat constructor. by eexists.
    - done.
    - by exists 0, "a". }
  split.
  - destruct (handle_command_outcome "u" "2025-02-24T12:05:00" "delete" "a" ui_example
                st Hok) as (r & st' & Hrun & Hok' & _ & _ & Hheap & _).
    assert (Hr : fst (App.handle_command "u" "2025-02-24T12:05:00" "delete" "a"
                        ui_example st) = Ok false) by (vm_compute; reflexivity).
    rewrite Hrun in Hr. simpl in Hr. subst r.
    exists st'. split; [exact Hrun|]. split; [exact Hok'|].
    rewrite Hheap; [done|simpl; lia].
  - destruct (handle_command_outcome "u" "2025-02-24T12:05:00" "switch" "[/b]" ui_example
                st Hok) as (r & st' & Hrun & Hok' & _ & _ & _ & _ & Hout).
    assert (Hr : fst (App.handle_command "u" "2025-02-24T12:05:00" "switch" "[/b]"
                        ui_example st) = Raise MarkupError) by (vm_compute; reflexivity).
    rewrite Hrun in Hr. simpl in Hr. subst r.
    exists st'. split; [exact Hrun|]. split; [exact Hok'|].
    destruct Hout as [[? _]|[[? _]|[(q & _ & ? & _)|(q & _ & _ & Hc)]]]; try discriminate.
    exact Hc.
Defined.

(** X21: the three user errors of the command surface ask for one error
    panel: "switch" or "delete" without argument (the usage line), with an
    id that the map does not hold ("Session not found", the [KeyError]
    being caught), and any command that is not one of the six.  When the
    console renders the text, the panel is printed, nothing else changes
    and the command returns False.  The last two texts carry what the user
    typed: when the console rejects the text, the command raises
    MarkupError and nothing changes at all. *)
Theorem handle_command_user_errors
    (uuid4 now command args : string) (ui : ChatUI.t) (st : state) :
  let report text :=
    if ChatUI.renders ui text
    then (Ok false, set_console (console st ++ [ErrorPanel text]) st)
    else (Raise MarkupError, st) in
  (command = "switch" ∨ command = "delete" →
     (args = "" →
        App.handle_command uuid4 now command args ui st
        = report ("Usage: /" +:+ command +:+ " <session_id>"))
     ∧ (args ≠ "" → dict_get args (_sessions st) = None →
        App.handle_command uuid4 now command args ui st
        = report ("Session not found: " +:+ args)))
  ∧ (command ∉ ["exit"; "quit"; "new"; "list"; "switch"; "delete"] →
     App.handle_command uuid4 now command args ui st
     = report ("Unknown command: /" +:+ command)).
Proof.
  intros report. unfold report. split.
  - intros [->| ->]; (split; [intros ->; apply display_error_then|]); intros Hne Hget;
      apply truthy_spec in Hne; unfold App.handle_command;
      cbn [String.eqb Ascii.eqb Bool.eqb orb]; rewrite Hne; cbn [negb].
    + by rewrite switch_command_run, Hget, display_error_then.
    + rewrite delete_command_run, delete_session_run. unfold dict_in. rewrite Hget.
      by rewrite display_error_then.
  - intros Hnot. unfold App.handle_command.
    repeat match goal with
    | |- context [String.eqb command ?c] =>
        destruct (String.eqb_spec command c) as [->|?];
        [exfalso; apply Hnot; rewrite !elem_of_cons; tauto|]
    end.
    apply display_error_then.
Qed.

Lemma handle_command_user_errors_witness :
  let a := Session.mk "a" [] "2025-02-24T11:59:00" None in
  let st := State [a] [("a", 0)] (Some 0)
              (<["ghost" := Parsed (Session.to_dict a)]> ∅) "" [] in
  App.handle_command "u" "2025-02-24T12:05:00" "delete" "ghost" ui_example st
    = (Ok false, set_console [ErrorPanel "Session not found: ghost"] st)
  ∧ App.handle_command "u" "2025-02-24T12:05:00" "help" "" ui_example st
    = (Ok false, set_console [ErrorPanel "Unknown command: /help"] st)
  ∧ App.handle_command "u" "2025-02-24T12:05:00" "[/x]" "" ui_example st
    = (Raise MarkupError, st).
Proof.
  intros a st.
  destruct (handle_command_user_errors "u" "2025-02-24T12:05:00" "delete" "ghost"
              ui_example st) as [Hsd _].
  destruct (handle_command_user_errors "u" "2025-02-24T12:05:00" "help" ""
              ui_example st) as [_ Hunknown].
  destruct (handle_command_user_errors "u" "2025-02-24T12:05:00" "[/x]" ""
              ui_example st) as [_ Hmarkup].
  split; [|split].
  - rewrite (proj2 (Hsd (or_intror eq_refl))); [reflexivity|discriminate|reflexivity].
  - rewrite Hunknown; [reflexivity|]. rewrite !elem_of_cons, elem_of_nil.
    intros [H|[H|[H|[H|[H|[H|[]]]]]]]; discriminate H.
  - rewrite Hmarkup; [reflexivity|]. rewrite !elem_of_cons, elem_of_nil.
    intros [H|[H|[H|[H|[H|[H|[]]]]]]]; discriminate H.
Defined.

(** X22: the command "new" does not read its argument: whatever follows
    it, the session created has no system prompt and no message, becomes
    current and is not written to the directory.  The info panel shows the
    first eight characters of its id and the command returns False; should
    the console reject that text, the command raises MarkupError with the
    session created all the same. *)
Theorem handle_command_new_ignores_args
    (uuid4 now args : string) (ui : ChatUI.t) (st : state) :
  let text := "Created new session: " +:+ String.substring 0 8 uuid4 in
  let created printed :=
    State (heap st ++ [Session.mk uuid4 [] now None])
          (dict_set uuid4 (length (heap st)) (_sessions st))
          (Some (length (heap st)))
          (sessions_dir st) (streaming_content st) printed in
  App.handle_command uuid4 now "new" args ui st =
    if ChatUI.renders ui text
    then (Ok false, created (console st ++ [InfoPanel text]))
    else (Raise MarkupError, created (console st)).
Proof.
  intros text created.
  unfold App.handle_command. cbn [String.eqb Ascii.eqb Bool.eqb orb].
  erewrite bind_run by apply create_session_run.
  erewrite bind_run.
  2:{ unfold deref. cbn [heap]. rewrite lookup_app_r by done.
      by rewrite Nat.sub_diag. }
  rewrite display_info_then. reflexivity.
Qed.

(** ** The input loop *)

Lemma render_conversation_run (st : state) :
  store_ok st → App.render_conversation st = (Ok tt, st).
Proof.
  intros Hok. destruct (store_ok_current st Hok) as (c & s & Hc & Hs & _).
  unfold App.render_conversation.
  erewrite bind_run by (by apply the_current_session_run).
  erewrite bind_run by (unfold deref; by rewrite Hs). reflexivity.
Qed.

Lemma chat_stream_uncaught (c : LLM.LLMClient) (messages : list (dict string))
    (text : string) :
  (LLM.chat_stream c messages).2 = Some (BaseException text) →
  ∃ x, raised (LLM.client c (LLM.model c) (request c messages)) = Some x
       ∧ caught x = false ∧ LLM.text x = text.
Proof.
  rewrite chat_stream_request.
  destruct (LLM.client c _ _) as [x|cs [x|]]; simpl; try done.
  all: destruct (caught x) eqn:Hx;
    [rewrite wrap_caught by done; done|rewrite wrap_uncaught by done].
  all: intros [= <-]; by exists x.
Qed.

Lemma store_ok_chat_turn
    (llm_client : LLM.LLMClient) (ui : ChatUI.t)
    (user_input now_user now_assistant : string) (st : state) :
  store_ok st →
  ∃ (r : result unit) (st' : state),
    Main.chat_turn llm_client ui user_input now_user now_assistant st = (r, st')
    ∧ store_ok st'
    ∧ (r = Ok tt
       ∨ (r = Raise MarkupError ∧ ∃ text, ChatUI.renders ui text = false)
       ∨ ∃ x messages, r = Raise (BaseException (LLM.text x))
           ∧ raised (LLM.client llm_client (LLM.model llm_client) messages) = Some x
           ∧ caught x = false).
Proof.
  intros Hok. destruct (store_ok_current st Hok) as (c & s & Hc & Hs & Hget).
  destruct (chat_turn_run llm_client ui st c s user_input now_user now_assistant Hc Hs)
    as (r & s' & buffer & shown & Hrun & Hs' & Hend).
  assert (Hid : Session.id s' = Session.id s).
  { by destruct Hs' as [->|(reply & _ & _ & _ & ->)]. }
  eexists r, _. split; [exact Hrun|]. split.
  - destruct Hok as ([Hnd Hall] & Hne & _).
    split; [split|split]; cbn [_sessions current_session heap]; try done.
    + apply Forall_forall. intros [k r0] He. rewrite Forall_forall in Hall.
      destruct (Hall _ He) as (s0 & Hs0 & Hk). simpl in Hs0, Hk.
      destruct (decide (r0 = c)) as [->|Hr].
      * exists s'. simpl. split; [|congruence].
        apply list_lookup_insert_eq. by eapply lookup_lt_Some.
      * exists s0. simpl. split; [|done]. by rewrite list_lookup_insert_ne.
    + by exists c, (Session.id s).
  - inversion Hend as [shown' Hb Hshown|msg Hb Hf Hrej|text Hb Hf]; subst.
    + by left.
    + right. left. split; [done|]. by eexists.
    + right. right. apply chat_stream_uncaught in Hf as (x & Hx & Hcaught & <-).
      by eexists x, _.
Qed.

(** X23: from a store that satisfies the invariant, the input loop keeps
    it through every script, however the loop ends: after any sequence of
    commands and chat turns, with any client, the map is not empty and the
    current session is held by the map.  The loop ends by a break (end of
    input, "exit", "quit"), by the IndexError of a command line without a
    command, by a MarkupError, which needs a text that the console
    rejects, or by an exception of the SDK that no clause of [chat_stream]
    catches, which needs a request that the SDK ends with one; no other
    exception leaves it. *)
Theorem run_chat_loop_keeps_store
    (llm_client : LLM.LLMClient) (ui : ChatUI.t) (script : list (string * draws))
    (st : state) :
  store_ok st →
  store_ok (snd (App.run_chat_loop llm_client ui script st))
  ∧ (fst (App.run_chat_loop llm_client ui script st) = Break
     ∨ fst (App.run_chat_loop llm_client ui script st) = IndexError
     ∨ (fst (App.run_chat_loop llm_client ui script st) = Uncaught MarkupError
        ∧ ∃ text, ChatUI.renders ui text = false)
     ∨ ∃ x messages,
         fst (App.run_chat_loop llm_client ui script st)
           = Uncaught (BaseException (LLM.text x))
         ∧ raised (LLM.client llm_client (LLM.model llm_client) messages) = Some x
         ∧ caught x = false).
Proof.
  revert st. induction script as [|[user_input d] script IH]; intros st Hok.
  - cbn [App.run_chat_loop]. rewrite render_conversation_run by done. split; [done|by left].
  - cbn [App.run_chat_loop]. rewrite render_conversation_run by done.
    destruct (truthy user_input); cbn [negb]; [|by apply IH].
    destruct (startswith_slash user_input).
    + destruct (split_maxsplit_1 (drop_first user_input)) as [|command parts].
      { split; [done|]. right. by left. }
      destruct (handle_command_run (drawn_uuid4 d) (drawn_now d) command
                  (match parts with a :: _ => a | [] => "" end) ui st Hok)
        as (r & st' & Hrun & Hok' & _ & _ & _ & _ & Hout).
      rewrite Hrun.
      destruct Hout as [[-> _]|[(-> & _)|[(q & _ & -> & _)|(q & Hq & -> & _)]]].
      * split; [done|by left].
      * by apply IH.
      * by apply IH.
      * split; [done|]. right. right. left. split; [done|]. by eexists.
    + destruct (store_ok_chat_turn llm_client ui user_input (drawn_now d)
                  (drawn_now_assistant d) st Hok) as (r & st' & Hrun & Hok' & Hout).
      rewrite Hrun.
      destruct Hout as [->|[[-> Hrej]|(x & messages & -> & Hx & Hcaught)]].
      * by apply IH.
      * split; [done|]. right. right. by left.
      * split; [done|]. right. right. right. by exists x, messages.
Qed.

Lemma lstrip_spaces (ws : string) :
  (∀ c, c ∈ list_ascii_of_string ws → isspace c = true) → lstrip ws = "".
Proof.
  induction ws as [|c ws IH]; [done|]. intros Hall. cbn [lstrip].
  rewrite (Hall c) by apply list_elem_of_here.
  apply IH. intros c' Hc'. apply Hall. cbn. by apply list_elem_of_further.
Qed.

(** X24: a line made of "/" alone, or of "/" followed by white space only,
    has no command: [parts[0]] raises IndexError, which nothing in the
    loop catches; the loop stops there, the rest of the input is not read
    and the state is as it was. *)
Theorem run_chat_loop_bare_slash
    (llm_client : LLM.LLMClient) (ui : ChatUI.t) (ws : string) (d : draws)
    (script : list (string * draws)) (st : state) :
  store_ok st →
  (∀ c, c ∈ list_ascii_of_string ws → isspace c = true) →
  App.run_chat_loop llm_client ui (("/" +:+ ws, d) :: script) st = (IndexError, st).
Proof.
  intros Hok Hws. cbn [App.run_chat_loop]. rewrite render_conversation_run by done.
  change ("/" +:+ ws) with (String "/" ws).
  cbn [truthy String.eqb negb startswith_slash Ascii.eqb Bool.eqb drop_first].
  unfold split_maxsplit_1. by rewrite lstrip_spaces.
Qed.

(** X25: a line whose first word after "/" is "exit" or "quit" ends the
    loop by a break, whatever follows the word on the line: the state is
    as it was and the rest of the input is not read. *)
Theorem run_chat_loop_exit
    (llm_client : LLM.LLMClient) (ui : ChatUI.t) (line command : string)
    (parts : list string) (d : draws) (script : list (string * draws)) (st : state) :
  store_ok st →
  split_maxsplit_1 line = command :: parts →
  command = "exit" ∨ command = "quit" →
  App.run_chat_loop llm_client ui ((String "/" line, d) :: script) st = (Break, st).
Proof.
  intros Hok Hsplit Hcmd. cbn [App.run_chat_loop].
  rewrite render_conversation_run by done.
  cbn [truthy String.eqb negb startswith_slash Ascii.eqb Bool.eqb drop_first].
  rewrite Hsplit. by destruct Hcmd as [-> | ->].
Qed.

Lemma split_two_items (s w rest : string) :
  lstrip s = s → s ≠ "" → first_word s = (w, rest) → lstrip rest ≠ "" →
  split_maxsplit_1 s = [w; lstrip rest].
Proof.
  intros Hs Hne Hw Hrest. unfold split_maxsplit_1. rewrite Hs.
  destruct s as [|c s]; [done|]. rewrite Hw. by destruct (lstrip rest).
Qed.

(** X26: the line "/switch " followed by an id that the map holds makes
    that session current and changes nothing else but the console; the id
    is everything after the white space that follows the word, so it may
    contain spaces (but must not start with one).  The info panel shows
    the first eight characters of the id and the loop goes on to the end
    of the input; should the console reject that text, the loop is left by
    MarkupError, with the session switched and no panel. *)
Theorem run_chat_loop_switch_line
    (llm_client : LLM.LLMClient) (ui : ChatUI.t) (session_id : string) (r : nat)
    (d : draws) (st : state) :
  store_ok st →
  session_id ≠ "" →
  lstrip session_id = session_id →
  dict_get session_id (_sessions st) = Some r →
  let text := "Switched to session: " +:+ String.substring 0 8 session_id in
  let switched printed :=
    State (heap st) (_sessions st) (Some r) (sessions_dir st) (streaming_content st)
          printed in
  App.run_chat_loop llm_client ui [("/switch " +:+ session_id, d)] st =
    if ChatUI.renders ui text
    then (Break, switched (console st ++ [InfoPanel text]))
    else (Uncaught MarkupError, switched (console st)).
Proof.
  intros Hok Hne Hlstrip Hget text switched. cbn [App.run_chat_loop].
  rewrite render_conversation_run by done.
  change ("/switch " +:+ session_id) with (String "/" ("switch " +:+ session_id)).
  cbn [truthy String.eqb negb startswith_slash Ascii.eqb Bool.eqb drop_first].
  assert (Hsplit : split_maxsplit_1 ("switch " +:+ session_id) = ["switch"; session_id]).
  { rewrite (split_two_items ("switch " +:+ session_id) "switch" (String " " session_id));
      try reflexivity; try done.
    - change (lstrip (String " " session_id)) with (lstrip session_id). by rewrite Hlstrip.
    - change (lstrip (String " " session_id)) with (lstrip session_id). by rewrite Hlstrip. }
  rewrite Hsplit. unfold App.handle_command.
  cbn [String.eqb Ascii.eqb Bool.eqb orb]. apply truthy_spec in Hne. rewrite Hne.
  cbn [negb]. rewrite switch_command_run, Hget, display_info_then. fold text.
  destruct (ChatUI.renders ui text); [|done].
  rewrite render_conversation_run; [done|].
  apply store_ok_set_console. destruct Hok as (Hent & Hnil & _).
  split; [done|]. split; [done|]. by exists r, session_id.
Qed.

Lemma run_chat_loop_keeps_store_witness :
  let a := Session.mk "a" [] "2025-02-24T11:59:00" None in
  let st := State [a] [("a", 0)] (Some 0) ∅ "" [] in
  let d := Draws "u1" "2025-02-24T12:00:00" "2025-02-24T12:00:05" in
  let c := client_answering
             (LLM.create_raises (LLM.Build_exception true false true "no route")) in
  let script := [("hello", d); ("/delete a", d); ("/switch nowhere", d);
                 ("", d); ("/ ", d); ("/exit", d)] in
  let interrupted :=
    client_answering
      (LLM.streams [chunk_of (Some "Hel")]
         (Some (LLM.Build_exception false false false ""))) in
  store_ok (snd (App.run_chat_loop c ui_example script st))
  ∧ fst (App.run_chat_loop c ui_example script st) = IndexError
  ∧ store_ok (snd (App.run_chat_loop interrupted ui_example script st))
  ∧ fst (App.run_chat_loop interrupted ui_example script st)
    = Uncaught (BaseException "").
Proof.
  intros a st d c script interrupted.
  assert (Hok : store_ok st).
  { split; [split|split].
    - simpl. apply NoDup_singleton.
    - repeat constructor. by eexists.
    - done.
    - by exists 0, "a". }
  destruct (run_chat_loop_keeps_store c ui_example script st Hok) as [Hstore _].
  destruct (run_chat_loop_keeps_store interrupted ui_example script st Hok)
    as [Hstore' _].
  split; [exact Hstore|]. split; [vm_compute; reflexivity|].
  split; [exact Hstore'|]. vm_compute. reflexivity.
Defined.

Lemma run_chat_loop_bare_slash_witness :
  let a := Session.mk "a" [] "2025-02-24T11:59:00" None in
  let st := State [a] [("a", 0)] (Some 0) ∅ "" [] in
  let d := Draws "u1" "2025-02-24T12:00:00" "2025-02-24T12:00:05" in
  let c := client_answering (LLM.streams [chunk_of (Some "Hello!")] None) in
  App.run_chat_loop c ui_example [("/  ", d); ("hello", d)] st = (IndexError, st).
Proof.
  intros a st d c.
  apply (run_chat_loop_bare_slash c ui_example "  " d [("hello", d)] st).
  - split; [split|split].
    + simpl. apply NoDup_singleton.
    + repeat constructor. by eexists.
    + done.
    + by exists 0, "a".
  - intros ch Hch. cbn in Hch. rewrite !elem_of_cons, elem_of_nil in Hch.
    by destruct Hch as [->|[->|[]]].
Defined.

Lemma run_chat_loop_exit_witness :
  let a := Session.mk "a" [] "2025-02-24T11:59:00" None in
  let st := State [a] [("a", 0)] (Some 0) ∅ "" [] in
  let d := Draws "u1" "2025-02-24T12:00:00" "2025-02-24T12:00:05" in
  let c := client_answering (LLM.streams [chunk_of (Some "Hello!")] None) in
  App.run_chat_loop c ui_example [("/quit  right now ", d); ("hello", d)] st = (Break, st).
Proof.
  intros a st d c.
  apply (run_chat_loop_exit c ui_example "quit  right now " "quit" ["right now "] d
           [("hello", d)] st).
  - split; [split|split].
    + simpl. apply NoDup_singleton.
    + repeat constructor. by eexists.
    + done.
    + by exists 0, "a".
  - reflexivity.
  - by right.
Defined.

Lemma run_chat_loop_switch_line_witness :
  let a := Session.mk "a" [] "2025-02-24T11:59:00" None in
  let b := Session.mk "my session" [] "2025-02-24T11:58:00" None in
  let st := State [a; b] [("a", 0); ("my session", 1)] (Some 0) ∅ "" [] in
  let d := Draws "u1" "2025-02-24T12:00:00" "2025-02-24T12:00:05" in
  let c := client_answering (LLM.streams [chunk_of (Some "Hello!")] None) in
  App.run_chat_loop c ui_example [("/switch my session", d)] st
    = (Break,
       State [a; b] [("a", 0); ("my session", 1)] (Some 1) ∅ ""
             [InfoPanel "Switched to session: my sessi"]).
Proof.
  intros a b st d c.
  apply (run_chat_loop_switch_line c ui_example "my session" 1 d st).
  - split; [split|split].
    + simpl. apply NoDup_cons. split; [|apply NoDup_singleton].
      rewrite list_elem_of_singleton. discriminate.
    + repeat constructor; by eexists.
    + done.
    + by exists 0, "a".
  - discriminate.
  - reflexivity.
  - reflexivity.
Defined.

(** ** Environment variables *)

(** X27: [load_env_vars] returns the two values exactly when both
    variables are set to non-empty strings (an empty value counts as
    unset); otherwise it raises [ValueError], and the base URL is looked at
    first: when it is missing or empty the message names OPENAI_BASE_URL,
    whatever the API key is. *)
Theorem load_env_vars_loaded_iff (base_url api_key : option string) :
  (∀ b k, App.load_env_vars base_url api_key = App.Loaded b k
          ↔ base_url = Some b ∧ api_key = Some k ∧ b ≠ "" ∧ k ≠ "")
  ∧ (base_url = None ∨ base_url = Some "" →
     App.load_env_vars base_url api_key
     = App.ValueError ("OPENAI_BASE_URL environment variable is not set. "
                       +:+ "Create a .env file with OPENAI_BASE_URL and OPENAI_API_KEY."))
  ∧ ((∃ b, base_url = Some b ∧ b ≠ "") → (api_key = None ∨ api_key = Some "") →
     App.load_env_vars base_url api_key
     = App.ValueError ("OPENAI_API_KEY environment variable is not set. "
                       +:+ "Create a .env file with OPENAI_BASE_URL and OPENAI_API_KEY.")).
Proof.
  split; [|split].
  - intros b k. unfold App.load_env_vars. split.
    + destruct base_url as [b'|]; [|done].
      destruct (truthy b') eqn:Hb; [|done].
      destruct api_key as [k'|]; [|done].
      destruct (truthy k') eqn:Hk; [|done].
      intros [= <- <-]. by rewrite <- !truthy_spec.
    + intros (-> & -> & Hb & Hk). apply truthy_spec in Hb, Hk. by rewrite Hb, Hk.
  - by intros [-> | ->].
  - intros (b & -> & Hb) Hk. unfold App.load_env_vars.
    apply truthy_spec in Hb. rewrite Hb. by destruct Hk as [-> | ->].
Qed.

Lemma load_env_vars_loaded_iff_witness :
  App.load_env_vars (Some "https://api.example.com/v1") (Some "sk-test")
    = App.Loaded "https://api.example.com/v1" "sk-test"
  ∧ App.load_env_vars (Some "") None
    = App.ValueError ("OPENAI_BASE_URL environment variable is not set. "
                      +:+ "Create a .env file with OPENAI_BASE_URL and OPENAI_API_KEY.").
Proof.
  split.
  - apply (proj1 (load_env_vars_loaded_iff (Some "https://api.example.com/v1")
                    (Some "sk-test"))).
    by repeat split.
  - apply (proj1 (proj2 (load_env_vars_loaded_iff (Some "") None))). by right.
Defined.

(** ** The sessions panel *)

Lemma display_sessions_list_from_rows (i : nat) (sessions : list nat)
    (current_id : string) (st : state) :
  Forall (λ r : nat, is_Some (heap st !! r)) sessions →
  ∃ rows,
    App.display_sessions_list_from i sessions current_id st = (Ok rows, st)
    ∧ map number rows = seq (i + 1) (length sessions)
    ∧ length (filter (λ w : row, marked w = true) rows)
      = length (filter (λ r : nat, id_of st r = current_id) sessions).
Proof.
  intros Hall. revert i. induction Hall as [|r l [s Hs] _ IH]; intros i.
  - by exists [].
  - destruct (IH (S i)) as (rows & Hrows & Hnum & Hmark).
    cbn [App.display_sessions_list_from]. munfold. rewrite Hs, Hrows.
    eexists. split; [done|]. split.
    + cbn [map number length seq]. rewrite Hnum. reflexivity.
    + assert (Hid : id_of st r = Session.id s) by (unfold id_of; by rewrite Hs).
      rewrite !filter_cons. cbn [marked].
      destruct (decide (Session.id s = current_id)) as [Heq|Hne].
      * rewrite (decide_True (P := bool_decide (Session.id s = current_id) = true))
          by (by apply bool_decide_eq_true_2).
        rewrite (decide_True (P := id_of st r = current_id)) by congruence.
        cbn [length]. by rewrite Hmark.
      * rewrite (decide_False (P := bool_decide (Session.id s = current_id) = true)).
        2:{ rewrite bool_decide_eq_false_2 by done. discriminate. }
        rewrite (decide_False (P := id_of st r = current_id)) by congruence.
        exact Hmark.
Qed.

Lemma filter_key_once {V : Type} (k : string) (v : V) (d : list (string * V)) :
  NoDup (dict_keys d) → dict_get k d = Some v →
  length (filter (λ e : string * V, e.1 = k) d) = 1.
Proof.
  induction d as [|[k' v'] d IH]; [done|].
  cbn [dict_keys map fst dict_get]. rewrite NoDup_cons. intros [Hnotin Hnd].
  rewrite filter_cons. cbn [fst].
  destruct (decide (k = k')) as [->|Hne].
  - intros _. rewrite decide_True by done. cbn [length]. f_equal.
    assert (Hnone : filter (λ e : string * V, e.1 = k') d = []); [|by rewrite Hnone].
    destruct (filter _ d) as [|[k0 v0] rest] eqn:Hf; [done|].
    assert (Hin : (k0, v0) ∈ filter (λ e : string * V, e.1 = k') d)
      by (rewrite Hf; apply list_elem_of_here).
    apply list_elem_of_filter in Hin as [Hk0 Hin]. simpl in Hk0. subst k0.
    destruct Hnotin. unfold dict_keys. apply list_elem_of_fmap. by exists (k', v0).
  - intros Hget. rewrite decide_False by (intros Heq; by apply Hne). by apply IH.
Qed.

Lemma filter_values_by_id (st : state) (current_id : string) (d : list (string * nat)) :
  Forall (entry_ok st) d →
  length (filter (λ r : nat, id_of st r = current_id) (dict_values d))
  = length (filter (λ e : string * nat, e.1 = current_id) d).
Proof.
  induction 1 as [|[k r] d (s & Hs & Hid) _ IH]; [done|].
  simpl in Hs, Hid.
  assert (Hr : id_of st r = k) by (unfold id_of; by rewrite Hs).
  unfold dict_values in *. cbn [map snd]. rewrite !filter_cons. cbn [fst].
  destruct (decide (k = current_id)) as [Heq|Hne].
  - rewrite (decide_True (P := id_of st r = current_id)) by congruence.
    cbn [length]. by rewrite IH.
  - rewrite (decide_False (P := id_of st r = current_id)) by congruence.
    exact IH.
Qed.

(** X28: in a store that satisfies the invariant the sessions panel of the
    "list" command has one row per session of the map, numbered from 1 in
    the order of [list], and exactly one row bears the mark of the current
    session. *)
Theorem sessions_panel_marks_current_once (st : state) :
  store_ok st →
  ∃ (sessions : list nat) (c : nat) (s : Session.t) (rows : list row),
    SessionManager.list_sessions st = (Ok sessions, st)
    ∧ current_session st = Some c
    ∧ heap st !! c = Some s
    ∧ App.display_sessions_list sessions (Session.id s) st = (Ok rows, st)
    ∧ length rows = length (_sessions st)
    ∧ map number rows = seq 1 (length rows)
    ∧ length (filter (λ w : row, marked w = true) rows) = 1.
Proof.
  intros Hok. destruct (store_ok_current st Hok) as (c & s & Hc & Hs & Hget).
  destruct Hok as ([Hnd Hall] & _).
  assert (Hlive : live st) by (by apply entries_ok_live).
  set (sessions := sort_desc (created_at_of st) (dict_values (_sessions st))).
  assert (Hperm : sessions ≡ₚ dict_values (_sessions st)) by apply sort_desc_perm.
  destruct (display_sessions_list_from_rows 0 sessions (Session.id s) st)
    as (rows & Hrows & Hnum & Hmark).
  { unfold live in Hlive. by rewrite Hperm. }
  assert (Hlen : length rows = length sessions).
  { rewrite <- (length_map number), Hnum. apply length_seq. }
  exists sessions, c, s, rows.
  split; [by apply list_sessions_run|]. do 2 (split; [done|]).
  split; [exact Hrows|]. split.
  { rewrite Hlen, Hperm. unfold dict_values. apply length_map. }
  split; [by rewrite Hnum, Hlen|].
  rewrite Hmark, Hperm, (filter_values_by_id st (Session.id s) _ Hall).
  by apply (filter_key_once _ c).
Qed.

Lemma sessions_panel_marks_current_once_witness :
  let a := Session.mk "0123456789" [Message.mk "user" "Hello" "2025-02-24T12:00:00"]
             "2025-02-24T11:59:00" None in
  let b := Session.mk "b" [] "2025-02-24T12:30:00" None in
  let st := State [a; b] [("0123456789", 0); ("b", 1)] (Some 0) ∅ "" [] in
  App.display_sessions_list [1; 0] "0123456789" st
    = (Ok [Row false 1 "b" 0; Row true 2 "01234567" 1], st).
Proof.
  intros a b st.
  assert (Hok : store_ok st).
  { split; [split|split].
    - simpl. apply NoDup_cons. split; [|apply NoDup_singleton].
      rewrite list_elem_of_singleton. discriminate.
    - repeat constructor; by eexists.
    - done.
    - by exists 0, "0123456789". }
  destruct (sessions_panel_marks_current_once st Hok)
    as (sessions & c & s & rows & Hlist & Hc & Hs & Hrows & _).
  reflexivity.
Defined.
